(** * PromptPilot: analytics aggregation, run simulation and the schema's policies

    A shallow embedding of the pages [Analytics] and [Run] and of the
    migration that declares the tables, their foreign keys and their
    row-level-security policies.

    Conventions of the embedding.
    - A JavaScript number is modelled by a rational ([Q]); integer columns
      of the schema are [Z].  [Math.round] is [floor (x + 1/2)] and
      [Math.floor] is [Qfloor].
    - Where the rounding of binary64 decides an integer that the page shows
      or a bound that is claimed, the operation is modelled with its
      rounding ([JS.add], [JS.mul], [JS.div]: the exact result rounded to
      the nearest double, ties to even): the success rate, the percentages
      of the breakdown, the token count and the delay of the simulator.
      A value of [Math.random()] is a double: the theorems that need it
      assume [JS.representable] of it.
    - Counts and sums of integer latencies are exact in binary64 and are
      computed in [Z]; the quotient of the average latency is left exact,
      its rounding changing [Math.round] of it only for a sum of 2^52 or
      more.  The sum of the costs and the cost of a run are left exact as
      well: what is proved of them is the formula, up to the rounding of
      its last bit, and no claim of order independence is made of the sum
      ([AnalyticsPage.totalCost_binary64] is the sum as binary64 computes
      it).  Overflow to infinity (above about 1.8e308) is outside every
      range used here and is not modelled.
    - A nullable column is an [option]; [x || 0] is written out on it.
    - An [async] handler is a computation in a small monad that threads the
      state the handler can touch and carries the three ways a block can end
      (normally, by [return], by [throw]), so that [try]/[catch]/[finally] is
      modelled as written.
    - What the outside world supplies (the answer of the record store, the
      pseudo-random source, the clock) is an explicit argument. *)

From Stdlib Require Import List String Ascii Bool Arith ZArith QArith Qround.
From Stdlib Require Import Qabs Qpower.
From Stdlib Require Import Lia Lqa Permutation Sorted.
Import ListNotations.

Local Open Scope string_scope.

(* ===================================================================== *)
(** * JavaScript fragments used by the pages *)
(* ===================================================================== *)

Module JS.

(** [Math.round]: the nearest integer, a tie going up. *)
Definition Math_round (x : Q) : Z := Qfloor (x + (1 # 2)).

(** [Math.floor]. *)
Definition Math_floor (x : Q) : Z := Qfloor x.

(** ** binary64

    A double is a rational [m * 2^e] with [|m| < 2^53] and [e >= -1074].
    The result of an arithmetic operation is the exact result rounded to the
    nearest such number, a tie going to the even [m]. *)

Definition pow2 (e : Z) : Q := Qpower 2 e.

(** The nearest integer, a tie going to the even one. *)
Definition round_half_even (x : Q) : Z :=
  let f := Qfloor x in
  match Qcompare (x - inject_Z f) (1 # 2) with
  | Lt => f
  | Gt => (f + 1)%Z
  | Eq => if Z.even f then f else (f + 1)%Z
  end.

(** For a positive [x], the [k] with [2^k <= x < 2^(k+1)]. *)
Definition ilog2 (x : Q) : Z :=
  let k := (Z.log2 (Qnum x) - Z.log2 (Zpos (Qden x)))%Z in
  if Qle_bool (pow2 k) x then k else (k - 1)%Z.

(** The exponent of the last place of the doubles around [x]: 52 binary
    places below the leading one, and never below that of the subnormal
    numbers. *)
Definition exponent (x : Q) : Z := Z.max (ilog2 (Qabs x) - 52) (-1074).

(** The double nearest to [x]. *)
Definition binary64 (x : Q) : Q :=
  if Qeq_bool x 0 then 0
  else inject_Z (round_half_even (x / pow2 (exponent x))) * pow2 (exponent x).

(** [x] is a double. *)
Definition representable (x : Q) : Prop := binary64 x == x.

(** [x + y], [x * y] and [x / y] on doubles. *)
Definition add (x y : Q) : Q := binary64 (x + y).
Definition mul (x y : Q) : Q := binary64 (x * y).
Definition div (x y : Q) : Q := binary64 (x / y).

(** [x || 0] on a nullable integer: null (and 0) give 0. *)
Definition or0Z (x : option Z) : Z :=
  match x with
  | Some z => z
  | None => 0%Z
  end.

(** [x || 0] on a nullable number. *)
Definition or0Q (x : option Q) : Q :=
  match x with
  | Some q => if Qeq_bool q 0 then 0 else q
  | None => 0
  end.

(** ** Values an object property can hold in [loadAnalytics] *)

Inductive value : Type :=
| VUndefined
| VNaN
| VNumber (q : Q)
| VString (s : string)
| VFunction (name : string)      (* a built-in function, by its name *)
| VObjectPrototype.              (* the object Object.prototype itself *)

(** The source text of a built-in function, as [Function.prototype.toString]
    prints it. *)
Definition native_source (name : string) : string :=
  "function " ++ name ++ "() { [native code] }".

(** ToBoolean. *)
Definition truthy (v : value) : bool :=
  match v with
  | VUndefined | VNaN => false
  | VNumber q => negb (Qeq_bool q 0)
  | VString s => negb (s =? "")
  | VFunction _ | VObjectPrototype => true
  end.

(** [v || 0]. *)
Definition or_zero (v : value) : value :=
  if truthy v then v else VNumber 0.

(** [v + 1]: numeric addition on a number, string concatenation as soon as
    the left operand converts to a string. *)
Definition plus_one (v : value) : value :=
  match v with
  | VUndefined | VNaN => VNaN
  | VNumber q => VNumber (q + 1)
  | VString s => VString (s ++ "1")
  | VFunction name => VString (native_source name ++ "1")
  | VObjectPrototype => VString "[object Object]1"
  end.

(** [(v / n) * 100] for a positive length [n].  The strings that reach this
    point are those built by [plus_one]; they start with [function] or with
    [[object] and are not numeric literals, so ToNumber gives NaN on them. *)
Definition percent_of (v : value) (n : nat) : value :=
  match v with
  | VNumber q => VNumber (mul (div q (inject_Z (Z.of_nat n))) 100)
  | _ => VNaN
  end.

(** ** Ordinary objects created by the literal [{}]

    The own properties, in the order of their creation; the prototype is
    Object.prototype. *)

Definition object : Type := list (string * value).

Definition empty_object : object := [].

Fixpoint own (o : object) (k : string) : option value :=
  match o with
  | [] => None
  | (k', v) :: o' => if k' =? k then Some v else own o' k
  end.

(** The methods of Object.prototype. *)
Definition prototype_methods : list string :=
  [ "constructor"; "hasOwnProperty"; "isPrototypeOf"; "propertyIsEnumerable";
    "toLocaleString"; "toString"; "valueOf";
    "__defineGetter__"; "__defineSetter__";
    "__lookupGetter__"; "__lookupSetter__" ].

Definition is_prototype_method (k : string) : bool :=
  existsb (String.eqb k) prototype_methods.

(** The name of the function a method key holds: [constructor] is [Object],
    the others are named after their key. *)
Definition method_name (k : string) : string :=
  if k =? "constructor" then "Object" else k.

(** Reading a property of Object.prototype; [__proto__] is an accessor whose
    getter returns the prototype of the receiver. *)
Definition prototype_get (k : string) : value :=
  if k =? "__proto__" then VObjectPrototype
  else if is_prototype_method k then VFunction (method_name k)
  else VUndefined.

(** [o[k]]: the own property, or else what the prototype has. *)
Definition get (o : object) (k : string) : value :=
  match own o k with
  | Some v => v
  | None => prototype_get k
  end.

Fixpoint update (o : object) (k : string) (v : value) : object :=
  match o with
  | [] => [(k, v)]
  | (k', v') :: o' =>
      if k' =? k then (k', v) :: o' else (k', v') :: update o' k v
  end.

(** [o[k] = v] for a primitive [v] (the result of [+] is one).  The setter of
    [__proto__] ignores a primitive; any other key becomes or stays an own
    property. *)
Definition set (o : object) (k : string) (v : value) : object :=
  if k =? "__proto__" then o else update o k v.

(** ** Object.entries

    Own keys that are array indices come first, in increasing order, then the
    other keys in the order of their creation. *)

Definition digit_of (c : ascii) : option N :=
  let n := N_of_ascii c in
  if ((48 <=? n) && (n <=? 57))%N then Some (n - 48)%N else None.

Fixpoint decimal (s : string) (acc : N) : option N :=
  match s with
  | EmptyString => Some acc
  | String c s' =>
      match digit_of c with
      | Some d => decimal s' (10 * acc + d)%N
      | None => None
      end
  end.

(** A canonical numeric string below 2^32 - 1. *)
Definition array_index (k : string) : option N :=
  match k with
  | EmptyString => None
  | String c rest =>
      if (Ascii.eqb c "0" && negb (rest =? ""))%bool then None
      else match decimal k 0 with
           | Some n => if (n <? 4294967295)%N then Some n else None
           | None => None
           end
  end.

Fixpoint insert_index (e : N * (string * value))
    (l : list (N * (string * value))) : list (N * (string * value)) :=
  match l with
  | [] => [e]
  | e' :: l' =>
      if (fst e <=? fst e')%N then e :: l else e' :: insert_index e l'
  end.

Fixpoint split_keys (o : object)
    : list (N * (string * value)) * list (string * value) :=
  match o with
  | [] => ([], [])
  | (k, v) :: o' =>
      let (ix, names) := split_keys o' in
      match array_index k with
      | Some n => (insert_index (n, (k, v)) ix, names)
      | None => (ix, (k, v) :: names)
      end
  end.

Definition Object_entries (o : object) : list (string * value) :=
  let (ix, names) := split_keys o in map snd ix ++ names.

End JS.

(* ===================================================================== *)
(** * Asynchronous handlers: state, [return], [throw], [try]/[finally] *)
(* ===================================================================== *)

Module Async.

(** What a handler can throw. *)
Inductive error : Type :=
| Error (message : string)            (* new Error(message) *)
| StoreError (message : string).      (* the error field of a store answer *)

(** The ways a block of statements can end. *)
Inductive outcome (A : Type) : Type :=
| Normal (a : A)
| Returned
| Thrown (e : error).

Arguments Normal {A} a.
Arguments Returned {A}.
Arguments Thrown {A} e.

Definition M (S A : Type) : Type := S -> outcome A * S.

Definition ret {S A} (a : A) : M S A := fun s => (Normal a, s).

Definition bind {S A B} (m : M S A) (k : A -> M S B) : M S B :=
  fun s =>
    match m s with
    | (Normal a, s') => k a s'
    | (Returned, s') => (Returned, s')
    | (Thrown e, s') => (Thrown e, s')
    end.

(** [return;] *)
Definition return_ {S A} : M S A := fun s => (Returned, s).

(** [throw e;] *)
Definition throw {S A} (e : error) : M S A := fun s => (Thrown e, s).

(** A state update such as [setLoading(false)]. *)
Definition modify {S} (f : S -> S) : M S unit := fun s => (Normal tt, f s).

Definition read {S A} (f : S -> A) : M S A := fun s => (Normal (f s), s).

(** [try { body } catch (e) { handler e } finally { fin }], for a [fin] that
    ends normally: the block ends the way [body] did, or the way [handler]
    did when [body] threw. *)
Definition try_catch_finally {S A} (body : M S A) (handler : error -> M S A)
    (fin : S -> S) : M S A :=
  fun s =>
    match body s with
    | (Thrown e, s') => let (o, s'') := handler e s' in (o, fin s'')
    | (o, s') => (o, fin s')
    end.

(** The state a handler leaves behind. *)
Definition exec {S A} (m : M S A) (s : S) : S := snd (m s).

(** Whether the promise of the handler is rejected. *)
Definition rejected {S A} (m : M S A) (s : S) : bool :=
  match fst (m s) with
  | Thrown _ => true
  | _ => false
  end.

Module Notations.
Declare Scope async_scope.
Delimit Scope async_scope with async.
Notation "x <- m ;; k" := (bind m (fun x => k))
  (at level 61, m at next level, right associativity) : async_scope.
Notation "m ;; k" := (bind m (fun _ => k))
  (at level 61, right associativity) : async_scope.
End Notations.

End Async.

(* ===================================================================== *)
(** * The schema: tables, foreign keys, row-level-security policies *)
(* ===================================================================== *)

Module Schema.

Definition uuid : Type := string.
Definition timestamptz : Type := Z.

Module Projects.
Record row : Type := {
  id : uuid;
  name : string;
  description : option string;
  user_id : uuid;
  created_at : option timestamptz;
  updated_at : option timestamptz
}.
End Projects.

Module Prompts.
Record row : Type := {
  id : uuid;
  title : string;
  content : string;
  project_id : option uuid;
  model : string;
  temperature : option Q;
  max_tokens : option Z;
  version : option Z;
  tags : option (list string);
  user_id : uuid;
  created_at : option timestamptz;
  updated_at : option timestamptz
}.
End Prompts.

Module Runs.
Record row : Type := {
  id : uuid;
  prompt_id : option uuid;
  model : string;
  response : option string;
  tokens_used : option Z;
  latency_ms : option Z;
  cost_usd : option Q;
  status : option string;
  error_message : option string;
  user_id : uuid;
  created_at : option timestamptz
}.
End Runs.

Module Profiles.
Record row : Type := {
  id : uuid;
  email : option string;
  full_name : option string;
  avatar_url : option string;
  plan : option string;
  created_at : option timestamptz
}.
End Profiles.

Record database : Type := {
  projects : list Projects.row;
  prompts : list Prompts.row;
  runs : list Runs.row;
  profiles : list Profiles.row
}.

(** ** Foreign keys *)

Inductive referential_action : Type :=
| NO_ACTION | RESTRICT | CASCADE | SET_NULL.

(** [project_id UUID REFERENCES public.projects(id) ON DELETE CASCADE] *)
Definition prompts_project_id_on_delete : referential_action := CASCADE.

(** [prompt_id UUID REFERENCES public.prompts(id) ON DELETE CASCADE] *)
Definition runs_prompt_id_on_delete : referential_action := CASCADE.

(** ** Row-level security *)

Inductive table : Type := projects_t | prompts_t | runs_t | profiles_t.

Inductive command : Type := SELECT | INSERT | UPDATE | DELETE.

Definition table_eqb (a b : table) : bool :=
  match a, b with
  | projects_t, projects_t | prompts_t, prompts_t
  | runs_t, runs_t | profiles_t, profiles_t => true
  | _, _ => false
  end.

Definition command_eqb (a b : command) : bool :=
  match a, b with
  | SELECT, SELECT | INSERT, INSERT | UPDATE, UPDATE | DELETE, DELETE => true
  | _, _ => false
  end.

(** The expression of a policy, evaluated with [auth.uid()] (null when the
    request carries no user) and the row's owner column: [user_id] for
    projects, prompts and runs, [id] for profiles. *)
Inductive expression : Type :=
| TRUE                      (* (true) *)
| AUTH_UID_EQ_OWNER.        (* (auth.uid() = user_id), (auth.uid() = id) *)

(** A comparison with null is not true. *)
Definition eval (e : expression) (auth_uid : option uuid) (owner : uuid)
    : bool :=
  match e with
  | TRUE => true
  | AUTH_UID_EQ_OWNER =>
      match auth_uid with
      | Some u => u =? owner
      | None => false
      end
  end.

Record policy : Type := {
  policy_name : string;
  on_table : table;
  for_command : command;
  using_or_check : expression
}.

Definition policies : list policy := [
  {| policy_name := "Users can view their own projects";
     on_table := projects_t; for_command := SELECT;
     using_or_check := AUTH_UID_EQ_OWNER |};
  {| policy_name := "Users can create their own projects";
     on_table := projects_t; for_command := INSERT;
     using_or_check := AUTH_UID_EQ_OWNER |};
  {| policy_name := "Users can update their own projects";
     on_table := projects_t; for_command := UPDATE;
     using_or_check := AUTH_UID_EQ_OWNER |};
  {| policy_name := "Users can delete their own projects";
     on_table := projects_t; for_command := DELETE;
     using_or_check := AUTH_UID_EQ_OWNER |};
  {| policy_name := "Users can view their own prompts";
     on_table := prompts_t; for_command := SELECT;
     using_or_check := AUTH_UID_EQ_OWNER |};
  {| policy_name := "Users can create their own prompts";
     on_table := prompts_t; for_command := INSERT;
     using_or_check := AUTH_UID_EQ_OWNER |};
  {| policy_name := "Users can update their own prompts";
     on_table := prompts_t; for_command := UPDATE;
     using_or_check := AUTH_UID_EQ_OWNER |};
  {| policy_name := "Users can delete their own prompts";
     on_table := prompts_t; for_command := DELETE;
     using_or_check := AUTH_UID_EQ_OWNER |};
  {| policy_name := "Users can view their own runs";
     on_table := runs_t; for_command := SELECT;
     using_or_check := AUTH_UID_EQ_OWNER |};
  {| policy_name := "Users can create their own runs";
     on_table := runs_t; for_command := INSERT;
     using_or_check := AUTH_UID_EQ_OWNER |};
  {| policy_name := "Users can view all profiles";
     on_table := profiles_t; for_command := SELECT;
     using_or_check := TRUE |};
  {| policy_name := "Users can update their own profile";
     on_table := profiles_t; for_command := UPDATE;
     using_or_check := AUTH_UID_EQ_OWNER |};
  {| policy_name := "Users can insert their own profile";
     on_table := profiles_t; for_command := INSERT;
     using_or_check := AUTH_UID_EQ_OWNER |}
].

(** Row security is enabled on the four tables: a command on a row passes
    when one of the table's policies for that command does, and is refused
    when there is none. *)
Definition permitted (t : table) (c : command) (auth_uid : option uuid)
    (owner : uuid) : bool :=
  existsb
    (fun p =>
       table_eqb (on_table p) t && command_eqb (for_command p) c
       && eval (using_or_check p) auth_uid owner)
    policies.

(** ** Queries *)

(** [SELECT * FROM t] as [auth_uid]. *)
Definition select_projects (auth_uid : option uuid) (db : database)
    : list Projects.row :=
  filter (fun r => permitted projects_t SELECT auth_uid (Projects.user_id r))
    (projects db).

Definition select_prompts (auth_uid : option uuid) (db : database)
    : list Prompts.row :=
  filter (fun r => permitted prompts_t SELECT auth_uid (Prompts.user_id r))
    (prompts db).

Definition select_runs (auth_uid : option uuid) (db : database)
    : list Runs.row :=
  filter (fun r => permitted runs_t SELECT auth_uid (Runs.user_id r))
    (runs db).

Definition select_profiles (auth_uid : option uuid) (db : database)
    : list Profiles.row :=
  filter (fun r => permitted profiles_t SELECT auth_uid (Profiles.id r))
    (profiles db).

(** Whether [auth_uid] may write (insert or update to) a profile row whose
    [id] is [owner]. *)
Definition may_insert_profile (auth_uid : option uuid) (owner : uuid) : bool :=
  permitted profiles_t INSERT auth_uid owner.

Definition may_update_profile (auth_uid : option uuid) (owner : uuid) : bool :=
  permitted profiles_t UPDATE auth_uid owner.

Definition may_delete_profile (auth_uid : option uuid) (owner : uuid) : bool :=
  permitted profiles_t DELETE auth_uid owner.

(** ** Column types *)

(** INTEGER *)
Definition integer_in_range (z : Z) : bool :=
  ((-2147483648 <=? z) && (z <=? 2147483647))%Z.

Definition round_half_away (x : Q) : Z :=
  if Qle_bool 0 x then Qfloor (x + (1 # 2)) else Qceiling (x - (1 # 2)).

(** DECIMAL(10, 6): six decimals are kept, a value that needs more than four
    digits before the point is refused. *)
Definition decimal_10_6 (x : Q) : option Q :=
  let scaled := round_half_away (x * 1000000) in
  if (Z.abs scaled <? 10000000000)%Z then Some (scaled # 1000000) else None.

(** ** Statements that write *)

(** The columns [handleRun] gives to [insert]. *)
Record runs_insert : Type := {
  ins_prompt_id : uuid;
  ins_model : string;
  ins_response : string;
  ins_tokens_used : Z;
  ins_latency_ms : Z;
  ins_cost_usd : Q;
  ins_status : string;
  ins_user_id : uuid
}.

(** The row the table stores for these columns, once [cost_usd] is cast to
    the column's type; [id] and [created_at] take their defaults and
    [error_message] stays null. *)
Definition stored_run (new_id : uuid) (now : timestamptz) (v : runs_insert)
    (cost : Q) : Runs.row :=
  {| Runs.id := new_id;
     Runs.prompt_id := Some (ins_prompt_id v);
     Runs.model := ins_model v;
     Runs.response := Some (ins_response v);
     Runs.tokens_used := Some (ins_tokens_used v);
     Runs.latency_ms := Some (ins_latency_ms v);
     Runs.cost_usd := Some cost;
     Runs.status := Some (ins_status v);
     Runs.error_message := None;
     Runs.user_id := ins_user_id v;
     Runs.created_at := Some now |}.

(** [INSERT INTO runs (...) VALUES (...)] as [auth_uid]: one row or an error,
    never a partial write.  The foreign key is checked against the whole
    [prompts] table, whoever owns the prompt. *)
Definition insert_into_runs (auth_uid : option uuid) (new_id : uuid)
    (now : timestamptz) (v : runs_insert) (db : database)
    : string + database :=
  if negb (integer_in_range (ins_tokens_used v)
           && integer_in_range (ins_latency_ms v))
  then inl "integer out of range"
  else match decimal_10_6 (ins_cost_usd v) with
  | None => inl "numeric field overflow"
  | Some cost =>
      if negb (permitted runs_t INSERT auth_uid (ins_user_id v))
      then inl "new row violates row-level security policy"
      else if existsb (fun r => Runs.id r =? new_id) (runs db)
      then inl "duplicate key value violates unique constraint"
      else if negb (existsb (fun p => Prompts.id p =? ins_prompt_id v)
                      (prompts db))
      then inl "insert or update on table violates foreign key constraint"
      else inr {| projects := projects db;
                  prompts := prompts db;
                  runs := runs db ++ [stored_run new_id now v cost];
                  profiles := profiles db |}
  end.

Definition references (ids : list uuid) (r : Runs.row) : bool :=
  match Runs.prompt_id r with
  | Some p => existsb (String.eqb p) ids
  | None => false
  end.

Definition clear_prompt_id (r : Runs.row) : Runs.row :=
  {| Runs.id := Runs.id r;
     Runs.prompt_id := None;
     Runs.model := Runs.model r;
     Runs.response := Runs.response r;
     Runs.tokens_used := Runs.tokens_used r;
     Runs.latency_ms := Runs.latency_ms r;
     Runs.cost_usd := Runs.cost_usd r;
     Runs.status := Runs.status r;
     Runs.error_message := Runs.error_message r;
     Runs.user_id := Runs.user_id r;
     Runs.created_at := Runs.created_at r |}.

(** What a foreign key on [runs.prompt_id] does to the runs when the prompts
    [ids] are deleted.  It acts on every referencing row: referential actions
    are not subject to row security.  [None] is a violation, which aborts the
    statement. *)
Definition on_delete_of_prompts (action : referential_action)
    (ids : list uuid) (rs : list Runs.row) : option (list Runs.row) :=
  match action with
  | CASCADE => Some (filter (fun r => negb (references ids r)) rs)
  | SET_NULL =>
      Some (map (fun r => if references ids r then clear_prompt_id r else r) rs)
  | NO_ACTION | RESTRICT =>
      if existsb (references ids) rs then None else Some rs
  end.

(** The rows [DELETE FROM prompts WHERE id = pid] reaches as [auth_uid]: a
    row must pass the table's SELECT and DELETE policies. *)
Definition deletable (auth_uid : option uuid) (pid : uuid) (p : Prompts.row)
    : bool :=
  (Prompts.id p =? pid)
  && permitted prompts_t SELECT auth_uid (Prompts.user_id p)
  && permitted prompts_t DELETE auth_uid (Prompts.user_id p).

(** [DELETE FROM prompts WHERE id = pid] as [auth_uid], with the action of the
    foreign key [runs.prompt_id]. *)
Definition delete_from_prompts (auth_uid : option uuid) (pid : uuid)
    (db : database) : string + database :=
  let victims := filter (deletable auth_uid pid) (prompts db) in
  match on_delete_of_prompts runs_prompt_id_on_delete
          (map Prompts.id victims) (runs db) with
  | None => inl "update or delete on table violates foreign key constraint"
  | Some rs =>
      inr {| projects := projects db;
             prompts := filter (fun p => negb (deletable auth_uid pid p))
                          (prompts db);
             runs := rs;
             profiles := profiles db |}
  end.

(** ** Further statements of the schema *)

(** The columns [handleCreatePrompt] gives to [insert]; a [temperature] that
    is not a number is sent as null. *)
Record prompts_insert : Type := {
  pins_title : string;
  pins_content : string;
  pins_model : string;
  pins_temperature : option Q;
  pins_user_id : uuid
}.

(** The row the table stores for these columns: [project_id] and [tags] stay
    null, [max_tokens], [version], [id] and the two timestamps take their
    defaults. *)
Definition stored_prompt (new_id : uuid) (now : timestamptz)
    (v : prompts_insert) : Prompts.row :=
  {| Prompts.id := new_id;
     Prompts.title := pins_title v;
     Prompts.content := pins_content v;
     Prompts.project_id := None;
     Prompts.model := pins_model v;
     Prompts.temperature := pins_temperature v;
     Prompts.max_tokens := Some 1000%Z;
     Prompts.version := Some 1%Z;
     Prompts.tags := None;
     Prompts.user_id := pins_user_id v;
     Prompts.created_at := Some now;
     Prompts.updated_at := Some now |}.

(** [INSERT INTO prompts (title, content, model, temperature, user_id)
    VALUES (...)] as [auth_uid]. *)
Definition insert_into_prompts (auth_uid : option uuid) (new_id : uuid)
    (now : timestamptz) (v : prompts_insert) (db : database)
    : string + database :=
  if negb (permitted prompts_t INSERT auth_uid (pins_user_id v))
  then inl "new row violates row-level security policy"
  else if existsb (fun p => Prompts.id p =? new_id) (prompts db)
  then inl "duplicate key value violates unique constraint"
  else inr {| projects := projects db;
              prompts := prompts db ++ [stored_prompt new_id now v];
              runs := runs db;
              profiles := profiles db |}.

Definition references_project (ids : list uuid) (p : Prompts.row) : bool :=
  match Prompts.project_id p with
  | Some x => existsb (String.eqb x) ids
  | None => false
  end.

Definition clear_project_id (p : Prompts.row) : Prompts.row :=
  {| Prompts.id := Prompts.id p;
     Prompts.title := Prompts.title p;
     Prompts.content := Prompts.content p;
     Prompts.project_id := None;
     Prompts.model := Prompts.model p;
     Prompts.temperature := Prompts.temperature p;
     Prompts.max_tokens := Prompts.max_tokens p;
     Prompts.version := Prompts.version p;
     Prompts.tags := Prompts.tags p;
     Prompts.user_id := Prompts.user_id p;
     Prompts.created_at := Prompts.created_at p;
     Prompts.updated_at := Prompts.updated_at p |}.

(** What a foreign key on [prompts.project_id] does when the projects [ids]
    are deleted: the prompts that stay, and the prompts deleted with them. *)
Definition on_delete_of_projects (action : referential_action)
    (ids : list uuid) (ps : list Prompts.row)
    : option (list Prompts.row * list Prompts.row) :=
  match action with
  | CASCADE =>
      Some (filter (fun p => negb (references_project ids p)) ps,
            filter (references_project ids) ps)
  | SET_NULL =>
      Some (map (fun p => if references_project ids p
                          then clear_project_id p else p) ps, [])
  | NO_ACTION | RESTRICT =>
      if existsb (references_project ids) ps then None else Some (ps, [])
  end.

Definition deletable_project (auth_uid : option uuid) (pid : uuid)
    (p : Projects.row) : bool :=
  (Projects.id p =? pid)
  && permitted projects_t SELECT auth_uid (Projects.user_id p)
  && permitted projects_t DELETE auth_uid (Projects.user_id p).

(** [DELETE FROM projects WHERE id = pid] as [auth_uid]: the foreign key of
    [prompts.project_id] acts on the prompts, and the foreign key of
    [runs.prompt_id] on the runs of the prompts that go with them. *)
Definition delete_from_projects (auth_uid : option uuid) (pid : uuid)
    (db : database) : string + database :=
  let victims := filter (deletable_project auth_uid pid) (projects db) in
  match on_delete_of_projects prompts_project_id_on_delete
          (map Projects.id victims) (prompts db) with
  | None => inl "update or delete on table violates foreign key constraint"
  | Some (kept, gone) =>
      match on_delete_of_prompts runs_prompt_id_on_delete
              (map Prompts.id gone) (runs db) with
      | None => inl "update or delete on table violates foreign key constraint"
      | Some rs =>
          inr {| projects :=
                   filter (fun p => negb (deletable_project auth_uid pid p))
                     (projects db);
                 prompts := kept;
                 runs := rs;
                 profiles := profiles db |}
      end
  end.

(** What the trigger [on_auth_user_created] reads of the new row of
    [auth.users]: [id], [email] and [raw_user_meta_data->>'full_name']. *)
Record auth_user : Type := {
  au_id : uuid;
  au_email : option string;
  au_full_name : option string
}.

(** [handle_new_user()]: the profile row of a new user.  The function is
    SECURITY DEFINER, no policy is consulted; the primary key of [profiles]
    is. *)
Definition handle_new_user (now : timestamptz) (NEW : auth_user)
    (db : database) : string + database :=
  if existsb (fun p => Profiles.id p =? au_id NEW) (profiles db)
  then inl "duplicate key value violates unique constraint"
  else inr {| projects := projects db;
              prompts := prompts db;
              runs := runs db;
              profiles :=
                profiles db ++
                [ {| Profiles.id := au_id NEW;
                     Profiles.email := au_email NEW;
                     Profiles.full_name := au_full_name NEW;
                     Profiles.avatar_url := None;
                     Profiles.plan := Some "free";
                     Profiles.created_at := Some now |} ] |}.

(** ** ORDER BY created_at DESC and LIMIT *)

(** Whether a row with timestamp [a] may precede one with timestamp [b] in
    descending order; nulls come first. *)
Definition precedes (a b : option timestamptz) : bool :=
  match a, b with
  | None, _ => true
  | Some _, None => false
  | Some x, Some y => (y <=? x)%Z
  end.

Fixpoint insert_desc {A} (key : A -> option timestamptz) (x : A)
    (l : list A) : list A :=
  match l with
  | [] => [x]
  | y :: l' =>
      if precedes (key x) (key y) then x :: l
      else y :: insert_desc key x l'
  end.

(** The rows in descending order of [key]; rows with equal keys stay in the
    order of the table. *)
Fixpoint order_desc {A} (key : A -> option timestamptz) (l : list A)
    : list A :=
  match l with
  | [] => []
  | x :: l' => insert_desc key x (order_desc key l')
  end.

End Schema.

(* ===================================================================== *)
(** * The signed-in user and the answers of the record store *)
(* ===================================================================== *)

Module Auth.
(** What the pages read of [useAuth().user]. *)
Record User : Type := {
  id : Schema.uuid;
  email : option string
}.
End Auth.

Module Client.
Import Schema.

(** [{ data, error }] of a query on [runs]. *)
Record response : Type := {
  data : option (list Runs.row);
  error : option string
}.

(** [supabase.from('runs').select('*').eq('user_id', uid)] on behalf of
    [user], when the request reaches the store. *)
Definition from_runs_select_eq_user_id (user : Auth.User) (uid : uuid)
    (db : database) : response :=
  {| data := Some (filter (fun r => Runs.user_id r =? uid)
                     (select_runs (Some (Auth.id user)) db));
     error := None |}.

(** [supabase.from('prompts').delete().eq('id', pid)] on behalf of [user]. *)
Definition from_prompts_delete_eq_id (user : Auth.User) (pid : uuid)
    (db : database) : option string * database :=
  match delete_from_prompts (Some (Auth.id user)) pid db with
  | inl e => (Some e, db)
  | inr db' => (None, db')
  end.
(** [{ data, error }] of a query on [prompts]. *)
Record prompts_response : Type := {
  prompts_data : option (list Prompts.row);
  prompts_error : option string
}.

(** [supabase.from('prompts').select('*').eq('user_id', uid)
    .order('created_at', { ascending: false })] as [auth_uid], when the
    request reaches the store. *)
Definition from_prompts_select_eq_user_id_order (auth_uid : option uuid)
    (uid : uuid) (db : database) : prompts_response :=
  {| prompts_data :=
       Some (order_desc Prompts.created_at
               (filter (fun p => Prompts.user_id p =? uid)
                  (select_prompts auth_uid db)));
     prompts_error := None |}.

(** [supabase.from('prompts').select('id', { count: 'exact', head: true })
    .eq('user_id', uid)]: the [count] of the answer. *)
Definition from_prompts_count_eq_user_id (auth_uid : option uuid) (uid : uuid)
    (db : database) : option nat :=
  Some (List.length (filter (fun p => Prompts.user_id p =? uid)
                       (select_prompts auth_uid db))).

(** [supabase.from('runs').select('*').eq('user_id', uid)
    .order('created_at', { ascending: false }).limit(5)]: the [data] of the
    answer. *)
Definition from_runs_select_recent (auth_uid : option uuid) (uid : uuid)
    (db : database) : option (list Runs.row) :=
  Some (firstn 5
          (order_desc Runs.created_at
             (filter (fun r => Runs.user_id r =? uid)
                (select_runs auth_uid db)))).
End Client.

(* ===================================================================== *)
(** * pages/Analytics.tsx *)
(* ===================================================================== *)

Module AnalyticsPage.
Import Schema.
Import Async.Notations.
Local Open Scope async_scope.

(** An element of [modelBreakdown]. *)
Record breakdown : Type := {
  model : string;
  count : JS.value;
  percentage : JS.value
}.

Record Stats : Type := {
  totalRuns : nat;
  totalCost : Q;
  avgLatency : Z;
  successRate : Z;
  modelBreakdown : list breakdown
}.

(** The component's state, and the lines written to the console. *)
Record state : Type := {
  stats : Stats;
  loading : bool;
  console : list string
}.

(** The arguments of the two [useState] calls. *)
Definition initial : state :=
  {| stats := {| totalRuns := 0; totalCost := 0; avgLatency := 0;
                 successRate := 0; modelBreakdown := [] |};
     loading := true;
     console := [] |}.

Definition setStats (v : Stats) (s : state) : state :=
  {| stats := v; loading := loading s; console := console s |}.

Definition setLoading (b : bool) (s : state) : state :=
  {| stats := stats s; loading := b; console := console s |}.

Definition console_error (line : string) (s : state) : state :=
  {| stats := stats s; loading := loading s; console := console s ++ [line] |}.

(** [runs.reduce((sum, run) => sum + (run.cost_usd || 0), 0)], the
    additions exact. *)
Definition totalCost_of (runs : list Runs.row) : Q :=
  fold_left (fun sum run => sum + JS.or0Q (Runs.cost_usd run)) runs 0.

(** The same reduction as binary64 computes it: each cost is the double
    nearest to the column's decimal and each addition is rounded. *)
Definition totalCost_binary64 (runs : list Runs.row) : Q :=
  fold_left
    (fun sum run => JS.add sum (JS.binary64 (JS.or0Q (Runs.cost_usd run))))
    runs 0.

(** [runs.reduce((sum, run) => sum + (run.latency_ms || 0), 0) / runs.length] *)
Definition avgLatency_of (runs : list Runs.row) : Q :=
  inject_Z (fold_left (fun sum run => (sum + JS.or0Z (Runs.latency_ms run))%Z)
              runs 0%Z)
  / inject_Z (Z.of_nat (List.length runs)).

(** [r.status === 'completed'] *)
Definition completed (r : Runs.row) : bool :=
  match Runs.status r with
  | Some s => s =? "completed"
  | None => false
  end.

(** [(runs.filter(r => r.status === 'completed').length / runs.length) * 100] *)
Definition successRate_of (runs : list Runs.row) : Q :=
  JS.mul
    (JS.div (inject_Z (Z.of_nat (List.length (filter completed runs))))
       (inject_Z (Z.of_nat (List.length runs))))
    100.

(** [runs.reduce((acc, run) => { acc[run.model] = (acc[run.model] || 0) + 1;
    return acc; }, {})] *)
Definition modelCounts (runs : list Runs.row) : JS.object :=
  fold_left
    (fun acc run =>
       JS.set acc (Runs.model run)
         (JS.plus_one (JS.or_zero (JS.get acc (Runs.model run)))))
    runs JS.empty_object.

(** [Object.entries(modelCounts).map(([model, count]) => ({ model, count,
    percentage: (count / runs.length) * 100 }))] *)
Definition modelBreakdown_of (runs : list Runs.row) : list breakdown :=
  map (fun e : string * JS.value =>
         let (m, c) := e in
         {| model := m; count := c;
            percentage := JS.percent_of c (List.length runs) |})
    (JS.Object_entries (modelCounts runs)).

Definition loadAnalytics (user : option Auth.User) (answer : Client.response)
    : Async.M state unit :=
  match user with
  | None => Async.return_
  | Some _ =>
      Async.try_catch_finally
        (match Client.error answer with
         | Some e => Async.throw (Async.StoreError e)
         | None =>
             match Client.data answer with
             | None | Some [] => Async.modify (setLoading false) ;; Async.return_
             | Some runs =>
                 Async.modify
                   (setStats
                      {| totalRuns := List.length runs;
                         totalCost := totalCost_of runs;
                         avgLatency := JS.Math_round (avgLatency_of runs);
                         successRate := JS.Math_round (successRate_of runs);
                         modelBreakdown := modelBreakdown_of runs |})
             end
         end)
        (fun _ => Async.modify (console_error "Error loading analytics:"))
        (setLoading false)
  end.

(** The answer [{ data: runs, error: null }]. *)
Definition rows (runs : list Runs.row) : Client.response :=
  {| Client.data := Some runs; Client.error := None |}.

(** Which branch of the page is rendered. *)
Inductive view : Type := Spinner | MetricCards | EmptyState.

Definition render (s : state) : view :=
  if loading s then Spinner
  else if (0 <? totalRuns (stats s))%nat then MetricCards
  else EmptyState.

End AnalyticsPage.

(* ===================================================================== *)
(** * pages/Run.tsx *)
(* ===================================================================== *)

Module RunPage.
Import Schema.
Import Async.Notations.
Local Open Scope async_scope.

Record Model : Type := {
  value : string;
  label : string;
  cost : Q
}.

Definition MODELS : list Model := [
  {| value := "gpt-4"; label := "GPT-4"; cost := 3 # 100 |};
  {| value := "gpt-3.5-turbo"; label := "GPT-3.5 Turbo"; cost := 2 # 1000 |};
  {| value := "claude-3-opus"; label := "Claude 3 Opus"; cost := 15 # 1000 |};
  {| value := "claude-3-sonnet"; label := "Claude 3 Sonnet"; cost := 3 # 1000 |};
  {| value := "gemini-pro"; label := "Gemini Pro"; cost := 25 # 100000 |}
].

(** [MODELS.find(m => m.value === selectedModel)?.cost || 0] *)
Definition modelCost (selectedModel : string) : Q :=
  JS.or0Q (option_map cost
             (find (fun m => value m =? selectedModel) MODELS)).

(** [(tokens / 1000) * modelCost] *)
Definition cost_of (tokens : Z) (selectedModel : string) : Q :=
  (inject_Z tokens / 1000) * modelCost selectedModel.

(** [Math.floor(100 + Math.random() * 400)] *)
Definition tokens_of (random : Q) : Z :=
  JS.Math_floor (JS.add 100 (JS.mul random 400)).

(** [2000 + Math.random() * 2000], the delay asked of [setTimeout]. *)
Definition delay_of (random : Q) : Q :=
  JS.add 2000 (JS.mul random 2000).

Definition response_of (selectedModel : string) : string :=
  "This is a simulated response from " ++ selectedModel
  ++ ". In a real implementation, this would call the actual LLM API.".

(** The argument of [setResult]. *)
Record Result : Type := {
  res_response : string;
  res_latency : Z;
  res_tokens : Z;
  res_cost : Q
}.

Inductive toast : Type :=
| toast_error (message : string)
| toast_success (message : string).

(** What one call of [handleRun] gets from outside: the two values of
    [Math.random()] in the order they are drawn (doubles in [0, 1): the
    theorems that need it assume [JS.representable] of them), the two
    readings of [Date.now()] (before the timer is set, after it has fired),
    whether the request reaches the store, and the defaults the store draws
    for the new row. *)
Record environment : Type := {
  random_1 : Q;
  random_2 : Q;
  now_before : Z;
  now_after : Z;
  network_ok : bool;
  gen_random_uuid : uuid;
  now : timestamptz
}.

(** Everything the handler reads or writes: the component's state, the
    notifications and console lines it emits, the timers it sets and the
    record store. *)
Record world : Type := {
  prompts : list Prompts.row;
  selectedPrompt : string;
  selectedModel : string;
  running : bool;
  result : option Result;
  toasts : list toast;
  console : list string;
  timers : list Q;
  store : database
}.

Definition setRunning (b : bool) (w : world) : world :=
  {| prompts := prompts w; selectedPrompt := selectedPrompt w;
     selectedModel := selectedModel w; running := b; result := result w;
     toasts := toasts w; console := console w; timers := timers w;
     store := store w |}.

Definition setResult (r : option Result) (w : world) : world :=
  {| prompts := prompts w; selectedPrompt := selectedPrompt w;
     selectedModel := selectedModel w; running := running w; result := r;
     toasts := toasts w; console := console w; timers := timers w;
     store := store w |}.

Definition emit (t : toast) (w : world) : world :=
  {| prompts := prompts w; selectedPrompt := selectedPrompt w;
     selectedModel := selectedModel w; running := running w;
     result := result w; toasts := toasts w ++ [t]; console := console w;
     timers := timers w; store := store w |}.

Definition console_error (line : string) (w : world) : world :=
  {| prompts := prompts w; selectedPrompt := selectedPrompt w;
     selectedModel := selectedModel w; running := running w;
     result := result w; toasts := toasts w; console := console w ++ [line];
     timers := timers w; store := store w |}.

Definition setTimeout (delay : Q) (w : world) : world :=
  {| prompts := prompts w; selectedPrompt := selectedPrompt w;
     selectedModel := selectedModel w; running := running w;
     result := result w; toasts := toasts w; console := console w;
     timers := timers w ++ [delay]; store := store w |}.

Definition set_store (db : database) (w : world) : world :=
  {| prompts := prompts w; selectedPrompt := selectedPrompt w;
     selectedModel := selectedModel w; running := running w;
     result := result w; toasts := toasts w; console := console w;
     timers := timers w; store := db |}.

(** [supabase.from('runs').insert(v)] on behalf of [user]: the [error] of the
    answer.  The table changes only when there is none. *)
Definition from_runs_insert (env : environment) (user : Auth.User)
    (v : runs_insert) : Async.M world (option string) :=
  fun w =>
    if negb (network_ok env) then (Async.Normal (Some "Failed to fetch"), w)
    else
      match insert_into_runs (Some (Auth.id user)) (gen_random_uuid env)
              (now env) v (store w) with
      | inl e => (Async.Normal (Some e), w)
      | inr db => (Async.Normal None, set_store db w)
      end.

(** The object literal given to [insert]. *)
Definition run_of (env : environment) (user : Auth.User) (prompt : Prompts.row)
    (selectedModel : string) : runs_insert :=
  let latency := (now_after env - now_before env)%Z in
  let tokens := tokens_of (random_2 env) in
  {| ins_prompt_id := Prompts.id prompt;
     ins_model := selectedModel;
     ins_response := response_of selectedModel;
     ins_tokens_used := tokens;
     ins_latency_ms := latency;
     ins_cost_usd := cost_of tokens selectedModel;
     ins_status := "completed";
     ins_user_id := Auth.id user |}.

(** The state once the handler has started: [running] set, [result]
    cleared, the timer asked for. *)
Definition started (env : environment) (w : world) : world :=
  setTimeout (delay_of (random_1 env)) (setResult None (setRunning true w)).

(** The state the [catch] and [finally] blocks leave. *)
Definition failed (w : world) : world :=
  setRunning false
    (emit (toast_error "Failed to run prompt")
       (console_error "Error running prompt:" w)).

Definition handleRun (env : environment) (user : option Auth.User)
    : Async.M world unit :=
  selected <- Async.read selectedPrompt ;;
  match user with
  | Some u =>
      if selected =? "" then
        Async.modify (emit (toast_error "Please select a prompt")) ;;
        Async.return_
      else
        Async.modify (setRunning true) ;;
        Async.modify (setResult None) ;;
        Async.try_catch_finally
          (loaded <- Async.read prompts ;;
           match find (fun p => Prompts.id p =? selected) loaded with
           | None => Async.throw (Async.Error "Prompt not found")
           | Some prompt =>
               Async.modify (setTimeout (delay_of (random_1 env))) ;;
               model <- Async.read selectedModel ;;
               let v := run_of env u prompt model in
               error <- from_runs_insert env u v ;;
               match error with
               | Some e => Async.throw (Async.StoreError e)
               | None =>
                   Async.modify
                     (setResult
                        (Some {| res_response := ins_response v;
                                 res_latency := ins_latency_ms v;
                                 res_tokens := ins_tokens_used v;
                                 res_cost := ins_cost_usd v |})) ;;
                   Async.modify
                     (emit (toast_success "Prompt executed successfully"))
               end
           end)
          (fun _ =>
             Async.modify (console_error "Error running prompt:") ;;
             Async.modify (emit (toast_error "Failed to run prompt")))
          (setRunning false)
  | None =>
      Async.modify (emit (toast_error "Please select a prompt")) ;;
      Async.return_
  end.

Definition setPrompts (ps : list Prompts.row) (w : world) : world :=
  {| prompts := ps; selectedPrompt := selectedPrompt w;
     selectedModel := selectedModel w; running := running w;
     result := result w; toasts := toasts w; console := console w;
     timers := timers w; store := store w |}.

(** The answer of the query of [loadPrompts] for [user]: an error when the
    request does not reach the store. *)
Definition query_prompts (network_ok : bool) (user : Auth.User) (w : world)
    : Client.prompts_response :=
  if network_ok
  then Client.from_prompts_select_eq_user_id_order (Some (Auth.id user))
         (Auth.id user) (store w)
  else {| Client.prompts_data := None;
          Client.prompts_error := Some "Failed to fetch" |}.

(** [loadPrompts] of the Run page: a failure is only logged. *)
Definition loadPrompts (network_ok : bool) (user : option Auth.User)
    : Async.M world unit :=
  match user with
  | None => Async.return_
  | Some u =>
      Async.try_catch_finally
        (answer <- Async.read (query_prompts network_ok u) ;;
         match Client.prompts_error answer with
         | Some e => Async.throw (Async.StoreError e)
         | None =>
             match Client.prompts_data answer with
             | Some data => Async.modify (setPrompts data)
             | None => Async.modify (setPrompts [])
             end
         end)
        (fun _ => Async.modify (console_error "Error loading prompts:"))
        (fun w => w)
  end.

End RunPage.

(* ===================================================================== *)
(** * pages/Prompts.tsx *)
(* ===================================================================== *)

Module PromptsPage.
Import Schema.
Import Async.Notations.
Local Open Scope async_scope.

(** The component's state, what it emits, and the record store. *)
Record world : Type := {
  prompts : list Prompts.row;
  loading : bool;
  open : bool;
  title : string;
  content : string;
  model : string;
  temperature : string;
  toasts : list RunPage.toast;
  console : list string;
  store : database
}.

(** The page as it is created over a store. *)
Definition initial (db : database) : world :=
  {| prompts := []; loading := true; open := false; title := "";
     content := ""; model := "gpt-4"; temperature := "0.7";
     toasts := []; console := []; store := db |}.

Definition setPrompts (ps : list Prompts.row) (w : world) : world :=
  {| prompts := ps; loading := loading w; open := open w; title := title w;
     content := content w; model := model w; temperature := temperature w;
     toasts := toasts w; console := console w; store := store w |}.

Definition setLoading (b : bool) (w : world) : world :=
  {| prompts := prompts w; loading := b; open := open w; title := title w;
     content := content w; model := model w; temperature := temperature w;
     toasts := toasts w; console := console w; store := store w |}.

Definition setOpen (b : bool) (w : world) : world :=
  {| prompts := prompts w; loading := loading w; open := b; title := title w;
     content := content w; model := model w; temperature := temperature w;
     toasts := toasts w; console := console w; store := store w |}.

(** [setTitle(''); setContent(''); setModel('gpt-4'); setTemperature('0.7')] *)
Definition resetForm (w : world) : world :=
  {| prompts := prompts w; loading := loading w; open := open w; title := "";
     content := ""; model := "gpt-4"; temperature := "0.7";
     toasts := toasts w; console := console w; store := store w |}.

Definition emit (t : RunPage.toast) (w : world) : world :=
  {| prompts := prompts w; loading := loading w; open := open w;
     title := title w; content := content w; model := model w;
     temperature := temperature w; toasts := toasts w ++ [t];
     console := console w; store := store w |}.

Definition console_error (line : string) (w : world) : world :=
  {| prompts := prompts w; loading := loading w; open := open w;
     title := title w; content := content w; model := model w;
     temperature := temperature w; toasts := toasts w;
     console := console w ++ [line]; store := store w |}.

Definition set_store (db : database) (w : world) : world :=
  {| prompts := prompts w; loading := loading w; open := open w;
     title := title w; content := content w; model := model w;
     temperature := temperature w; toasts := toasts w;
     console := console w; store := db |}.

(** A call of an [async] function that is not awaited: the caller goes on
    normally, whatever way the callee ends. *)
Definition call (m : Async.M world unit) : Async.M world unit :=
  fun w => (Async.Normal tt, Async.exec m w).

Definition query_prompts (network_ok : bool) (user : Auth.User) (w : world)
    : Client.prompts_response :=
  if network_ok
  then Client.from_prompts_select_eq_user_id_order (Some (Auth.id user))
         (Auth.id user) (store w)
  else {| Client.prompts_data := None;
          Client.prompts_error := Some "Failed to fetch" |}.

(** [loadPrompts] of the Prompts page: a failure is logged and notified. *)
Definition loadPrompts (network_ok : bool) (user : option Auth.User)
    : Async.M world unit :=
  match user with
  | None => Async.return_
  | Some u =>
      Async.try_catch_finally
        (answer <- Async.read (query_prompts network_ok u) ;;
         match Client.prompts_error answer with
         | Some e => Async.throw (Async.StoreError e)
         | None =>
             match Client.prompts_data answer with
             | Some data => Async.modify (setPrompts data)
             | None => Async.modify (setPrompts [])
             end
         end)
        (fun _ =>
           Async.modify (console_error "Error loading prompts:") ;;
           Async.modify (emit (RunPage.toast_error "Failed to load prompts")))
        (setLoading false)
  end.

(** What one call of a handler of this page gets from outside: whether its
    write and the reload that follows reach the store, and the defaults the
    store draws for a new row. *)
Record environment : Type := {
  write_ok : bool;
  reload_ok : bool;
  gen_random_uuid : uuid;
  now : timestamptz
}.

(** [supabase.from('prompts').insert(v)] on behalf of [user]. *)
Definition from_prompts_insert (env : environment) (user : Auth.User)
    (v : prompts_insert) : Async.M world (option string) :=
  fun w =>
    if negb (write_ok env) then (Async.Normal (Some "Failed to fetch"), w)
    else
      match insert_into_prompts (Some (Auth.id user)) (gen_random_uuid env)
              (now env) v (store w) with
      | inl e => (Async.Normal (Some e), w)
      | inr db => (Async.Normal None, set_store db w)
      end.

(** [supabase.from('prompts').delete().eq('id', id)] with the session of
    [user], if any. *)
Definition from_prompts_delete (env : environment) (user : option Auth.User)
    (id : uuid) : Async.M world (option string) :=
  fun w =>
    if negb (write_ok env) then (Async.Normal (Some "Failed to fetch"), w)
    else
      match delete_from_prompts (option_map Auth.id user) id (store w) with
      | inl e => (Async.Normal (Some e), w)
      | inr db => (Async.Normal None, set_store db w)
      end.

(** The object literal given to [insert]: [{ title, content, model,
    temperature: parseFloat(temperature), user_id: user.id }]. *)
Definition prompt_of (parseFloat : string -> option Q) (user : Auth.User)
    (w : world) : prompts_insert :=
  {| pins_title := title w;
     pins_content := content w;
     pins_model := model w;
     pins_temperature := parseFloat (temperature w);
     pins_user_id := Auth.id user |}.

(** [handleCreatePrompt]; [parseFloat] is the built-in, a result that is not
    a number being [None]. *)
Definition handleCreatePrompt (parseFloat : string -> option Q)
    (env : environment) (user : option Auth.User) : Async.M world unit :=
  match user with
  | None => Async.return_
  | Some u =>
      Async.try_catch_finally
        (v <- Async.read (prompt_of parseFloat u) ;;
         error <- from_prompts_insert env u v ;;
         match error with
         | Some e => Async.throw (Async.StoreError e)
         | None =>
             Async.modify
               (emit (RunPage.toast_success "Prompt created successfully")) ;;
             Async.modify (setOpen false) ;;
             Async.modify resetForm ;;
             call (loadPrompts (reload_ok env) user)
         end)
        (fun _ =>
           Async.modify (console_error "Error creating prompt:") ;;
           Async.modify (emit (RunPage.toast_error "Failed to create prompt")))
        (fun w => w)
  end.

(** [handleDeletePrompt] *)
Definition handleDeletePrompt (env : environment) (user : option Auth.User)
    (id : uuid) : Async.M world unit :=
  Async.try_catch_finally
    (error <- from_prompts_delete env user id ;;
     match error with
     | Some e => Async.throw (Async.StoreError e)
     | None =>
         Async.modify (emit (RunPage.toast_success "Prompt deleted")) ;;
         call (loadPrompts (reload_ok env) user)
     end)
    (fun _ =>
       Async.modify (console_error "Error deleting prompt:") ;;
       Async.modify (emit (RunPage.toast_error "Failed to delete prompt")))
    (fun w => w).

End PromptsPage.

(* ===================================================================== *)
(** * pages/Dashboard.tsx *)
(* ===================================================================== *)

Module DashboardPage.
Import Schema.
Import Async.Notations.
Local Open Scope async_scope.

Record Stats : Type := {
  totalPrompts : nat;
  totalRuns : nat;
  recentRuns : list Runs.row
}.

Record state : Type := {
  stats : Stats;
  loading : bool;
  console : list string
}.

Definition initial : state :=
  {| stats := {| totalPrompts := 0; totalRuns := 0; recentRuns := [] |};
     loading := true;
     console := [] |}.

Definition setStats (v : Stats) (s : state) : state :=
  {| stats := v; loading := loading s; console := console s |}.

Definition setLoading (b : bool) (s : state) : state :=
  {| stats := stats s; loading := b; console := console s |}.

Definition console_error (line : string) (s : state) : state :=
  {| stats := stats s; loading := loading s; console := console s ++ [line] |}.

(** The two answers [Promise.all] resolves with: the [count] of the first
    query and the [data] of the second, each null when its query failed. *)
Record answers : Type := {
  promptsResult_count : option nat;
  runsResult_data : option (list Runs.row)
}.

(** [x || 0] and [x?.length || 0] on what may be null. *)
Definition count_or0 (x : option nat) : nat :=
  match x with
  | Some n => n
  | None => 0
  end.

Definition data_or_empty (x : option (list Runs.row)) : list Runs.row :=
  match x with
  | Some l => l
  | None => []
  end.

(** [loadStats]; [None] for the answers is a [Promise.all] that rejects. *)
Definition loadStats (user : option Auth.User) (resolved : option answers)
    : Async.M state unit :=
  match user with
  | None => Async.return_
  | Some _ =>
      Async.try_catch_finally
        (match resolved with
         | None => Async.throw (Async.Error "Failed to fetch")
         | Some a =>
             Async.modify
               (setStats
                  {| totalPrompts := count_or0 (promptsResult_count a);
                     totalRuns :=
                       List.length (data_or_empty (runsResult_data a));
                     recentRuns := data_or_empty (runsResult_data a) |})
         end)
        (fun _ => Async.modify (console_error "Error loading stats:"))
        (setLoading false)
  end.

(** The two queries of [loadStats] on a store, for the session of [user]. *)
Definition query (user : Auth.User) (db : database) : answers :=
  {| promptsResult_count :=
       Client.from_prompts_count_eq_user_id (Some (Auth.id user))
         (Auth.id user) db;
     runsResult_data :=
       Client.from_runs_select_recent (Some (Auth.id user))
         (Auth.id user) db |}.

(** The text of a card. *)
Inductive card : Type :=
| dash                   (* '-' *)
| number (n : nat)
| ms (z : Z)             (* `${z}ms` *)
| percent (z : Z).       (* `${z}%` *)

Definition totalPrompts_card (s : state) : card :=
  if loading s then dash else number (totalPrompts (stats s)).

Definition totalRuns_card (s : state) : card :=
  if loading s then dash else number (totalRuns (stats s)).

(** The <<Avg Latency>> card: the same expression as on the Analytics page,
    over [recentRuns]. *)
Definition avgLatency_card (s : state) : card :=
  if loading s then dash
  else if (0 <? List.length (recentRuns (stats s)))%nat
  then ms (JS.Math_round (AnalyticsPage.avgLatency_of (recentRuns (stats s))))
  else dash.

(** The <<Success Rate>> card. *)
Definition successRate_card (s : state) : card :=
  if loading s then dash
  else if (0 <? List.length (recentRuns (stats s)))%nat
  then percent
         (JS.Math_round (AnalyticsPage.successRate_of (recentRuns (stats s))))
  else dash.

End DashboardPage.

(* ===================================================================== *)
(** * components/DashboardLayout.tsx *)
(* ===================================================================== *)

Module Layout.

Record item : Type := {
  name : string;
  href : string
}.

Definition navigation : list item := [
  {| name := "Dashboard"; href := "/dashboard" |};
  {| name := "Prompts"; href := "/prompts" |};
  {| name := "Run"; href := "/run" |};
  {| name := "Analytics"; href := "/analytics" |}
].

(** [location.pathname === item.href] *)
Definition isActive (pathname : string) (i : item) : bool :=
  pathname =? href i.

(** The items rendered as active. *)
Definition active (pathname : string) : list item :=
  filter (isActive pathname) navigation.

End Layout.

(* ===================================================================== *)
(** * The quantities of the specification, in its own words *)
(* ===================================================================== *)

Module Spec.
Import Schema.

(** A row's latency, a missing one counting as 0. *)
Definition latency_or_zero (r : Runs.row) : Z :=
  match Runs.latency_ms r with
  | Some ms => ms
  | None => 0%Z
  end.

Fixpoint sum (l : list Z) : Z :=
  match l with
  | [] => 0%Z
  | x :: l' => (x + sum l')%Z
  end.

Definition arithmetic_mean (l : list Z) : Q :=
  inject_Z (sum l) / inject_Z (Z.of_nat (List.length l)).

(** [z] is an integer nearest to [x]. *)
Definition nearest_integer (z : Z) (x : Q) : Prop :=
  x - (1 # 2) <= inject_Z z /\ inject_Z z <= x + (1 # 2).

Definition status_dec (a b : option string) : {a = b} + {a <> b}.
Proof. decide equality. apply string_dec. Defined.

(** The number of rows whose status is exactly [s]. *)
Fixpoint count_status (s : string) (rs : list Runs.row) : nat :=
  match rs with
  | [] => 0
  | r :: rs' =>
      if status_dec (Runs.status r) (Some s)
      then S (count_status s rs')
      else count_status s rs'
  end.

(** The number of rows whose model is [m]. *)
Fixpoint count_model (m : string) (rs : list Runs.row) : nat :=
  match rs with
  | [] => 0
  | r :: rs' =>
      if string_dec (Runs.model r) m
      then S (count_model m rs')
      else count_model m rs'
  end.

(** [count / total * 100] *)
Definition percent (count total : nat) : Q :=
  (inject_Z (Z.of_nat count) / inject_Z (Z.of_nat total)) * 100.

(** The number a count or a percentage holds. *)
Definition number (v : JS.value) : Q :=
  match v with
  | JS.VNumber q => q
  | _ => 0
  end.

(** The sum of a list of such numbers. *)
Fixpoint total (l : list JS.value) : Q :=
  match l with
  | [] => 0
  | v :: l' => number v + total l'
  end.

Fixpoint sum_nat (l : list nat) : nat :=
  match l with
  | [] => 0
  | x :: l' => x + sum_nat l'
  end.

(** A model identifier that names no property of Object.prototype. *)
Definition ordinary (m : string) : Prop :=
  JS.prototype_get m = JS.VUndefined.

(** The object [o] holds, for the rows [seen], one own property per model
    identifier that occurs, whose value is the number of its rows. *)
Definition counted (o : JS.object) (seen : list Runs.row) : Prop :=
  NoDup (map fst o)
  /\ forall k,
       JS.own o k =
       match count_model k seen with
       | O => None
       | S c => Some (JS.VNumber (inject_Z (Z.of_nat (S c))))
       end.

(** The unit cost of a model identifier: the cost the table gives it, 0 for
    an identifier the table does not have. *)
Definition per_model_unit_cost (id : string) : Q :=
  match find (fun m => RunPage.value m =? id) RunPage.MODELS with
  | Some m => RunPage.cost m
  | None => 0
  end.

(** A row's cost, a missing one counting as 0. *)
Definition cost_or_zero (r : Runs.row) : Q :=
  match Runs.cost_usd r with
  | Some c => c
  | None => 0
  end.

(** The sum of the rows' costs. *)
Fixpoint total_cost (rs : list Runs.row) : Q :=
  match rs with
  | [] => 0
  | r :: rs' => cost_or_zero r + total_cost rs'
  end.

(** The elements of [l] in the order of their first appearance, those of
    [seen] left out. *)
Fixpoint first_appearances (seen l : list string) : list string :=
  match l with
  | [] => []
  | x :: l' =>
      if in_dec string_dec x seen then first_appearances seen l'
      else x :: first_appearances (seen ++ [x]) l'
  end.

(** Every run that names a prompt names one of the table [prompts]. *)
Definition runs_reference_prompts (db : database) : Prop :=
  forall r p,
    In r (runs db) -> Runs.prompt_id r = Some p ->
    exists q, In q (prompts db) /\ Prompts.id q = p.

(** Every prompt that names a project names one of the table [projects]. *)
Definition prompts_reference_projects (db : database) : Prop :=
  forall p x,
    In p (prompts db) -> Prompts.project_id p = Some x ->
    exists q, In q (projects db) /\ Projects.id q = x.

(** The rows are in descending order of [key], nulls first. *)
Definition descending {A} (key : A -> option timestamptz) (l : list A)
    : Prop :=
  Sorted (fun a b => precedes (key a) (key b) = true) l.

End Spec.

(* ===================================================================== *)
(** * Concrete data for the examples *)
(* ===================================================================== *)

Module Samples.
Import Schema.

Definition alice : Auth.User :=
  {| Auth.id := "a11ce"; Auth.email := Some "alice@example.org" |}.

Definition bob : Auth.User :=
  {| Auth.id := "b0b"; Auth.email := Some "bob@example.org" |}.

(** A row of [runs] owned by alice. *)
Definition run (id model : string) (status : option string)
    (latency : option Z) (cost : option Q) : Runs.row :=
  {| Runs.id := id; Runs.prompt_id := Some "p1"; Runs.model := model;
     Runs.response := None; Runs.tokens_used := None;
     Runs.latency_ms := latency; Runs.cost_usd := cost;
     Runs.status := status; Runs.error_message := None;
     Runs.user_id := "a11ce"; Runs.created_at := None |}.

(** The three rows of the specification's scenario. *)
Definition three_runs : list Runs.row := [
  run "r1" "gpt-4" (Some "completed") (Some 100%Z) (Some (1 # 100));
  run "r2" "gpt-4" (Some "completed") (Some 300%Z) (Some (2 # 100));
  run "r3" "claude-3-opus" (Some "pending") (Some 200%Z) (Some 0)
].

(** One row whose model identifier is the text [__proto__]. *)
Definition proto_run : list Runs.row := [
  run "r1" "__proto__" (Some "completed") (Some 100%Z) (Some (1 # 100))
].

(** Two rows whose model identifier is the text [constructor]. *)
Definition constructor_runs : list Runs.row := [
  run "r1" "constructor" (Some "completed") (Some 100%Z) (Some (1 # 100));
  run "r2" "constructor" (Some "completed") (Some 100%Z) (Some (1 # 100))
].

Definition prompt (id owner : string) : Prompts.row :=
  {| Prompts.id := id; Prompts.title := "Blog Post Generator";
     Prompts.content := "Write a post about {{topic}}.";
     Prompts.project_id := None; Prompts.model := "gpt-4";
     Prompts.temperature := Some (7 # 10); Prompts.max_tokens := Some 1000%Z;
     Prompts.version := Some 1%Z; Prompts.tags := None;
     Prompts.user_id := owner; Prompts.created_at := None;
     Prompts.updated_at := None |}.

Definition profile (id : string) : Profiles.row :=
  {| Profiles.id := id; Profiles.email := Some (id ++ "@example.org");
     Profiles.full_name := None; Profiles.avatar_url := None;
     Profiles.plan := Some "free"; Profiles.created_at := None |}.

(** Alice has one prompt with three runs; bob has one prompt and one run. *)
Definition db : database :=
  {| projects := [];
     prompts := [prompt "p1" "a11ce"; prompt "p2" "b0b"];
     runs := three_runs ++
             [ {| Runs.id := "r4"; Runs.prompt_id := Some "p2";
                  Runs.model := "gpt-4"; Runs.response := None;
                  Runs.tokens_used := None; Runs.latency_ms := None;
                  Runs.cost_usd := None; Runs.status := Some "completed";
                  Runs.error_message := None; Runs.user_id := "b0b";
                  Runs.created_at := None |} ];
     profiles := [profile "a11ce"; profile "b0b"] |}.

(** The Run page as alice sees it, with her prompt [p1] chosen. *)
Definition page (selectedModel : string) : RunPage.world :=
  {| RunPage.prompts := [prompt "p1" "a11ce"];
     RunPage.selectedPrompt := "p1";
     RunPage.selectedModel := selectedModel;
     RunPage.running := false;
     RunPage.result := None;
     RunPage.toasts := [];
     RunPage.console := [];
     RunPage.timers := [];
     RunPage.store := db |}.

(** A call in which [Math.random()] gives 1/2 and then [random_2], and the
    timer fires [elapsed] milliseconds after it was set. *)
Definition call (random_2 : Q) (elapsed : Z) : RunPage.environment :=
  {| RunPage.random_1 := 1 # 2;
     RunPage.random_2 := random_2;
     RunPage.now_before := 1700000000000%Z;
     RunPage.now_after := (1700000000000 + elapsed)%Z;
     RunPage.network_ok := true;
     RunPage.gen_random_uuid := "r5";
     RunPage.now := 1700000003%Z |}.

(** A call in which [Math.random()] gives 4095/4096 and then 3/4: the timer
    is asked to wait 3999.51171875 ms and fires after 4001 ms. *)
Definition late_call : RunPage.environment :=
  {| RunPage.random_1 := 4095 # 4096;
     RunPage.random_2 := 3 # 4;
     RunPage.now_before := 1700000000000%Z;
     RunPage.now_after := 1700000004001%Z;
     RunPage.network_ok := true;
     RunPage.gen_random_uuid := "r5";
     RunPage.now := 1700000004%Z |}.

(** A second call, for which the store draws another identifier. *)
Definition second_call : RunPage.environment :=
  {| RunPage.random_1 := 1 # 4;
     RunPage.random_2 := 1 # 2;
     RunPage.now_before := 1700000010000%Z;
     RunPage.now_after := 1700000012600%Z;
     RunPage.network_ok := true;
     RunPage.gen_random_uuid := "r6";
     RunPage.now := 1700000013%Z |}.

(** A prompt of a project. *)
Definition project_prompt (id owner project : string) : Prompts.row :=
  {| Prompts.id := id; Prompts.title := "Summary";
     Prompts.content := "Summarise {{text}}.";
     Prompts.project_id := Some project; Prompts.model := "gpt-4";
     Prompts.temperature := Some (7 # 10); Prompts.max_tokens := Some 1000%Z;
     Prompts.version := Some 1%Z; Prompts.tags := None;
     Prompts.user_id := owner; Prompts.created_at := Some 1700000000%Z;
     Prompts.updated_at := Some 1700000000%Z |}.

(** Alice has a project with one prompt that has one run, and a prompt
    outside any project with one run. *)
Definition project_db : database :=
  {| projects :=
       [ {| Projects.id := "j1"; Projects.name := "Blog";
            Projects.description := None; Projects.user_id := "a11ce";
            Projects.created_at := None; Projects.updated_at := None |} ];
     prompts := [project_prompt "p1" "a11ce" "j1"; prompt "p3" "a11ce"];
     runs :=
       [ run "r1" "gpt-4" (Some "completed") (Some 100%Z) (Some (1 # 100));
         {| Runs.id := "r7"; Runs.prompt_id := Some "p3";
            Runs.model := "gpt-4"; Runs.response := None;
            Runs.tokens_used := None; Runs.latency_ms := None;
            Runs.cost_usd := None; Runs.status := Some "completed";
            Runs.error_message := None; Runs.user_id := "a11ce";
            Runs.created_at := None |} ];
     profiles := [profile "a11ce"] |}.

(** The Prompts page with its dialog filled in. *)
Definition form (db : database) : PromptsPage.world :=
  {| PromptsPage.prompts := [];
     PromptsPage.loading := false;
     PromptsPage.open := true;
     PromptsPage.title := "Tagline";
     PromptsPage.content := "Write a tagline for {{product}}.";
     PromptsPage.model := "claude-3-opus";
     PromptsPage.temperature := "0.9";
     PromptsPage.toasts := [];
     PromptsPage.console := [];
     PromptsPage.store := db |}.

(** A call of a handler of the Prompts page that reaches the store. *)
Definition write : PromptsPage.environment :=
  {| PromptsPage.write_ok := true;
     PromptsPage.reload_ok := true;
     PromptsPage.gen_random_uuid := "p9";
     PromptsPage.now := 1700000020%Z |}.

(** A [parseFloat] that knows the two texts the examples use. *)
Definition parse (s : string) : option Q :=
  if s =? "0.9" then Some (9 # 10)
  else if s =? "0.7" then Some (7 # 10)
  else None.

End Samples.

(* ===================================================================== *)
(** * Rounding *)
(* ===================================================================== *)

Section Rounding.

Lemma Math_round_nearest (x : Q) : Spec.nearest_integer (JS.Math_round x) x.
Proof.
  unfold Spec.nearest_integer, JS.Math_round.
  pose proof (Qfloor_le (x + (1 # 2))) as Hlo.
  pose proof (Qlt_floor (x + (1 # 2))) as Hhi.
  rewrite inject_Z_plus in Hhi.
  change (inject_Z 1) with 1 in Hhi.
  split; lra.
Qed.

Lemma Math_round_monotone (x y : Q) :
  x <= y -> (JS.Math_round x <= JS.Math_round y)%Z.
Proof.
  intros Hxy. unfold JS.Math_round. apply Qfloor_resp_le. lra.
Qed.

Lemma ratio_in_unit (c n : nat) :
  (c <= n)%nat -> (0 < n)%nat ->
  0 <= inject_Z (Z.of_nat c) / inject_Z (Z.of_nat n) <= 1.
Proof.
  intros Hcn Hn.
  assert (Hpos : 0 < inject_Z (Z.of_nat n)).
  { change 0 with (inject_Z 0). rewrite <- Zlt_Qlt. lia. }
  assert (Hc : 0 <= inject_Z (Z.of_nat c)).
  { change 0 with (inject_Z 0). rewrite <- Zle_Qle. lia. }
  assert (Hle : inject_Z (Z.of_nat c) <= inject_Z (Z.of_nat n)).
  { rewrite <- Zle_Qle. lia. }
  split.
  - apply Qle_shift_div_l; [exact Hpos | lra].
  - apply Qle_shift_div_r; [exact Hpos | lra].
Qed.

End Rounding.

(* ===================================================================== *)
(** * Rounding to binary64 *)
(* ===================================================================== *)

Section Binary64.
Import JS.
Local Open Scope Q_scope.

Lemma pow2_pos (e : Z) : 0 < pow2 e.
Proof. apply Qpower_0_lt. reflexivity. Qed.

Lemma pow2_nonzero (e : Z) : ~ pow2 e == 0.
Proof. pose proof (pow2_pos e). lra. Qed.

Lemma pow2_plus (a b : Z) : pow2 (a + b) == pow2 a * pow2 b.
Proof. apply Qpower_plus. discriminate. Qed.

Lemma pow2_le (a b : Z) : (a <= b)%Z -> pow2 a <= pow2 b.
Proof. intros H. apply Qpower_le_compat_l; [exact H | discriminate]. Qed.

Lemma pow2_lt (a b : Z) : (a < b)%Z -> pow2 a < pow2 b.
Proof. intros H. apply Qpower_lt_compat_l; [exact H | reflexivity]. Qed.

Lemma pow2_lt_inv (a b : Z) : pow2 a < pow2 b -> (a < b)%Z.
Proof.
  intros H. destruct (Z_lt_le_dec a b) as [Hlt|Hle]; [exact Hlt|].
  apply pow2_le in Hle. lra.
Qed.

Lemma pow2_Z (a : Z) : (0 <= a)%Z -> pow2 a == inject_Z (2 ^ a).
Proof. intros H. unfold pow2. now rewrite Zpower_Qpower. Qed.

(** ** Rounding to an integer, ties to even *)

Lemma round_half_even_cases (x : Q) :
  round_half_even x = Qfloor x /\ x - inject_Z (Qfloor x) <= 1 # 2
  \/ round_half_even x = (Qfloor x + 1)%Z
     /\ 1 # 2 <= x - inject_Z (Qfloor x).
Proof.
  unfold round_half_even.
  destruct (Qcompare_spec (x - inject_Z (Qfloor x)) (1 # 2)) as [H|H|H].
  - destruct (Z.even (Qfloor x)); [left | right]; split;
      try reflexivity; lra.
  - left. split; [reflexivity | lra].
  - right. split; [reflexivity | lra].
Qed.

Lemma round_half_even_near (x : Q) :
  x - (1 # 2) <= inject_Z (round_half_even x)
  /\ inject_Z (round_half_even x) <= x + (1 # 2).
Proof.
  pose proof (Qfloor_le x) as Hlo.
  pose proof (Qlt_floor x) as Hhi.
  rewrite inject_Z_plus in Hhi. change (inject_Z 1) with 1 in Hhi.
  destruct (round_half_even_cases x) as [[-> H]|[-> H]].
  - split; lra.
  - rewrite inject_Z_plus. change (inject_Z 1) with 1. split; lra.
Qed.

(** An integer below [x] is below its rounding, one above is above. *)
Lemma round_half_even_ge (x : Q) (k : Z) :
  inject_Z k <= x -> (k <= round_half_even x)%Z.
Proof.
  intros H.
  assert (Hk : (k <= Qfloor x)%Z).
  { rewrite <- (Qfloor_Z k). now apply Qfloor_resp_le. }
  destruct (round_half_even_cases x) as [[-> _]|[-> _]]; lia.
Qed.

Lemma round_half_even_le (x : Q) (k : Z) :
  x <= inject_Z k -> (round_half_even x <= k)%Z.
Proof.
  intros H.
  pose proof (Qfloor_le x) as Hlo.
  assert (Hk : (Qfloor x <= k)%Z).
  { rewrite <- (Qfloor_Z k). now apply Qfloor_resp_le. }
  destruct (round_half_even_cases x) as [[-> _]|[-> Hhalf]]; [exact Hk|].
  destruct (Z.eq_dec (Qfloor x) k) as [E|NE]; [|lia].
  exfalso. rewrite E in Hhalf. lra.
Qed.

Lemma round_half_even_monotone (x y : Q) :
  x <= y -> (round_half_even x <= round_half_even y)%Z.
Proof.
  intros Hxy.
  pose proof (Qfloor_resp_le x y Hxy) as Hf.
  destruct (Z.eq_dec (Qfloor x) (Qfloor y)) as [E|NE].
  - unfold round_half_even. rewrite E.
    destruct (Qcompare_spec (x - inject_Z (Qfloor y)) (1 # 2)) as [H|H|H];
      destruct (Qcompare_spec (y - inject_Z (Qfloor y)) (1 # 2)) as [H'|H'|H'];
      try (destruct (Z.even (Qfloor y))); try lia; lra.
  - destruct (round_half_even_cases x) as [[-> _]|[-> _]];
      destruct (round_half_even_cases y) as [[-> _]|[-> _]]; lia.
Qed.

(** ** The binade of a positive number *)

Lemma ilog2_spec (x : Q) :
  0 < x -> pow2 (ilog2 x) <= x /\ x < pow2 (ilog2 x + 1).
Proof.
  intros Hx. destruct x as [n d]. unfold ilog2. cbn [Qnum Qden].
  assert (Hn : (0 < n)%Z).
  { unfold Qlt in Hx. simpl in Hx. lia. }
  set (a := Z.log2 n). set (b := Z.log2 (Z.pos d)).
  assert (Ha : (0 <= a)%Z) by apply Z.log2_nonneg.
  assert (Hb : (0 <= b)%Z) by apply Z.log2_nonneg.
  destruct (Z.log2_spec n Hn) as [Hn1 Hn2]. fold a in Hn1, Hn2.
  destruct (Z.log2_spec (Z.pos d) (Pos2Z.is_pos d)) as [Hd1 Hd2].
  fold b in Hd1, Hd2.
  assert (Hx' : n # d == inject_Z n / inject_Z (Z.pos d))
    by apply Qmake_Qdiv.
  assert (Hdpos : 0 < inject_Z (Z.pos d)).
  { change 0 with (inject_Z 0). rewrite <- Zlt_Qlt. lia. }
  assert (Qn1 : pow2 a <= inject_Z n).
  { rewrite pow2_Z by exact Ha. now rewrite <- Zle_Qle. }
  assert (Qn2 : inject_Z n < pow2 (a + 1)).
  { rewrite pow2_Z by lia. rewrite <- Zlt_Qlt.
    now rewrite <- Z.add_1_r in Hn2. }
  assert (Qd1 : pow2 b <= inject_Z (Z.pos d)).
  { rewrite pow2_Z by exact Hb. now rewrite <- Zle_Qle. }
  assert (Qd2 : inject_Z (Z.pos d) < pow2 (b + 1)).
  { rewrite pow2_Z by lia. rewrite <- Zlt_Qlt.
    now rewrite <- Z.add_1_r in Hd2. }
  assert (Hupper : n # d < pow2 (a - b + 1)).
  { rewrite Hx'. apply Qlt_shift_div_r; [exact Hdpos|].
    apply Qlt_le_trans with (pow2 (a + 1)); [exact Qn2|].
    replace (a + 1)%Z with ((a - b + 1) + b)%Z by lia.
    rewrite pow2_plus.
    apply Qmult_le_l; [apply pow2_pos | exact Qd1]. }
  assert (Hlower : pow2 (a - b - 1) <= n # d).
  { rewrite Hx'. apply Qle_shift_div_l; [exact Hdpos|].
    apply Qle_trans with (pow2 a); [|exact Qn1].
    replace a with ((a - b - 1) + (b + 1))%Z at 2 by lia.
    rewrite pow2_plus.
    apply Qmult_le_l; [apply pow2_pos | apply Qlt_le_weak, Qd2]. }
  destruct (Qle_bool (pow2 (a - b)) (n # d)) eqn:E.
  - apply Qle_bool_iff in E. split; [exact E | exact Hupper].
  - split; [exact Hlower|].
    replace (a - b - 1 + 1)%Z with (a - b)%Z by lia.
    apply Qnot_le_lt. intros H. apply Qle_bool_iff in H. congruence.
Qed.

Lemma ilog2_unique (x : Q) (e : Z) :
  pow2 e <= x -> x < pow2 (e + 1) -> ilog2 x = e.
Proof.
  intros H1 H2.
  assert (Hx : 0 < x) by (pose proof (pow2_pos e); lra).
  destruct (ilog2_spec x Hx) as [H3 H4].
  assert (ilog2 x < e + 1)%Z by (apply pow2_lt_inv; lra).
  assert (e < ilog2 x + 1)%Z by (apply pow2_lt_inv; lra).
  lia.
Qed.

Lemma ilog2_monotone (x y : Q) :
  0 < x -> x <= y -> (ilog2 x <= ilog2 y)%Z.
Proof.
  intros Hx Hxy.
  destruct (ilog2_spec x Hx) as [H1 _].
  destruct (ilog2_spec y) as [_ H2]; [lra|].
  assert (ilog2 x < ilog2 y + 1)%Z by (apply pow2_lt_inv; lra).
  lia.
Qed.


(** ** binary64 *)

Lemma round_half_even_compat (x y : Q) :
  x == y -> round_half_even x = round_half_even y.
Proof.
  intros H. unfold round_half_even.
  rewrite (Qfloor_comp _ _ H).
  assert (E : (x - inject_Z (Qfloor y) ?= 1 # 2)
              = (y - inject_Z (Qfloor y) ?= 1 # 2)).
  { apply Qcompare_comp; [now rewrite H | reflexivity]. }
  now rewrite E.
Qed.

Lemma ilog2_compat (x y : Q) : 0 < x -> x == y -> ilog2 x = ilog2 y.
Proof.
  intros Hx H.
  destruct (ilog2_spec y) as [H1 H2]; [lra|].
  apply ilog2_unique; lra.
Qed.

Lemma binary64_zero (x : Q) : x == 0 -> binary64 x == 0.
Proof.
  intros H. unfold binary64.
  apply Qeq_bool_iff in H. now rewrite H.
Qed.

Lemma binary64_nonzero (x : Q) :
  ~ x == 0 ->
  binary64 x == inject_Z (round_half_even (x / pow2 (exponent x)))
                * pow2 (exponent x).
Proof.
  intros H. unfold binary64, exponent.
  destruct (Qeq_bool x 0) eqn:E; [|reflexivity].
  apply Qeq_bool_iff in E. contradiction.
Qed.

Lemma Qabs_positive (x : Q) : 0 < x -> Qabs x == x.
Proof. intros H. apply Qabs_pos. lra. Qed.

Lemma exponent_compat (x y : Q) : x == y -> ~ x == 0 -> exponent x = exponent y.
Proof.
  intros H Hx. unfold exponent. f_equal. f_equal.
  apply ilog2_compat.
  - apply Qabs_case; intros; lra.
  - now rewrite H.
Qed.

(** Rounding does not depend on how the rational is written. *)
Lemma binary64_compat (x y : Q) : x == y -> binary64 x == binary64 y.
Proof.
  intros H.
  destruct (Qeq_dec x 0) as [Hx|Hx].
  - rewrite (binary64_zero x Hx), (binary64_zero y); [reflexivity|].
    now rewrite <- H.
  - assert (Hy : ~ y == 0) by (now rewrite <- H).
    rewrite (binary64_nonzero x Hx), (binary64_nonzero y Hy).
    rewrite <- (exponent_compat x y H Hx).
    rewrite (round_half_even_compat (x / pow2 (exponent x))
               (y / pow2 (exponent x))); [reflexivity|].
    apply Qdiv_comp; [exact H | reflexivity].
Qed.

Lemma exponent_positive (x : Q) :
  0 < x -> exponent x = Z.max (ilog2 x - 52) (-1074).
Proof.
  intros H. unfold exponent. f_equal. f_equal.
  apply ilog2_compat.
  - rewrite Qabs_positive; assumption.
  - now apply Qabs_positive.
Qed.

Lemma div_pow2 (x : Q) (e : Z) : x / pow2 e * pow2 e == x.
Proof. field. apply pow2_nonzero. Qed.

Lemma binary64_nonneg (x : Q) : 0 <= x -> 0 <= binary64 x.
Proof.
  intros H.
  destruct (Qeq_dec x 0) as [Hx|Hx].
  - rewrite (binary64_zero x Hx). lra.
  - rewrite (binary64_nonzero x Hx).
    apply Qmult_le_0_compat; [|apply Qlt_le_weak, pow2_pos].
    change 0 with (inject_Z 0). rewrite <- Zle_Qle.
    apply round_half_even_ge.
    apply Qle_shift_div_l; [apply pow2_pos|].
    change (inject_Z 0) with 0. rewrite Qmult_0_l. exact H.
Qed.

(** Rounding moves a number by at most half a unit in the last place. *)
Lemma binary64_half_ulp (x : Q) :
  Qabs (binary64 x - x) <= (1 # 2) * pow2 (exponent x).
Proof.
  destruct (Qeq_dec x 0) as [Hx|Hx].
  - assert (E : binary64 x - x == 0)
      by (rewrite (binary64_zero x Hx); lra).
    rewrite E. simpl Qabs. pose proof (pow2_pos (exponent x)). lra.
  - rewrite (binary64_nonzero x Hx).
    set (e := exponent x).
    destruct (round_half_even_near (x / pow2 e)) as [Hlo Hhi].
    pose proof (pow2_pos e) as Hp.
    pose proof (div_pow2 x e) as Hd.
    set (r := inject_Z (round_half_even (x / pow2 e))) in *.
    set (q := x / pow2 e) in *.
    assert (E : r * pow2 e - x == (r - q) * pow2 e) by (rewrite <- Hd; ring).
    rewrite E.
    apply Qabs_Qle_condition. split.
    + assert (0 <= (r - q + (1 # 2)) * pow2 e)
        by (apply Qmult_le_0_compat; lra).
      lra.
    + assert (0 <= ((1 # 2) - (r - q)) * pow2 e)
        by (apply Qmult_le_0_compat; lra).
      lra.
Qed.

(** The relative error of rounding a number in the normal range is at most
    [2^-53]. *)
Lemma binary64_relative_error (x : Q) :
  pow2 (-1022) <= x ->
  Qabs (binary64 x - x) <= pow2 (-53) * x.
Proof.
  intros H.
  assert (Hx : 0 < x) by (pose proof (pow2_pos (-1022)); lra).
  destruct (ilog2_spec x Hx) as [H1 H2].
  assert (Hl : (-1022 <= ilog2 x)%Z).
  { assert (-1022 < ilog2 x + 1)%Z by (apply pow2_lt_inv; lra). lia. }
  eapply Qle_trans; [apply binary64_half_ulp|].
  rewrite (exponent_positive x Hx).
  rewrite Z.max_l by lia.
  replace (ilog2 x - 52)%Z with (1 + (-53 + ilog2 x))%Z by lia.
  rewrite !pow2_plus.
  change (pow2 1) with 2.
  assert (0 <= pow2 (-53) * (x - pow2 (ilog2 x))).
  { apply Qmult_le_0_compat; [apply Qlt_le_weak, pow2_pos | lra]. }
  lra.
Qed.

Lemma binary64_monotone (x y : Q) :
  0 <= x -> x <= y -> binary64 x <= binary64 y.
Proof.
  intros H0 Hxy.
  destruct (Qeq_dec x 0) as [Hx|Hx].
  { rewrite (binary64_zero x Hx). apply binary64_nonneg. lra. }
  assert (Hxpos : 0 < x) by lra.
  assert (Hypos : 0 < y) by lra.
  assert (Hy : ~ y == 0) by lra.
  rewrite (binary64_nonzero x Hx), (binary64_nonzero y Hy).
  rewrite (exponent_positive x Hxpos), (exponent_positive y Hypos).
  pose proof (ilog2_monotone x y Hxpos Hxy) as Hl.
  set (ex := Z.max (ilog2 x - 52) (-1074)).
  set (ey := Z.max (ilog2 y - 52) (-1074)).
  pose proof (pow2_pos ex) as Hpx.
  pose proof (pow2_pos ey) as Hpy.
  destruct (Z.eq_dec ex ey) as [E|NE].
  - rewrite <- E.
    apply Qmult_le_compat_r; [|lra].
    rewrite <- Zle_Qle. apply round_half_even_monotone.
    apply Qmult_le_compat_r; [exact Hxy|].
    apply Qlt_le_weak, Qinv_lt_0_compat, Hpx.
  - assert (Hlt : (ex < ey)%Z) by (unfold ex, ey in *; lia).
    assert (Hey : ey = (ilog2 y - 52)%Z) by (unfold ex, ey in *; lia).
    assert (Hk : (0 <= ilog2 y - ex)%Z) by (unfold ex, ey in *; lia).
    destruct (ilog2_spec x Hxpos) as [_ Hx2].
    destruct (ilog2_spec y Hypos) as [Hy1 _].
    apply Qle_trans with (pow2 (ilog2 y)).
    + assert (E1 : pow2 (ilog2 y) == pow2 (ilog2 y - ex) * pow2 ex).
      { rewrite <- pow2_plus.
        now replace (ilog2 y - ex + ex)%Z with (ilog2 y) by lia. }
      rewrite E1.
      apply Qmult_le_compat_r; [|lra].
      rewrite (pow2_Z _ Hk). rewrite <- Zle_Qle.
      apply round_half_even_le.
      rewrite <- (pow2_Z _ Hk).
      apply Qle_shift_div_r; [exact Hpx|].
      rewrite <- pow2_plus.
      replace (ilog2 y - ex + ex)%Z with (ilog2 y) by lia.
      apply Qle_trans with (pow2 (ilog2 x + 1)); [lra|].
      apply pow2_le. unfold ex, ey in *; lia.
    + assert (E2 : pow2 (ilog2 y) == pow2 52 * pow2 ey).
      { rewrite <- pow2_plus.
        now replace (52 + ey)%Z with (ilog2 y) by lia. }
      rewrite E2.
      apply Qmult_le_compat_r; [|lra].
      rewrite (pow2_Z 52) by lia. rewrite <- Zle_Qle.
      apply round_half_even_ge.
      rewrite <- (pow2_Z 52) by lia.
      apply Qle_shift_div_l; [exact Hpy|].
      rewrite <- pow2_plus.
      replace (52 + ey)%Z with (ilog2 y) by lia.
      exact Hy1.
Qed.

(** A double below 1 is at most [1 - 2^-53]. *)
Lemma binary64_below_one (r : Q) :
  binary64 r == r -> 0 <= r -> r < 1 -> r <= 1 - pow2 (-53).
Proof.
  intros Hr H0 H1.
  destruct (Qlt_le_dec r (1 # 2)) as [Hs|Hs].
  { assert (pow2 (-53) <= 1 # 2) by (apply (pow2_le (-53) (-1)); lia). lra. }
  assert (Hpos : 0 < r) by lra.
  assert (Hx : ~ r == 0) by lra.
  assert (Hl : ilog2 r = (-1)%Z).
  { apply ilog2_unique; [exact Hs | exact H1]. }
  rewrite (binary64_nonzero r Hx) in Hr.
  rewrite (exponent_positive r Hpos) in Hr.
  rewrite Hl in Hr. change (Z.max (-1 - 52) (-1074)) with (-53)%Z in Hr.
  set (n := round_half_even (r / pow2 (-53))) in *.
  assert (Hn : (n < 2 ^ 53)%Z).
  { rewrite Zlt_Qlt. rewrite <- pow2_Z by lia.
    apply Qmult_lt_r with (pow2 (-53)); [apply pow2_pos|].
    rewrite Hr. rewrite <- pow2_plus. exact H1. }
  assert (Hn' : (n <= 2 ^ 53 - 1)%Z) by lia.
  rewrite Zle_Qle in Hn'.
  unfold Z.sub in Hn'. rewrite inject_Z_plus in Hn'.
  rewrite <- pow2_Z in Hn' by lia.
  rewrite <- Hr.
  assert (E : 1 - pow2 (-53) == (pow2 53 + inject_Z (-1)) * pow2 (-53)).
  { rewrite Qmult_plus_distr_l. rewrite <- pow2_plus.
    change (pow2 (53 + -53)) with 1. change (inject_Z (-1)) with (-1). ring. }
  rewrite E.
  apply Qmult_le_compat_r; [exact Hn' | apply Qlt_le_weak, pow2_pos].
Qed.


(** ** The quotient [(c / n) * 100] of two counts *)

Lemma pow2_minus_53 : pow2 (-53) == 1 # 9007199254740992.
Proof. reflexivity. Qed.

(** The relative error of [(c / n) * 100], computed in binary64 for counts
    [c <= n] of an array, is at most [2^-51]. *)
Lemma percent_rounding (c n : nat) :
  (0 < n)%nat -> (c <= n)%nat -> (Z.of_nat n < 2 ^ 32)%Z ->
  Qabs (mul (div (inject_Z (Z.of_nat c)) (inject_Z (Z.of_nat n))) 100
        - Spec.percent c n)
  <= pow2 (-51) * Spec.percent c n.
Proof.
  intros Hn Hcn Hlen. unfold Spec.percent, mul, div.
  set (C := inject_Z (Z.of_nat c)). set (N := inject_Z (Z.of_nat n)).
  assert (HN : 0 < N).
  { unfold N. change 0 with (inject_Z 0). rewrite <- Zlt_Qlt. lia. }
  destruct c as [|c].
  - assert (Hq : C / N == 0) by (unfold C; simpl; field; lra).
    assert (H1 : binary64 (C / N) * 100 == 0).
    { rewrite (binary64_zero _ Hq). ring. }
    rewrite (binary64_zero _ H1), Hq.
    assert (E : 0 - 0 * 100 == 0) by ring.
    rewrite E. simpl Qabs. lra.
  - set (q := C / N).
    assert (HC1 : 1 <= C).
    { unfold C. change 1 with (inject_Z 1). rewrite <- Zle_Qle. lia. }
    assert (HN32 : N <= 4294967296).
    { unfold N. change 4294967296 with (inject_Z (2 ^ 32)).
      rewrite <- Zle_Qle. lia. }
    assert (Hqlo : 1 # 4294967296 <= q).
    { unfold q. apply Qle_shift_div_l; [exact HN | lra]. }
    assert (Hsmall : pow2 (-1022) <= 1 # 8589934592).
    { apply (pow2_le (-1022) (-33)). lia. }
    pose proof (binary64_relative_error q ltac:(lra)) as E1.
    rewrite pow2_minus_53 in E1.
    apply Qabs_Qle_condition in E1. destruct E1 as [E1a E1b].
    set (q' := binary64 q) in *.
    pose proof (binary64_relative_error (q' * 100) ltac:(lra)) as E2.
    rewrite pow2_minus_53 in E2.
    apply Qabs_Qle_condition in E2. destruct E2 as [E2a E2b].
    set (y := binary64 (q' * 100)) in *.
    change (pow2 (-51)) with (1 # 2251799813685248).
    apply Qabs_Qle_condition. split; lra.
Qed.



(** ** The two expressions of the simulator *)

Lemma tokens_range (x : Q) :
  representable x -> 0 <= x -> x < 1 ->
  (100 <= Math_floor (add 100 (mul x 400)) < 500)%Z.
Proof.
  intros Hr H0 H1. unfold add, mul, Math_floor.
  pose proof (binary64_below_one x Hr H0 H1) as Htop.
  rewrite pow2_minus_53 in Htop.
  assert (Hm0 : 0 <= binary64 (x * 400)) by (apply binary64_nonneg; lra).
  assert (Hm1 : binary64 (x * 400) <= 400 - (1 # 17592186044416)).
  { apply Qle_trans
      with (binary64 ((9007199254740991 # 9007199254740992) * 400)).
    - apply binary64_monotone; lra.
    - vm_compute. discriminate. }
  split.
  - change (Qfloor 100 <= Qfloor (binary64 (100 + binary64 (x * 400))))%Z.
    apply Qfloor_resp_le.
    apply Qle_trans with (binary64 100); [vm_compute; discriminate|].
    apply binary64_monotone; lra.
  - assert (Hs : binary64 (100 + binary64 (x * 400))
                 <= 500 - (1 # 17592186044416)).
    { apply Qle_trans with (binary64 (500 - (1 # 17592186044416))).
      - apply binary64_monotone; lra.
      - vm_compute. discriminate. }
    pose proof (Qfloor_le (binary64 (100 + binary64 (x * 400)))) as Hle.
    rewrite Zlt_Qlt. change (inject_Z 500) with 500. lra.
Qed.

Lemma delay_range (x : Q) :
  representable x -> 0 <= x -> x < 1 ->
  2000 <= add 2000 (mul x 2000) /\ add 2000 (mul x 2000) <= 4000.
Proof.
  intros Hr H0 H1. unfold add, mul.
  pose proof (binary64_below_one x Hr H0 H1) as Htop.
  rewrite pow2_minus_53 in Htop.
  assert (Hm0 : 0 <= binary64 (x * 2000)) by (apply binary64_nonneg; lra).
  assert (Hm1 : binary64 (x * 2000) <= 2000 - (1 # 4398046511104)).
  { apply Qle_trans
      with (binary64 ((9007199254740991 # 9007199254740992) * 2000)).
    - apply binary64_monotone; lra.
    - vm_compute. discriminate. }
  split.
  - apply Qle_trans with (binary64 2000); [vm_compute; discriminate|].
    apply binary64_monotone; lra.
  - apply Qle_trans with (binary64 (4000 - (1 # 4398046511104))).
    + apply binary64_monotone; lra.
    + vm_compute. discriminate.
Qed.

End Binary64.

(* ===================================================================== *)
(** * The analytics aggregator *)
(* ===================================================================== *)

Section Aggregator.
Import Schema AnalyticsPage.

(** What [loadAnalytics] leaves behind when the store answers with at least
    one row: the five statistics are set, then [loading] is cleared. *)
Lemma loadAnalytics_rows (user : Auth.User) (runs : list Runs.row)
    (st : state) :
  runs <> [] ->
  Async.exec (loadAnalytics (Some user) (rows runs)) st =
  setLoading false
    (setStats
       {| totalRuns := List.length runs;
          totalCost := totalCost_of runs;
          avgLatency := JS.Math_round (avgLatency_of runs);
          successRate := JS.Math_round (successRate_of runs);
          modelBreakdown := modelBreakdown_of runs |} st).
Proof.
  destruct runs as [|r rs]; [congruence | reflexivity].
Qed.

(** [reduce] from the left adds up the same total as the sum of the list. *)
Lemma latency_total_from (runs : list Runs.row) (acc : Z) :
  fold_left (fun sum run => (sum + JS.or0Z (Runs.latency_ms run))%Z) runs acc
  = (acc + Spec.sum (map Spec.latency_or_zero runs))%Z.
Proof.
  revert acc.
  induction runs as [|r rs IH]; intros acc; simpl.
  - lia.
  - rewrite IH. unfold Spec.latency_or_zero at 2, JS.or0Z.
    destruct (Runs.latency_ms r); lia.
Qed.

Lemma avgLatency_of_mean (runs : list Runs.row) :
  avgLatency_of runs = Spec.arithmetic_mean (map Spec.latency_or_zero runs).
Proof.
  unfold avgLatency_of, Spec.arithmetic_mean.
  rewrite latency_total_from, length_map. reflexivity.
Qed.

Lemma completed_count (runs : list Runs.row) :
  List.length (filter completed runs) = Spec.count_status "completed" runs.
Proof.
  induction runs as [|r rs IH]; simpl; [reflexivity|].
  unfold completed at 1.
  destruct (Spec.status_dec (Runs.status r) (Some "completed")) as [E|NE].
  - rewrite E. simpl. now rewrite IH.
  - destruct (Runs.status r) as [s|]; [|exact IH].
    destruct (s =? "completed") eqn:Es; [|exact IH].
    apply String.eqb_eq in Es. congruence.
Qed.


(** The success rate depends on the rows through two counts only. *)
Lemma successRate_of_counts (runs : list Runs.row) :
  successRate_of runs
  = JS.mul
      (JS.div (inject_Z (Z.of_nat (Spec.count_status "completed" runs)))
         (inject_Z (Z.of_nat (List.length runs))))
      100.
Proof.
  unfold successRate_of. now rewrite completed_count.
Qed.

(** C1. For a non-empty set of rows, [avgLatency] is the arithmetic mean of
    the rows' latencies, a missing latency counting as 0, rounded to the
    nearest integer (by [Math.round], a tie going up). *)
Theorem avg_latency_rounded_mean (user : Auth.User) (runs : list Runs.row)
    (st : state) :
  runs <> [] ->
  let st' := Async.exec (loadAnalytics (Some user) (rows runs)) st in
  let mean := Spec.arithmetic_mean (map Spec.latency_or_zero runs) in
  avgLatency (stats st') = JS.Math_round mean
  /\ Spec.nearest_integer (avgLatency (stats st')) mean.
Proof.
  intros Hne st' mean. subst st'.
  rewrite (loadAnalytics_rows user runs st Hne). simpl.
  rewrite avgLatency_of_mean. fold mean.
  split; [reflexivity | apply Math_round_nearest].
Qed.

Lemma avg_latency_rounded_mean_witness :
  Samples.three_runs <> []
  /\ avgLatency
       (stats (Async.exec
                 (loadAnalytics (Some Samples.alice) (rows Samples.three_runs))
                 initial)) = 200%Z.
Proof.
  split; [discriminate|].
  destruct (avg_latency_rounded_mean Samples.alice Samples.three_runs initial)
    as [H _]; [discriminate|].
  rewrite H. reflexivity.
Defined.



(** With 23 rows completed of 40 the exact quotient is 57.5, a tie that
    [Math.round] would send to 58; the product computed in binary64 is just
    below 57.5 and the page shows 57, which is as near. *)
Lemma success_rate_23_of_40 :
  let runs :=
    (repeat (Samples.run "r" "gpt-4" (Some "completed") None None) 23
     ++ repeat (Samples.run "r" "gpt-4" (Some "failed") None None) 17)%list in
  Spec.percent (Spec.count_status "completed" runs) (List.length runs)
  == 115 # 2
  /\ successRate_of runs < 115 # 2
  /\ successRate
       (stats (Async.exec (loadAnalytics (Some Samples.alice) (rows runs))
                 initial)) = 57%Z
  /\ JS.Math_round (115 # 2) = 58%Z.
Proof.
  cbv zeta. split; [reflexivity|]. split; [reflexivity|].
  split; vm_compute; reflexivity.
Qed.

(** C4, as amended.  Loading an empty set of rows does not fail, whatever the
    page holds: nothing is thrown and no quotient is computed on this path.
    On a page that holds no earlier statistics, as when it is created, the
    statistics are [totalRuns = 0], [totalCost = 0], [avgLatency = 0],
    [successRate = 0] and [modelBreakdown = []], nothing is logged, and the
    page shows its empty state; a null answer does the same. *)
Theorem empty_rows_zeroed (user : Auth.User) :
  let run_it := loadAnalytics (Some user) (rows []) in
  let zeroed :=
    {| totalRuns := 0; totalCost := 0; avgLatency := 0; successRate := 0;
       modelBreakdown := [] |} in
  (forall st, Async.rejected run_it st = false)
  /\ (forall st,
        stats st = zeroed ->
        stats (Async.exec run_it st) = zeroed
        /\ console (Async.exec run_it st) = console st
        /\ render (Async.exec run_it st) = EmptyState)
  /\ Async.exec run_it initial =
     {| stats := zeroed; loading := false; console := [] |}
  /\ (forall st,
        Async.exec
          (loadAnalytics (Some user)
             {| Client.data := None; Client.error := None |}) st
        = Async.exec run_it st).
Proof.
  cbv zeta. split; [reflexivity|]. split; [|split; reflexivity].
  intros st Hst. split; [exact Hst|]. split; [reflexivity|].
  unfold render. simpl. now rewrite Hst.
Qed.

(** C4, as stated, fails: the empty set is not reported as zeroed on a page
    that holds earlier statistics.  The branch of the empty answer sets no
    statistics, so after the three rows of the scenario have been loaded an
    empty answer leaves [totalRuns = 3] with the other statistics and the
    page goes on showing the metric cards. *)
Lemma empty_rows_keep_earlier_statistics :
  let loaded :=
    Async.exec (loadAnalytics (Some Samples.alice) (rows Samples.three_runs))
      initial in
  let st' := Async.exec (loadAnalytics (Some Samples.alice) (rows [])) loaded in
  stats st' = stats loaded
  /\ totalRuns (stats st') = 3%nat
  /\ avgLatency (stats st') = 200%Z
  /\ successRate (stats st') = 67%Z
  /\ modelBreakdown (stats st') <> []
  /\ render st' = MetricCards.
Proof.
  cbv zeta. split; [reflexivity|]. split; [reflexivity|].
  split; [reflexivity|]. split; [vm_compute; reflexivity|].
  split; [discriminate | reflexivity].
Qed.

(** The early return keeps whatever statistics the page holds. *)
Lemma empty_rows_keep_state (user : Auth.User) (st : state) :
  Async.exec (loadAnalytics (Some user) (rows [])) st = setLoading false st.
Proof.
  reflexivity.
Qed.

(** The rows the store gives alice are the three of the scenario; the page
    then shows 3 runs, 200 ms, 67 % and the two models. *)
Lemma loadAnalytics_three_runs :
  let answer :=
    Client.from_runs_select_eq_user_id Samples.alice "a11ce" Samples.db in
  answer = rows Samples.three_runs
  /\ render (Async.exec (loadAnalytics (Some Samples.alice) answer) initial)
     = MetricCards
  /\ totalRuns
       (stats (Async.exec (loadAnalytics (Some Samples.alice) answer) initial))
     = 3%nat
  /\ totalCost
       (stats (Async.exec (loadAnalytics (Some Samples.alice) answer) initial))
     == 3 # 100.
Proof.
  cbv zeta. repeat split.
Qed.

(** A failed query is logged and leaves the statistics as they were. *)
Lemma loadAnalytics_store_error (user : Auth.User) (message : string)
    (st : state) :
  Async.exec
    (loadAnalytics (Some user)
       {| Client.data := None; Client.error := Some message |}) st
  = setLoading false (console_error "Error loading analytics:" st).
Proof.
  reflexivity.
Qed.

End Aggregator.

(* ===================================================================== *)
(** * The per-model breakdown *)
(* ===================================================================== *)

Local Open Scope list_scope.

Section ObjectFacts.
Import JS.

Lemma own_update (o : object) (k k' : string) (v : value) :
  own (update o k v) k' = if k =? k' then Some v else own o k'.
Proof.
  induction o as [|[k0 v0] o IH]; simpl.
  - reflexivity.
  - destruct (k0 =? k) eqn:E0; simpl.
    + apply String.eqb_eq in E0. subst k0.
      destruct (k =? k'); reflexivity.
    + destruct (k0 =? k') eqn:E1.
      * apply String.eqb_eq in E1. subst k0.
        rewrite String.eqb_sym, E0. reflexivity.
      * exact IH.
Qed.

Lemma own_none_keys (o : object) (k : string) :
  own o k = None <-> ~ In k (map fst o).
Proof.
  induction o as [|[k0 v0] o IH]; simpl.
  - tauto.
  - destruct (k0 =? k) eqn:E.
    + apply String.eqb_eq in E. split; [discriminate | tauto].
    + apply String.eqb_neq in E. rewrite IH. tauto.
Qed.

Lemma own_in (o : object) (k : string) (v : value) :
  NoDup (map fst o) -> (In (k, v) o <-> own o k = Some v).
Proof.
  induction o as [|[k0 v0] o IH]; simpl; intros ND.
  - split; [tauto | discriminate].
  - inversion ND as [|? ? Hnotin ND']; subst.
    destruct (k0 =? k) eqn:E.
    + apply String.eqb_eq in E. subst k0. split.
      * intros [H|H]; [congruence|].
        exfalso. apply Hnotin. now apply (in_map fst) in H.
      * intros H. left. congruence.
    + apply String.eqb_neq in E. rewrite <- (IH ND'). split.
      * intros [H|H]; [congruence | exact H].
      * intros H. now right.
Qed.

Lemma keys_update (o : object) (k : string) (v : value) :
  map fst (update o k v) =
  if in_dec string_dec k (map fst o) then map fst o else map fst o ++ [k].
Proof.
  induction o as [|[k0 v0] o IH]; simpl.
  - reflexivity.
  - destruct (k0 =? k) eqn:E.
    + apply String.eqb_eq in E. subst k0. simpl.
      destruct (string_dec k k); [|congruence].
      reflexivity.
    + apply String.eqb_neq in E. simpl. rewrite IH.
      destruct (string_dec k0 k); [congruence|].
      destruct (in_dec string_dec k (map fst o)); reflexivity.
Qed.

Lemma NoDup_keys_update (o : object) (k : string) (v : value) :
  NoDup (map fst o) -> NoDup (map fst (update o k v)).
Proof.
  intros ND. rewrite keys_update.
  destruct (in_dec string_dec k (map fst o)) as [Hin|Hnotin]; [exact ND|].
  apply NoDup_app; [exact ND | repeat constructor; simpl; tauto |].
  intros x Hx [Hk|[]]. subst x. contradiction.
Qed.

Lemma insert_index_perm e l : Permutation (insert_index e l) (e :: l).
Proof.
  induction l as [|e' l IH]; simpl.
  - reflexivity.
  - destruct (fst e <=? fst e')%N; [reflexivity|].
    rewrite IH. apply perm_swap.
Qed.

(** [Object.entries] lists the own properties, each once. *)
Lemma Object_entries_perm (o : object) : Permutation (Object_entries o) o.
Proof.
  unfold Object_entries.
  induction o as [|[k v] o IH]; simpl.
  - reflexivity.
  - destruct (split_keys o) as [ix names].
    destruct (array_index k) as [n|].
    + simpl. rewrite (Permutation_map snd (insert_index_perm (n, (k, v)) ix)).
      simpl. now constructor.
    + rewrite <- Permutation_middle. now constructor.
Qed.

End ObjectFacts.

Section ModelBreakdown.
Import Schema AnalyticsPage.
Local Open Scope nat_scope.

Lemma count_model_app (m : string) (xs ys : list Runs.row) :
  Spec.count_model m (xs ++ ys) = Spec.count_model m xs + Spec.count_model m ys.
Proof.
  induction xs as [|x xs IH]; simpl; [reflexivity|].
  destruct (string_dec (Runs.model x) m); simpl; now rewrite IH.
Qed.

Lemma count_model_positive (m : string) (rs : list Runs.row) :
  Spec.count_model m rs <> 0 <-> exists r, In r rs /\ Runs.model r = m.
Proof.
  induction rs as [|x rs IH]; simpl.
  - split; [congruence | intros (r & [] & _)].
  - destruct (string_dec (Runs.model x) m) as [E|NE].
    + split; [intros _; exists x; auto | discriminate].
    + rewrite IH. split.
      * intros (r & Hin & Hm). exists r. auto.
      * intros (r & [Hx|Hin] & Hm); [congruence | exists r; auto].
Qed.

(** The next count after a positive one: [(n || 0) + 1] is [n + 1]. *)
Lemma increment_count (c : nat) :
  JS.plus_one (JS.or_zero (JS.VNumber (inject_Z (Z.of_nat (S c)))))
  = JS.VNumber (inject_Z (Z.of_nat (S (S c)))).
Proof.
  unfold JS.or_zero, JS.truthy.
  destruct (Qeq_bool (inject_Z (Z.of_nat (S c))) 0) eqn:E.
  - apply Qeq_bool_eq in E. unfold Qeq in E. simpl in E. lia.
  - simpl negb. cbv iota. unfold JS.plus_one, Qplus, inject_Z.
    cbn [Qnum Qden]. do 2 f_equal. lia.
Qed.

(** One step of the reduction keeps the counts right, for a model identifier
    that names no property of Object.prototype. *)
Lemma step_counted (o : JS.object) (seen : list Runs.row) (r : Runs.row) :
  Spec.ordinary (Runs.model r) ->
  Spec.counted o seen ->
  Spec.counted
    (JS.set o (Runs.model r)
       (JS.plus_one (JS.or_zero (JS.get o (Runs.model r)))))
    (seen ++ [r]).
Proof.
  intros Hord [ND Hown].
  assert (Hproto : (Runs.model r =? "__proto__")%string = false).
  { unfold Spec.ordinary, JS.prototype_get in Hord.
    destruct (Runs.model r =? "__proto__")%string;
      [discriminate | reflexivity]. }
  unfold JS.set. rewrite Hproto. split.
  - now apply NoDup_keys_update.
  - intros k. rewrite own_update, count_model_app.
    cbn [Spec.count_model].
    destruct (string_dec (Runs.model r) k) as [E|NE].
    + subst k. rewrite String.eqb_refl. unfold JS.get. rewrite Hown.
      destruct (Spec.count_model (Runs.model r) seen) as [|c].
      * rewrite Hord. reflexivity.
      * rewrite increment_count.
        replace (S c + 1) with (S (S c)) by lia. reflexivity.
    + apply String.eqb_neq in NE. rewrite NE, Hown, Nat.add_0_r.
      reflexivity.
Qed.

Lemma fold_counted (runs : list Runs.row) :
  Forall (fun r => Spec.ordinary (Runs.model r)) runs ->
  forall (o : JS.object) (seen : list Runs.row),
    Spec.counted o seen ->
    Spec.counted
      (fold_left
         (fun acc run =>
            JS.set acc (Runs.model run)
              (JS.plus_one (JS.or_zero (JS.get acc (Runs.model run)))))
         runs o)
      (seen ++ runs).
Proof.
  induction 1 as [|r rs Hr _ IH]; intros o seen Hc; simpl.
  - now rewrite app_nil_r.
  - replace (seen ++ r :: rs) with ((seen ++ [r]) ++ rs)
      by (rewrite <- app_assoc; reflexivity).
    apply IH. now apply step_counted.
Qed.

Lemma modelCounts_counted (runs : list Runs.row) :
  Forall (fun r => Spec.ordinary (Runs.model r)) runs ->
  Spec.counted (modelCounts runs) runs.
Proof.
  intros Hord. unfold modelCounts.
  apply (fold_counted runs Hord JS.empty_object []).
  split; [constructor | reflexivity].
Qed.

Lemma sum_indicator (m : string) (keys : list string) :
  NoDup keys ->
  Spec.sum_nat (map (fun k => if string_dec m k then 1 else 0) keys)
  = if in_dec string_dec m keys then 1 else 0.
Proof.
  induction 1 as [|k keys Hnotin ND IH]; simpl; [reflexivity|].
  rewrite IH.
  destruct (string_dec k m) as [E|NE], (string_dec m k) as [E'|NE'];
    try congruence.
  - subst k. destruct (in_dec string_dec m keys); [contradiction | reflexivity].
  - destruct (in_dec string_dec m keys); reflexivity.
Qed.

Lemma sum_nat_add {A} (f g : A -> nat) (l : list A) :
  Spec.sum_nat (map (fun x => f x + g x) l)
  = Spec.sum_nat (map f l) + Spec.sum_nat (map g l).
Proof.
  induction l as [|x l IH]; simpl; [reflexivity | rewrite IH; lia].
Qed.

(** Counting per model over a duplicate-free list of identifiers that has
    every model of the rows counts every row once. *)
Lemma sum_counts_keys (keys : list string) (rs : list Runs.row) :
  NoDup keys ->
  (forall r, In r rs -> In (Runs.model r) keys) ->
  Spec.sum_nat (map (fun k => Spec.count_model k rs) keys) = List.length rs.
Proof.
  intros ND. induction rs as [|r rs IH]; intros Hcover; simpl.
  - induction keys as [|k keys IHk]; simpl; [reflexivity|].
    inversion ND; subst. now apply IHk.
  - rewrite (map_ext _
      (fun k => (if string_dec (Runs.model r) k then 1 else 0)
                + Spec.count_model k rs)).
    + rewrite sum_nat_add, sum_indicator by exact ND.
      destruct (in_dec string_dec (Runs.model r) keys) as [Hin|Hnotin].
      * rewrite IH; [reflexivity | intros; apply Hcover; now right].
      * exfalso. apply Hnotin, Hcover. now left.
    + intros k. destruct (string_dec (Runs.model r) k); reflexivity.
Qed.

Lemma total_perm (l l' : list JS.value) :
  Permutation l l' -> (Spec.total l == Spec.total l')%Q.
Proof.
  induction 1; simpl; try lra.
Qed.

Lemma total_counts (seen : list Runs.row) (l : list (string * JS.value)) :
  (forall k v, In (k, v) l ->
     v = JS.VNumber (inject_Z (Z.of_nat (Spec.count_model k seen)))) ->
  (Spec.total (map snd l) ==
   inject_Z (Z.of_nat
     (Spec.sum_nat (map (fun k => Spec.count_model k seen) (map fst l)))))%Q.
Proof.
  induction l as [|[k v] l IH]; intros H; simpl.
  - reflexivity.
  - rewrite IH by (intros; apply H; now right).
    rewrite (H k v) by now left.
    simpl. rewrite Nat2Z.inj_add, inject_Z_plus. reflexivity.
Qed.

Lemma count_model_le (m : string) (rs : list Runs.row) :
  Spec.count_model m rs <= List.length rs.
Proof.
  induction rs as [|r rs IH]; simpl; [lia|].
  destruct (string_dec (Runs.model r) m); lia.
Qed.

(** The percentages of a list of counts, each computed in binary64, add up
    to the percentage of their sum within a relative error of [2^-51]. *)
Lemma total_percent_close (n : nat) (l : list JS.value) :
  0 < n -> (Z.of_nat n < 2 ^ 32)%Z ->
  (forall v, In v l ->
     exists c, v = JS.VNumber (inject_Z (Z.of_nat c)) /\ c <= n) ->
  (Qabs (Spec.total (map (fun v => JS.percent_of v n) l)
         - Spec.total l / inject_Z (Z.of_nat n) * 100)
   <= JS.pow2 (-51) * (Spec.total l / inject_Z (Z.of_nat n) * 100))%Q.
Proof.
  intros Hn Hlen.
  assert (Hnz : ~ (inject_Z (Z.of_nat n) == 0)%Q).
  { change 0%Q with (inject_Z 0). rewrite inject_Z_injective. lia. }
  change (JS.pow2 (-51)) with (1 # 2251799813685248)%Q.
  induction l as [|v l IH]; intros H.
  - simpl.
    assert (E0 : (0 / inject_Z (Z.of_nat n) * 100 == 0)%Q)
      by (field; exact Hnz).
    rewrite E0. vm_compute. discriminate.
  - destruct (H v (or_introl eq_refl)) as (c & -> & Hc).
    specialize (IH (fun v Hv => H v (or_intror Hv))).
    pose proof (percent_rounding c n Hn Hc Hlen) as Hv.
    change (JS.pow2 (-51)) with (1 # 2251799813685248)%Q in Hv.
    unfold Spec.percent in Hv.
    apply Qabs_Qle_condition in IH. apply Qabs_Qle_condition in Hv.
    cbn [map Spec.total JS.percent_of Spec.number].
    set (y := JS.mul (JS.div (inject_Z (Z.of_nat c)) (inject_Z (Z.of_nat n)))
                100) in *.
    set (T := Spec.total (map (fun v => JS.percent_of v n) l)) in *.
    assert (E : ((inject_Z (Z.of_nat c) + Spec.total l)
                 / inject_Z (Z.of_nat n) * 100
                 == inject_Z (Z.of_nat c) / inject_Z (Z.of_nat n) * 100
                    + Spec.total l / inject_Z (Z.of_nat n) * 100)%Q)
      by (field; exact Hnz).
    rewrite E.
    set (a := (inject_Z (Z.of_nat c) / inject_Z (Z.of_nat n) * 100)%Q) in *.
    set (b := (Spec.total l / inject_Z (Z.of_nat n) * 100)%Q) in *.
    apply Qabs_Qle_condition. split; lra.
Qed.

(** The entries of a counted object are the counts of the rows' models. *)
Lemma counted_entries (o : JS.object) (runs : list Runs.row) (k : string)
    (v : JS.value) :
  Spec.counted o runs ->
  In (k, v) o ->
  v = JS.VNumber (inject_Z (Z.of_nat (Spec.count_model k runs)))
  /\ Spec.count_model k runs <> 0.
Proof.
  intros [ND Hown] Hin.
  apply (own_in o k v ND) in Hin. rewrite Hown in Hin.
  destruct (Spec.count_model k runs) as [|c]; [discriminate|].
  split; [congruence | lia].
Qed.

(** X6. For rows whose model identifiers name no property of
    Object.prototype (an array holds fewer than 2^32 rows), the breakdown has
    one entry per model identifier that occurs, with the number of its rows
    and its share of all rows as binary64 computes it, within a relative
    error of [2^-51] of [count / total * 100]; the counts add up to the
    number of rows and the shares to 100 within [100 * 2^-51]. *)
Lemma model_breakdown_ordinary (runs : list Runs.row) :
  Forall (fun r => Spec.ordinary (Runs.model r)) runs ->
  (Z.of_nat (List.length runs) < 2 ^ 32)%Z ->
  let bd := modelBreakdown_of runs in
  NoDup (map model bd)
  /\ (forall m, In m (map model bd) <->
                exists r, In r runs /\ Runs.model r = m)
  /\ (forall e, In e bd ->
        count e =
          JS.VNumber (inject_Z (Z.of_nat (Spec.count_model (model e) runs)))
        /\ exists p,
             percentage e = JS.VNumber p
             /\ (Qabs (p - Spec.percent (Spec.count_model (model e) runs)
                            (List.length runs))
                 <= JS.pow2 (-51)
                    * Spec.percent (Spec.count_model (model e) runs)
                        (List.length runs))%Q)
  /\ (Spec.total (map count bd) == inject_Z (Z.of_nat (List.length runs)))%Q
  /\ (runs <> [] ->
      (Qabs (Spec.total (map percentage bd) - 100) <= 100 * JS.pow2 (-51))%Q).
Proof.
  intros Hord Hlen bd.
  pose proof (modelCounts_counted runs Hord) as Hc.
  pose proof (Object_entries_perm (modelCounts runs)) as Hperm.
  assert (Hmodel : map model bd = map fst (JS.Object_entries (modelCounts runs))).
  { unfold bd, modelBreakdown_of. rewrite map_map.
    apply map_ext. now intros [k v]. }
  assert (Hcount : map count bd = map snd (JS.Object_entries (modelCounts runs))).
  { unfold bd, modelBreakdown_of. rewrite map_map.
    apply map_ext. now intros [k v]. }
  assert (Hpct : map percentage bd =
                 map (fun v => JS.percent_of v (List.length runs)) (map count bd)).
  { unfold bd, modelBreakdown_of. rewrite !map_map.
    apply map_ext. now intros [k v]. }
  assert (Hkeys : forall m, In m (map fst (modelCounts runs)) <->
                            exists r, In r runs /\ Runs.model r = m).
  { intros m. rewrite <- count_model_positive.
    destruct Hc as [_ Hown]. specialize (Hown m).
    destruct (in_dec string_dec m (map fst (modelCounts runs))) as [Hin|Hout].
    - split; [intros _ | intros _; exact Hin].
      intros Hz. rewrite Hz in Hown.
      apply own_none_keys in Hown. contradiction.
    - split; [contradiction|]. intros Hnz. exfalso.
      apply own_none_keys in Hout. rewrite Hout in Hown.
      destruct (Spec.count_model m runs); [congruence | discriminate]. }
  assert (Htotal : (Spec.total (map count bd) ==
                    inject_Z (Z.of_nat (List.length runs)))%Q).
  { rewrite Hcount.
    rewrite (total_perm _ _ (Permutation_map snd Hperm)).
    rewrite (total_counts runs).
    - rewrite sum_counts_keys; [reflexivity | apply Hc |].
      intros r Hr. apply Hkeys. now exists r.
    - intros k v Hin. now apply (counted_entries _ runs k v Hc). }
  split; [|split; [|split; [|split]]].
  - rewrite Hmodel.
    apply (Permutation_NoDup (Permutation_sym (Permutation_map fst Hperm))).
    apply Hc.
  - intros m. rewrite Hmodel, <- Hkeys. split; apply Permutation_in.
    + exact (Permutation_map fst Hperm).
    + exact (Permutation_sym (Permutation_map fst Hperm)).
  - intros e He. unfold bd, modelBreakdown_of in He.
    apply in_map_iff in He. destruct He as ([k v] & <- & Hin).
    apply (Permutation_in _ Hperm) in Hin.
    destruct (counted_entries _ runs k v Hc Hin) as [-> Hpos].
    simpl. split; [reflexivity|].
    eexists. split; [reflexivity|].
    apply percent_rounding; [|apply count_model_le | exact Hlen].
    pose proof (count_model_le k runs). lia.
  - exact Htotal.
  - intros Hne.
    assert (Hn : 0 < List.length runs)
      by (destruct runs; [congruence | simpl; lia]).
    assert (Hclose := total_percent_close (List.length runs) (map count bd)
                        Hn Hlen).
    rewrite <- Hpct in Hclose.
    assert (HN : (0 < inject_Z (Z.of_nat (List.length runs)))%Q).
    { change 0%Q with (inject_Z 0). rewrite <- Zlt_Qlt. lia. }
    assert (E : (Spec.total (map count bd)
                 / inject_Z (Z.of_nat (List.length runs)) * 100 == 100)%Q).
    { rewrite Htotal. field. lra. }
    rewrite E in Hclose.
    assert (E' : (JS.pow2 (-51) * 100 == 100 * JS.pow2 (-51))%Q) by ring.
    rewrite <- E'. apply Hclose.
    intros v Hv. rewrite Hcount in Hv.
    apply in_map_iff in Hv. destruct Hv as ([k v'] & <- & Hin).
    apply (Permutation_in _ Hperm) in Hin.
    destruct (counted_entries _ runs k v' Hc Hin) as [-> _].
    simpl. exists (Spec.count_model k runs).
    split; [reflexivity | apply count_model_le].
Qed.

(** C3, at a row whose model identifier is [__proto__].  The reduction reads
    Object.prototype through the accessor and its assignment is ignored, so
    the object stays empty: one row is counted in [totalRuns], the breakdown
    has no entry for its model and its counts add up to 0. *)
Theorem model_breakdown_proto_row :
  let st' :=
    Async.exec (loadAnalytics (Some Samples.alice) (rows Samples.proto_run))
      initial in
  totalRuns (stats st') = 1
  /\ Spec.count_model "__proto__" Samples.proto_run = 1
  /\ modelCounts Samples.proto_run = JS.empty_object
  /\ modelBreakdown (stats st') = []
  /\ (Spec.total (map count (modelBreakdown (stats st'))) == 0)%Q
  /\ (Spec.total (map percentage (modelBreakdown (stats st'))) == 0)%Q.
Proof.
  cbv zeta. repeat split.
Qed.

(** The same defect at two rows whose model identifier is [constructor]: the
    entry's count is a string built from the inherited function, not the
    number 2, and its percentage is not a number. *)
Lemma model_breakdown_constructor_rows :
  modelBreakdown_of Samples.constructor_runs =
  [ {| model := "constructor";
       count := JS.VString "function Object() { [native code] }11";
       percentage := JS.VNaN |} ].
Proof.
  reflexivity.
Qed.

(** The scenario of the specification. *)
Lemma model_breakdown_three_runs :
  map (fun e => (model e, count e)) (modelBreakdown_of Samples.three_runs)
  = [ ("gpt-4", JS.VNumber 2); ("claude-3-opus", JS.VNumber 1) ].
Proof.
  reflexivity.
Qed.

End ModelBreakdown.

(* ===================================================================== *)
(** * The run simulator *)
(* ===================================================================== *)

Section RunSimulator.
Import Schema RunPage.

(** Without a signed-in user or without a selected prompt the handler only
    notifies. *)
Lemma handleRun_no_selection (env : environment) (user : option Auth.User)
    (w : world) :
  user = None \/ selectedPrompt w = "" ->
  Async.exec (handleRun env user) w
  = emit (toast_error "Please select a prompt") w.
Proof.
  intros H. unfold handleRun, Async.exec, Async.bind, Async.read. simpl.
  destruct user as [u|]; [|reflexivity].
  destruct H as [H|H]; [discriminate|]. rewrite H. reflexivity.
Qed.

(** The selected identifier matches none of the loaded prompts. *)
Lemma handleRun_not_found (env : environment) (u : Auth.User) (w : world) :
  selectedPrompt w <> "" ->
  find (fun p => Prompts.id p =? selectedPrompt w) (prompts w) = None ->
  Async.exec (handleRun env (Some u)) w
  = failed (setResult None (setRunning true w)).
Proof.
  intros Hsel Hfind. apply String.eqb_neq in Hsel.
  unfold handleRun, Async.exec, Async.bind, Async.read,
    Async.try_catch_finally, Async.modify, Async.throw.
  simpl. rewrite Hsel. simpl. rewrite Hfind. reflexivity.
Qed.

(** The selected prompt is loaded: the outcome is that of the insert. *)
Lemma handleRun_found (env : environment) (u : Auth.User) (w : world)
    (prompt : Prompts.row) :
  selectedPrompt w <> "" ->
  find (fun p => Prompts.id p =? selectedPrompt w) (prompts w) = Some prompt ->
  let v := run_of env u prompt (selectedModel w) in
  Async.exec (handleRun env (Some u)) w =
  if network_ok env then
    match insert_into_runs (Some (Auth.id u)) (gen_random_uuid env) (now env)
            v (store w) with
    | inr db =>
        setRunning false
          (emit (toast_success "Prompt executed successfully")
             (setResult
                (Some {| res_response := ins_response v;
                         res_latency := ins_latency_ms v;
                         res_tokens := ins_tokens_used v;
                         res_cost := ins_cost_usd v |})
                (set_store db (started env w))))
    | inl _ => failed (started env w)
    end
  else failed (started env w).
Proof.
  intros Hsel Hfind v. apply String.eqb_neq in Hsel.
  unfold handleRun, Async.exec, Async.bind, Async.read,
    Async.try_catch_finally, Async.modify, Async.throw, from_runs_insert.
  simpl. rewrite Hsel. simpl. rewrite Hfind. simpl.
  destruct (network_ok env); simpl; [|reflexivity].
  fold v.
  destruct (insert_into_runs (Some (Auth.id u)) (gen_random_uuid env)
              (now env) v (store w)); reflexivity.
Qed.

(** A successful insert appends one row and touches nothing else. *)
Lemma insert_into_runs_inr (auth_uid : option uuid) (new_id : uuid)
    (t : timestamptz) (v : runs_insert) (db db' : database) :
  insert_into_runs auth_uid new_id t v db = inr db' ->
  exists cost,
    decimal_10_6 (ins_cost_usd v) = Some cost
    /\ db' = {| Schema.projects := Schema.projects db;
                Schema.prompts := Schema.prompts db;
                Schema.runs := Schema.runs db ++ [stored_run new_id t v cost];
                Schema.profiles := Schema.profiles db |}.
Proof.
  unfold insert_into_runs. intros H.
  destruct (negb (integer_in_range (ins_tokens_used v)
                  && integer_in_range (ins_latency_ms v))); [discriminate|].
  destruct (decimal_10_6 (ins_cost_usd v)) as [cost|]; [|discriminate].
  destruct (negb (permitted runs_t INSERT auth_uid (ins_user_id v)));
    [discriminate|].
  destruct (existsb (fun r => Runs.id r =? new_id) (Schema.runs db));
    [discriminate|].
  destruct (negb (existsb (fun p => Prompts.id p =? ins_prompt_id v)
                    (Schema.prompts db))); [discriminate|].
  exists cost. split; [reflexivity | congruence].
Qed.

(** The handler sets a result only on the path that inserted. *)
Lemma handleRun_result (env : environment) (u : Auth.User) (w : world)
    (r : Result) :
  selectedPrompt w <> "" ->
  result (Async.exec (handleRun env (Some u)) w) = Some r ->
  exists prompt db,
    find (fun p => Prompts.id p =? selectedPrompt w) (prompts w) = Some prompt
    /\ network_ok env = true
    /\ insert_into_runs (Some (Auth.id u)) (gen_random_uuid env) (now env)
         (run_of env u prompt (selectedModel w)) (store w) = inr db
    /\ r = {| res_response := response_of (selectedModel w);
              res_latency := (now_after env - now_before env)%Z;
              res_tokens := tokens_of (random_2 env);
              res_cost := cost_of (tokens_of (random_2 env)) (selectedModel w) |}
    /\ Async.exec (handleRun env (Some u)) w
       = setRunning false
           (emit (toast_success "Prompt executed successfully")
              (setResult (Some r) (set_store db (started env w)))).
Proof.
  intros Hsel Hres.
  destruct (find (fun p => Prompts.id p =? selectedPrompt w) (prompts w))
    as [prompt|] eqn:Hfind.
  - rewrite (handleRun_found env u w prompt Hsel Hfind) in Hres |- *.
    cbv zeta in Hres |- *.
    destruct (network_ok env); [|discriminate].
    destruct (insert_into_runs (Some (Auth.id u)) (gen_random_uuid env)
                (now env) (run_of env u prompt (selectedModel w)) (store w))
      as [e|db] eqn:Hins; [discriminate|].
    simpl in Hres. injection Hres as <-.
    exists prompt, db. repeat split; solve [reflexivity | exact Hins].
  - rewrite (handleRun_not_found env u w Hsel Hfind) in Hres. discriminate.
Qed.






(** C6, as amended.  A run with the model [gemini-pro], whose unit cost is
    0.00025 per 1000 tokens, and a token count of 400 costs 0.0001. *)
Theorem gemini_pro_400_tokens_cost (env : environment) (u : Auth.User)
    (w : world) (r : Result) :
  selectedPrompt w <> "" ->
  selectedModel w = "gemini-pro" ->
  tokens_of (random_2 env) = 400%Z ->
  result (Async.exec (handleRun env (Some u)) w) = Some r ->
  Spec.per_model_unit_cost (selectedModel w) == 25 # 100000
  /\ res_tokens r = 400%Z
  /\ res_cost r == 1 # 10000.
Proof.
  intros Hsel Hmodel Htokens Hres.
  destruct (handleRun_result env u w r Hsel Hres)
    as (prompt & db & _ & _ & _ & -> & _).
  rewrite Hmodel, Htokens. simpl. repeat split; reflexivity.
Qed.

Lemma gemini_pro_400_tokens_cost_witness :
  RunPage.selectedPrompt (Samples.page "gemini-pro") <> ""
  /\ exists r,
       result (Async.exec (handleRun (Samples.call (3 # 4) 3000)
                             (Some Samples.alice))
                 (Samples.page "gemini-pro")) = Some r
       /\ res_cost r == 1 # 10000.
Proof.
  split; [discriminate|].
  eexists. split; [vm_compute; reflexivity|].
  apply (gemini_pro_400_tokens_cost (Samples.call (3 # 4) 3000) Samples.alice
           (Samples.page "gemini-pro") _ ltac:(discriminate) eq_refl
           ltac:(vm_compute; reflexivity) ltac:(vm_compute; reflexivity)).
Defined.

(** C6, as stated, fails: the run of [gemini-pro] with 400 tokens does not
    cost 0.1. *)
Lemma gemini_pro_400_tokens_not_one_tenth :
  exists r,
    result (Async.exec (handleRun (Samples.call (3 # 4) 3000)
                          (Some Samples.alice))
              (Samples.page "gemini-pro")) = Some r
    /\ RunPage.selectedModel (Samples.page "gemini-pro") = "gemini-pro"
    /\ res_tokens r = 400%Z
    /\ ~ res_cost r == 1 # 10.
Proof.
  eexists. split; [vm_compute; reflexivity|]. split; [reflexivity|].
  split; [reflexivity|].
  intros H. vm_compute in H. discriminate.
Qed.

(** For a double in [0, 1) the token count is an integer from 100 to 499. *)
Lemma tokens_of_range (x : Q) :
  JS.representable x -> 0 <= x -> x < 1 -> (100 <= tokens_of x < 500)%Z.
Proof.
  intros Hr H0 H1. now apply tokens_range.
Qed.

(** For a double in [0, 1) the delay lies between 2000 and 4000, both
    included. *)
Lemma delay_of_range (x : Q) :
  JS.representable x -> 0 <= x -> x < 1 ->
  2000 <= delay_of x /\ delay_of x <= 4000.
Proof.
  intros Hr H0 H1. now apply delay_range.
Qed.

(** The bound 4000 is reached: at the largest double below 1 the product
    rounds to 2000 less [2^-42] and the sum, a tie, rounds to 4000. *)
Lemma delay_of_reaches_4000 :
  let r := 9007199254740991 # 9007199254740992 in
  JS.representable r /\ 0 <= r /\ r < 1 /\ delay_of r == 4000.
Proof.
  cbv zeta. split; [vm_compute; reflexivity|].
  split; [vm_compute; discriminate|].
  split; vm_compute; reflexivity.
Qed.

(** The token count is the floor of the rounded sum, which can be one more
    than the floor of the exact sum. *)
Lemma tokens_of_rounds_first :
  let r := 517913957147607 # 9007199254740992 in
  JS.representable r /\ tokens_of r = 123%Z
  /\ JS.Math_floor (100 + r * 400) = 122%Z.
Proof.
  cbv zeta. split; [vm_compute; reflexivity|].
  split; vm_compute; reflexivity.
Qed.

(** C7, as amended.  Whatever doubles the pseudo-random source gives in
    [0, 1), the token count is an integer in [100, 500) and the delay asked
    of the timer lies in [2000, 4000], the upper bound included; the latency
    that is recorded is the difference of the two clock readings taken
    around the wait. *)
Theorem simulated_tokens_and_delay (env : environment) (u : Auth.User)
    (w : world) (r : Result) :
  selectedPrompt w <> "" ->
  JS.representable (random_1 env) ->
  0 <= random_1 env -> random_1 env < 1 ->
  JS.representable (random_2 env) ->
  0 <= random_2 env -> random_2 env < 1 ->
  result (Async.exec (handleRun env (Some u)) w) = Some r ->
  (100 <= res_tokens r < 500)%Z
  /\ (exists delay,
        timers (Async.exec (handleRun env (Some u)) w) = timers w ++ [delay]
        /\ 2000 <= delay /\ delay <= 4000)
  /\ res_latency r = (now_after env - now_before env)%Z.
Proof.
  intros Hsel Hr1 H10 H11 Hr2 H20 H21 Hres.
  destruct (handleRun_result env u w r Hsel Hres)
    as (prompt & db & _ & _ & _ & -> & ->).
  simpl. split; [now apply tokens_of_range|]. split; [|reflexivity].
  exists (delay_of (random_1 env)). split; [reflexivity|].
  now apply delay_of_range.
Qed.

Lemma simulated_tokens_and_delay_witness :
  RunPage.selectedPrompt (Samples.page "gpt-4") <> ""
  /\ JS.representable (random_1 (Samples.call (3 # 4) 3000))
  /\ 0 <= random_1 (Samples.call (3 # 4) 3000)
  /\ random_1 (Samples.call (3 # 4) 3000) < 1
  /\ JS.representable (random_2 (Samples.call (3 # 4) 3000))
  /\ 0 <= random_2 (Samples.call (3 # 4) 3000)
  /\ random_2 (Samples.call (3 # 4) 3000) < 1
  /\ exists r,
       result (Async.exec (handleRun (Samples.call (3 # 4) 3000)
                             (Some Samples.alice))
                 (Samples.page "gpt-4")) = Some r
       /\ (100 <= res_tokens r < 500)%Z
       /\ res_latency r = 3000%Z.
Proof.
  split; [discriminate|].
  split; [vm_compute; reflexivity|].
  split; [vm_compute; discriminate|]. split; [reflexivity|].
  split; [vm_compute; reflexivity|].
  split; [vm_compute; discriminate|]. split; [reflexivity|].
  eexists. split; [vm_compute; reflexivity|].
  destruct (simulated_tokens_and_delay (Samples.call (3 # 4) 3000)
              Samples.alice (Samples.page "gpt-4") _ ltac:(discriminate)
              ltac:(vm_compute; reflexivity)
              ltac:(vm_compute; discriminate) eq_refl
              ltac:(vm_compute; reflexivity)
              ltac:(vm_compute; discriminate) eq_refl
              ltac:(vm_compute; reflexivity))
    as (Ht & _ & Hl).
  split; [exact Ht|]. rewrite Hl. reflexivity.
Defined.

(** C7, as stated, fails: with both pseudo-random values doubles in [0, 1),
    a timer asked to wait 3999.51171875 ms that fires after 4001 ms gives a
    recorded latency of 4001 ms, in the result and in the row that is
    stored. *)
Lemma recorded_latency_above_4000 :
  let env := Samples.late_call in
  let w' :=
    Async.exec (handleRun env (Some Samples.alice)) (Samples.page "gpt-4") in
  (JS.representable (random_1 env) /\ 0 <= random_1 env /\ random_1 env < 1)
  /\ (JS.representable (random_2 env) /\ 0 <= random_2 env
      /\ random_2 env < 1)
  /\ delay_of (random_1 env) == 1023875 # 256
  /\ (exists r, result w' = Some r /\ res_latency r = 4001%Z
                /\ ~ (2000 <= res_latency r < 4000)%Z)
  /\ map Runs.latency_ms (Schema.runs (store w'))
     = map Runs.latency_ms (Schema.runs Samples.db) ++ [Some 4001%Z].
Proof.
  cbv zeta.
  split; [split; [vm_compute; reflexivity|];
          split; [vm_compute; discriminate | reflexivity]|].
  split; [split; [vm_compute; reflexivity|];
          split; [vm_compute; discriminate | reflexivity]|].
  split; [vm_compute; reflexivity|]. split; [|vm_compute; reflexivity].
  eexists. split; [vm_compute; reflexivity|]. split; [reflexivity|].
  simpl. lia.
Qed.


(** The handler ends in one of two ways: it inserted, or it notified an
    error and left the store as it was. *)
Lemma handleRun_cases (env : environment) (user : option Auth.User)
    (w : world) :
  let w' := Async.exec (handleRun env user) w in
  (exists u prompt db,
      user = Some u
      /\ find (fun p => Prompts.id p =? selectedPrompt w) (prompts w)
         = Some prompt
      /\ insert_into_runs (Some (Auth.id u)) (gen_random_uuid env) (now env)
           (run_of env u prompt (selectedModel w)) (store w) = inr db
      /\ w' = setRunning false
                (emit (toast_success "Prompt executed successfully")
                   (setResult
                      (Some {| res_response := response_of (selectedModel w);
                               res_latency :=
                                 (now_after env - now_before env)%Z;
                               res_tokens := tokens_of (random_2 env);
                               res_cost :=
                                 cost_of (tokens_of (random_2 env))
                                   (selectedModel w) |})
                      (set_store db (started env w)))))
  \/ (store w' = store w
      /\ exists message, toasts w' = toasts w ++ [toast_error message]).
Proof.
  cbv zeta.
  destruct user as [u|];
    [|right; rewrite handleRun_no_selection by (now left);
      split; [reflexivity | eexists; reflexivity]].
  destruct (string_dec (selectedPrompt w) "") as [Hnone|Hsel];
    [right; rewrite handleRun_no_selection by (now right);
     split; [reflexivity | eexists; reflexivity]|].
  destruct (find (fun p => Prompts.id p =? selectedPrompt w) (prompts w))
    as [prompt|] eqn:Hfind;
    [|right; rewrite (handleRun_not_found env u w Hsel Hfind);
      split; [reflexivity | eexists; reflexivity]].
  rewrite (handleRun_found env u w prompt Hsel Hfind). cbv zeta.
  destruct (network_ok env);
    [|right; split; [reflexivity | eexists; reflexivity]].
  destruct (insert_into_runs (Some (Auth.id u)) (gen_random_uuid env)
              (now env) (run_of env u prompt (selectedModel w)) (store w))
    as [e|db] eqn:Hins;
    [right; split; [reflexivity | eexists; reflexivity]|].
  left. exists u, prompt, db. repeat split; solve [reflexivity | exact Hins].
Qed.



End RunSimulator.

(* ===================================================================== *)
(** * The schema: policies and the cascade *)
(* ===================================================================== *)

Section Policies.
Import Schema.

(** What the thirteen policies amount to, table by table and command by
    command. *)
Lemma permitted_table (t : table) (c : command) (auth_uid : option uuid)
    (owner : uuid) :
  permitted t c auth_uid owner =
  match t, c with
  | profiles_t, SELECT => true
  | profiles_t, DELETE | runs_t, UPDATE | runs_t, DELETE => false
  | _, _ => eval AUTH_UID_EQ_OWNER auth_uid owner
  end.
Proof.
  unfold permitted.
  destruct t, c; simpl; try reflexivity;
    destruct auth_uid as [u|]; try reflexivity;
    destruct (u =? owner); reflexivity.
Qed.

Lemma filter_all {A} (f : A -> bool) (l : list A) :
  (forall x, f x = true) -> filter f l = l.
Proof.
  intros H. induction l as [|x l IH]; simpl; [reflexivity|].
  now rewrite H, IH.
Qed.

Lemma owner_permitted (u owner : uuid) :
  eval AUTH_UID_EQ_OWNER (Some u) owner = true <-> u = owner.
Proof.
  simpl. apply String.eqb_eq.
Qed.

(** C10. Every profile row is returned to every signed-in principal: the
    SELECT policy of [profiles] is [(true)], so a SELECT by [u] returns the
    whole table, the row of any other user [v] included, whereas a SELECT on
    projects, prompts or runs returns the rows [u] owns.  INSERT and UPDATE
    on [profiles] pass for the owner of the row only. *)
Theorem profiles_readable_by_everyone (db : database) (u : uuid) :
  select_profiles (Some u) db = profiles db
  /\ (forall v row,
        In row (profiles db) -> Profiles.id row = v ->
        In row (select_profiles (Some u) db))
  /\ select_projects (Some u) db
     = filter (fun r => u =? Projects.user_id r) (projects db)
  /\ select_prompts (Some u) db
     = filter (fun r => u =? Prompts.user_id r) (prompts db)
  /\ select_runs (Some u) db
     = filter (fun r => u =? Runs.user_id r) (runs db)
  /\ (forall v, may_update_profile (Some u) v = true <-> u = v)
  /\ (forall v, may_insert_profile (Some u) v = true <-> u = v).
Proof.
  assert (Hall : select_profiles (Some u) db = profiles db).
  { unfold select_profiles. apply filter_all.
    intros row. now rewrite permitted_table. }
  split; [exact Hall|].
  split; [intros v row Hin _; now rewrite Hall|].
  split; [unfold select_projects; apply filter_ext; intros r;
          now rewrite permitted_table|].
  split; [unfold select_prompts; apply filter_ext; intros r;
          now rewrite permitted_table|].
  split; [unfold select_runs; apply filter_ext; intros r;
          now rewrite permitted_table|].
  split; intros v.
  - unfold may_update_profile. rewrite permitted_table.
    apply owner_permitted.
  - unfold may_insert_profile. rewrite permitted_table.
    apply owner_permitted.
Qed.

(** Bob reads alice's profile; he does not read her runs and may not update
    her profile. *)
Lemma profiles_readable_by_everyone_witness :
  In (Samples.profile "a11ce") (select_profiles (Some "b0b") Samples.db)
  /\ select_runs (Some "b0b") Samples.db
     = filter (fun r => "b0b" =? Runs.user_id r) (runs Samples.db)
  /\ may_update_profile (Some "b0b") "a11ce" = false.
Proof.
  split; [|split; [|reflexivity]].
  - apply (proj1 (proj2 (profiles_readable_by_everyone Samples.db "b0b"))
             "a11ce" (Samples.profile "a11ce")); [simpl; auto | reflexivity].
  - apply (proj1 (proj2 (proj2 (proj2 (proj2
             (profiles_readable_by_everyone Samples.db "b0b")))))).
Defined.

(** The policy does not ask for a user at all. *)
Lemma profiles_readable_without_user (db : database) :
  select_profiles None db = profiles db.
Proof.
  unfold select_profiles. apply filter_all.
  intros row. now rewrite permitted_table.
Qed.

End Policies.

Section Cascade.
Import Schema.

Lemma references_spec (ids : list uuid) (r : Runs.row) :
  references ids r = true <->
  exists p, Runs.prompt_id r = Some p /\ In p ids.
Proof.
  unfold references. destruct (Runs.prompt_id r) as [p|].
  - rewrite existsb_exists. split.
    + intros (x & Hin & Heq). apply String.eqb_eq in Heq. subst x.
      exists p. auto.
    + intros (q & Hq & Hin). injection Hq as <-.
      exists p. split; [exact Hin | apply String.eqb_refl].
  - split; [discriminate | intros (p & Hp & _); discriminate].
Qed.

(** The owner of a prompt reaches it with a DELETE. *)
Lemma owner_deletable (p : Prompts.row) :
  deletable (Some (Prompts.user_id p)) (Prompts.id p) p = true.
Proof.
  unfold deletable. rewrite !permitted_table. simpl.
  now rewrite !String.eqb_refl.
Qed.

(** C9. When a principal deletes a prompt row it owns, the statement goes
    through, the row is gone, and so is every row of [runs] that referenced
    it, whoever owns that run: no run referencing the deleted prompt is
    left.  The other runs, and the other tables, are as before. *)
Theorem delete_prompt_cascades_to_runs (db : database) (p : Prompts.row) :
  In p (prompts db) ->
  exists db',
    delete_from_prompts (Some (Prompts.user_id p)) (Prompts.id p) db = inr db'
    /\ ~ In p (prompts db')
    /\ (forall r, In r (runs db') -> Runs.prompt_id r <> Some (Prompts.id p))
    /\ (forall r, In r (runs db) ->
          Runs.prompt_id r <> Some (Prompts.id p) -> In r (runs db'))
    /\ (forall r, In r (runs db') -> In r (runs db))
    /\ projects db' = projects db
    /\ profiles db' = profiles db.
Proof.
  intros Hin. unfold delete_from_prompts. cbn [runs_prompt_id_on_delete
    on_delete_of_prompts].
  eexists. split; [reflexivity|]. cbn [prompts runs projects profiles].
  set (auth := Some (Prompts.user_id p)).
  set (pid := Prompts.id p).
  assert (Hvictim : In pid (map Prompts.id
                              (filter (deletable auth pid) (prompts db)))).
  { apply in_map. apply filter_In. split; [exact Hin|].
    apply owner_deletable. }
  assert (Hids : forall q,
             In q (map Prompts.id (filter (deletable auth pid) (prompts db)))
             -> q = pid).
  { intros q Hq. apply in_map_iff in Hq. destruct Hq as (x & <- & Hx).
    apply filter_In in Hx. destruct Hx as [_ Hx].
    unfold deletable in Hx.
    apply andb_prop in Hx. destruct Hx as [Hx _].
    apply andb_prop in Hx. destruct Hx as [Hx _].
    now apply String.eqb_eq in Hx. }
  repeat split.
  - intros Hp. apply filter_In in Hp. destruct Hp as [_ Hp].
    unfold auth, pid in Hp. rewrite owner_deletable in Hp. discriminate.
  - intros r Hr Href. apply filter_In in Hr. destruct Hr as [_ Hr].
    apply negb_true_iff in Hr.
    assert (Hyes : references
                     (map Prompts.id
                        (filter (deletable auth pid) (prompts db))) r = true).
    { apply references_spec. exists pid. auto. }
    congruence.
  - intros r Hr Href. apply filter_In. split; [exact Hr|].
    apply negb_true_iff.
    destruct (references
                (map Prompts.id (filter (deletable auth pid) (prompts db))) r)
      eqn:E; [|reflexivity].
    apply references_spec in E. destruct E as (q & Hq & Hqin).
    apply Hids in Hqin. subst q. contradiction.
  - intros r Hr. apply filter_In in Hr. tauto.
Qed.

(** Alice deletes her prompt [p1]: its three runs go, bob's run stays. *)
Lemma delete_prompt_cascades_to_runs_witness :
  In (Samples.prompt "p1" "a11ce") (prompts Samples.db)
  /\ exists db',
       delete_from_prompts (Some "a11ce") "p1" Samples.db = inr db'
       /\ map Runs.id (runs db') = ["r4"]
       /\ forall r, In r (runs db') -> Runs.prompt_id r <> Some "p1".
Proof.
  split; [simpl; auto|].
  destruct (delete_prompt_cascades_to_runs Samples.db
              (Samples.prompt "p1" "a11ce") ltac:(simpl; auto))
    as (db' & Hdel & _ & Hnone & _).
  exists db'. split; [exact Hdel|]. split; [|exact Hnone].
  vm_compute in Hdel. injection Hdel as <-. reflexivity.
Defined.

(** Through the client: alice's delete of [p1] answers without error and
    leaves bob's run only; bob's delete of [p1] answers without error too,
    but reaches no row. *)
Lemma client_delete_samples :
  (exists db',
      Client.from_prompts_delete_eq_id Samples.alice "p1" Samples.db
      = (None, db')
      /\ map Prompts.id (prompts db') = ["p2"]
      /\ map Runs.id (runs db') = ["r4"])
  /\ Client.from_prompts_delete_eq_id Samples.bob "p1" Samples.db
     = (None, Samples.db).
Proof.
  split; [eexists; split; [reflexivity | split; reflexivity] | reflexivity].
Qed.

End Cascade.

(* ===================================================================== *)
(** * More on the analytics aggregator *)
(* ===================================================================== *)

Section AggregatorOrder.
Import Schema AnalyticsPage.
Local Open Scope Q_scope.



Lemma total_cost_perm (l l' : list Runs.row) :
  Permutation l l' -> Spec.total_cost l == Spec.total_cost l'.
Proof.
  induction 1; simpl; lra.
Qed.

Lemma latency_sum_perm (l l' : list Runs.row) :
  Permutation l l' ->
  Spec.sum (map Spec.latency_or_zero l) = Spec.sum (map Spec.latency_or_zero l').
Proof.
  induction 1; simpl; lia.
Qed.

Lemma count_status_perm (s : string) (l l' : list Runs.row) :
  Permutation l l' -> Spec.count_status s l = Spec.count_status s l'.
Proof.
  induction 1; simpl; try congruence.
  - destruct (Spec.status_dec (Runs.status x) (Some s)); congruence.
  - destruct (Spec.status_dec (Runs.status x) (Some s)),
             (Spec.status_dec (Runs.status y) (Some s)); reflexivity.
Qed.

Lemma avgLatency_of_perm (l l' : list Runs.row) :
  Permutation l l' -> avgLatency_of l = avgLatency_of l'.
Proof.
  intros H. rewrite !avgLatency_of_mean. unfold Spec.arithmetic_mean.
  rewrite !length_map, (latency_sum_perm l l' H), (Permutation_length H).
  reflexivity.
Qed.

Lemma successRate_of_perm (l l' : list Runs.row) :
  Permutation l l' -> successRate_of l = successRate_of l'.
Proof.
  intros H. rewrite !successRate_of_counts.
  now rewrite (count_status_perm _ l l' H), (Permutation_length H).
Qed.



(** X2. The number of runs, the average latency and the success rate do
    not depend on the order in which the store returns the rows. *)
Theorem summary_order_independent (user : Auth.User)
    (runs runs' : list Runs.row) (st : state) :
  Permutation runs runs' ->
  runs <> [] ->
  let a := stats (Async.exec (loadAnalytics (Some user) (rows runs)) st) in
  let b := stats (Async.exec (loadAnalytics (Some user) (rows runs')) st) in
  totalRuns a = totalRuns b
  /\ avgLatency a = avgLatency b
  /\ successRate a = successRate b.
Proof.
  intros Hperm Hne a b. subst a b.
  assert (Hne' : runs' <> []).
  { intros ->. apply Permutation_sym, Permutation_nil in Hperm. congruence. }
  rewrite (loadAnalytics_rows user runs st Hne),
    (loadAnalytics_rows user runs' st Hne'). simpl.
  split; [apply (Permutation_length Hperm)|].
  split; [now rewrite (avgLatency_of_perm _ _ Hperm)|].
  now rewrite (successRate_of_perm _ _ Hperm).
Qed.

Lemma summary_order_independent_witness :
  Permutation Samples.three_runs (rev Samples.three_runs)
  /\ Samples.three_runs <> []
  /\ avgLatency
       (stats (Async.exec
                 (loadAnalytics (Some Samples.alice)
                    (rows (rev Samples.three_runs))) initial)) = 200%Z
  /\ successRate
       (stats (Async.exec
                 (loadAnalytics (Some Samples.alice)
                    (rows (rev Samples.three_runs))) initial)) = 67%Z.
Proof.
  split; [apply Permutation_rev|]. split; [discriminate|].
  destruct (summary_order_independent Samples.alice Samples.three_runs
              (rev Samples.three_runs) initial (Permutation_rev _))
    as (_ & Ha & Hs); [discriminate|].
  split; [rewrite <- Ha; reflexivity|].
  rewrite <- Hs. vm_compute. reflexivity.
Defined.

(** The total cost is left out of X2 on purpose: the sum that binary64
    computes depends on the order of the rows.  The costs 0.001, 0.012 and
    0.002 add up to the double next above 0.015 in that order and to the
    double next below it when the last two are exchanged. *)
Lemma totalCost_binary64_order :
  let row := fun id cost =>
    Samples.run id "gpt-4" (Some "completed") (Some 100%Z) (Some cost) in
  let a := [row "r1" (1 # 1000); row "r2" (12 # 1000); row "r3" (2 # 1000)]
  in
  let b := [row "r1" (1 # 1000); row "r3" (2 # 1000); row "r2" (12 # 1000)]
  in
  Permutation a b
  /\ totalCost_of a == totalCost_of b
  /\ totalCost_binary64 b < 15 # 1000
  /\ 15 # 1000 < totalCost_binary64 a.
Proof.
  cbv zeta. split; [apply perm_skip, perm_swap|].
  split; [reflexivity|]. split; vm_compute; reflexivity.
Qed.

(** X3. [loadAnalytics] never rejects.  With a user it always ends with
    [loading] cleared; a failed query is logged once and leaves the
    statistics as they were.  Without a user nothing changes at all, so a
    page that was loading stays so. *)
Theorem loadAnalytics_settles (user : option Auth.User)
    (answer : Client.response) (st : state) :
  let st' := Async.exec (loadAnalytics user answer) st in
  Async.rejected (loadAnalytics user answer) st = false
  /\ (user <> None -> loading st' = false)
  /\ (user = None -> st' = st)
  /\ (user <> None -> Client.error answer <> None ->
      stats st' = stats st
      /\ console st' = console st ++ ["Error loading analytics:"])
  /\ (Client.error answer = None -> console st' = console st).
Proof.
  destruct user as [u|]; cbv zeta.
  - destruct answer as [data [e|]]; simpl.
    + repeat split; try reflexivity; intros; congruence.
    + destruct data as [[|r rs]|]; repeat split; try reflexivity;
        intros; congruence.
  - repeat split; try reflexivity; intros; congruence.
Qed.

(** X4. On a page that has just been created the metric cards are shown
    exactly when a user is signed in and the query answered, without error,
    with at least one row; otherwise the spinner (no user) or the empty state
    is shown. *)
Theorem metric_cards_iff_rows (user : option Auth.User)
    (answer : Client.response) :
  render (Async.exec (loadAnalytics user answer) initial) = MetricCards
  <-> user <> None /\ Client.error answer = None
      /\ exists r rs, Client.data answer = Some (r :: rs).
Proof.
  destruct user as [u|].
  - destruct answer as [data [e|]]; simpl.
    + split; [discriminate | intros (_ & H & _); discriminate].
    + destruct data as [[|r rs]|].
      * split; [discriminate | intros (_ & _ & r & rs & H); discriminate].
      * split; [|reflexivity].
        intros _. split; [discriminate|]. split; [reflexivity|]. eauto.
      * split; [discriminate | intros (_ & _ & r & rs & H); discriminate].
  - split; [discriminate | intros (H & _); congruence].
Qed.


End AggregatorOrder.

Section BreakdownOrder.
Import Schema AnalyticsPage.

Lemma first_appearances_in (seen l : list string) (x : string) :
  In x (Spec.first_appearances seen l) -> In x l.
Proof.
  revert seen. induction l as [|y l IH]; intros seen; simpl; [tauto|].
  destruct (in_dec string_dec y seen).
  - intros H. right. now apply (IH seen).
  - intros [H|H]; [now left | right; now apply (IH (seen ++ [y]))].
Qed.

(** The keys of the counting object grow by the new model identifiers, in
    the order the rows bring them. *)
Lemma keys_fold (runs : list Runs.row) :
  Forall (fun r => Spec.ordinary (Runs.model r)) runs ->
  forall o : JS.object,
    map fst
      (fold_left
         (fun acc run =>
            JS.set acc (Runs.model run)
              (JS.plus_one (JS.or_zero (JS.get acc (Runs.model run)))))
         runs o)
    = map fst o ++ Spec.first_appearances (map fst o) (map Runs.model runs).
Proof.
  induction 1 as [|r rs Hr _ IH]; intros o;
    cbn [fold_left map Spec.first_appearances].
  - now rewrite app_nil_r.
  - rewrite IH.
    assert (Hproto : (Runs.model r =? "__proto__")%string = false).
    { unfold Spec.ordinary, JS.prototype_get in Hr.
      destruct (Runs.model r =? "__proto__")%string;
        [discriminate | reflexivity]. }
    unfold JS.set. rewrite Hproto, keys_update.
    destruct (in_dec string_dec (Runs.model r) (map fst o)).
    + reflexivity.
    + now rewrite <- app_assoc.
Qed.

Lemma split_keys_no_index (o : JS.object) :
  (forall k, In k (map fst o) -> JS.array_index k = None) ->
  JS.split_keys o = ([], o).
Proof.
  induction o as [|[k v] o IH]; intros H; simpl; [reflexivity|].
  rewrite IH by (intros; apply H; now right).
  now rewrite (H k (or_introl eq_refl)).
Qed.

(** X7. When no model identifier is an array index (a canonical decimal
    numeral) or the name of a property of Object.prototype, the entries of
    the breakdown come in the order in which the models first appear in the
    rows. *)
Theorem breakdown_in_order_of_first_appearance (runs : list Runs.row) :
  Forall (fun r => Spec.ordinary (Runs.model r)) runs ->
  Forall (fun r => JS.array_index (Runs.model r) = None) runs ->
  map model (modelBreakdown_of runs)
  = Spec.first_appearances [] (map Runs.model runs).
Proof.
  intros Hord Hidx.
  pose proof (keys_fold runs Hord JS.empty_object) as Hkeys.
  simpl in Hkeys. fold (modelCounts runs) in Hkeys.
  unfold modelBreakdown_of, JS.Object_entries.
  rewrite split_keys_no_index.
  - simpl. rewrite map_map. rewrite <- Hkeys.
    apply map_ext. now intros [k v].
  - intros k Hk. rewrite Hkeys in Hk.
    apply first_appearances_in, in_map_iff in Hk.
    destruct Hk as (r & <- & Hr).
    rewrite Forall_forall in Hidx. now apply Hidx.
Qed.

Lemma breakdown_in_order_of_first_appearance_witness :
  Forall (fun r => Spec.ordinary (Runs.model r)) Samples.three_runs
  /\ Forall (fun r => JS.array_index (Runs.model r) = None) Samples.three_runs
  /\ map model (modelBreakdown_of Samples.three_runs)
     = ["gpt-4"; "claude-3-opus"].
Proof.
  assert (H1 : Forall (fun r => Spec.ordinary (Runs.model r))
                 Samples.three_runs)
    by (repeat constructor).
  assert (H2 : Forall (fun r => JS.array_index (Runs.model r) = None)
                 Samples.three_runs)
    by (repeat constructor).
  split; [exact H1|]. split; [exact H2|].
  rewrite (breakdown_in_order_of_first_appearance Samples.three_runs H1 H2).
  reflexivity.
Defined.

(** Model identifiers that are array indices come first, in increasing
    numeric order, whatever the order of the rows. *)
Lemma breakdown_array_indices_first :
  map model
    (modelBreakdown_of
       [ Samples.run "r1" "10" None None None;
         Samples.run "r2" "gpt-4" None None None;
         Samples.run "r3" "2" None None None ])
  = ["2"; "10"; "gpt-4"].
Proof.
  reflexivity.
Qed.

(** On the three rows of the scenario the two shares are the doubles next
    below 200/3 and 100/3; they add up to 100 less [2^-46]. *)
Lemma model_breakdown_ordinary_witness :
  Forall (fun r => Spec.ordinary (Runs.model r)) Samples.three_runs
  /\ (Z.of_nat (List.length Samples.three_runs) < 2 ^ 32)%Z
  /\ Samples.three_runs <> []
  /\ (Spec.total (map count (modelBreakdown_of Samples.three_runs)) == 3)%Q
  /\ (Qabs (Spec.total
              (map percentage (modelBreakdown_of Samples.three_runs)) - 100)
      <= 100 * JS.pow2 (-51))%Q
  /\ (Spec.total (map percentage (modelBreakdown_of Samples.three_runs))
      == 100 - JS.pow2 (-46))%Q.
Proof.
  assert (H1 : Forall (fun r => Spec.ordinary (Runs.model r))
                 Samples.three_runs)
    by (repeat constructor).
  split; [exact H1|]. split; [reflexivity|]. split; [discriminate|].
  destruct (model_breakdown_ordinary Samples.three_runs H1 eq_refl)
    as (_ & _ & _ & Hc & Hp).
  split; [exact Hc|]. split; [apply Hp; discriminate|].
  vm_compute. reflexivity.
Defined.

End BreakdownOrder.

(* ===================================================================== *)
(** * ORDER BY ... DESC *)
(* ===================================================================== *)

Section Ordering.
Import Schema.
Context {A : Type} (key : A -> option timestamptz).

Lemma insert_desc_perm (x : A) (l : list A) :
  Permutation (insert_desc key x l) (x :: l).
Proof.
  induction l as [|y l IH]; simpl; [reflexivity|].
  destruct (precedes (key x) (key y)); [reflexivity|].
  rewrite IH. apply perm_swap.
Qed.

Lemma order_desc_perm (l : list A) : Permutation (order_desc key l) l.
Proof.
  induction l as [|x l IH]; simpl; [reflexivity|].
  rewrite insert_desc_perm. now constructor.
Qed.

Lemma order_desc_in (l : list A) (x : A) :
  In x (order_desc key l) <-> In x l.
Proof.
  split; apply Permutation_in;
    [apply order_desc_perm | apply Permutation_sym, order_desc_perm].
Qed.

Lemma precedes_total (a b : option timestamptz) :
  precedes a b = false -> precedes b a = true.
Proof.
  destruct a as [x|], b as [y|]; simpl; try congruence.
  intros H. apply Z.leb_gt in H. apply Z.leb_le. lia.
Qed.

Lemma insert_desc_sorted (x : A) (l : list A) :
  Spec.descending key l -> Spec.descending key (insert_desc key x l).
Proof.
  unfold Spec.descending.
  induction l as [|y l IH]; intros Hs; simpl.
  - repeat constructor.
  - destruct (precedes (key x) (key y)) eqn:E.
    + constructor; [exact Hs | now constructor].
    + inversion Hs as [|? ? Hs' Hhd]; subst.
      constructor; [now apply IH|].
      destruct l as [|z l]; simpl.
      * constructor. now apply precedes_total.
      * destruct (precedes (key x) (key z)).
        -- constructor. now apply precedes_total.
        -- constructor. now inversion Hhd.
Qed.

Lemma order_desc_sorted (l : list A) : Spec.descending key (order_desc key l).
Proof.
  induction l as [|x l IH]; simpl.
  - constructor.
  - now apply insert_desc_sorted.
Qed.

Lemma precedes_trans (a b c : option timestamptz) :
  precedes a b = true -> precedes b c = true -> precedes a c = true.
Proof.
  destruct a as [x|], b as [y|], c as [z|]; simpl; try congruence.
  rewrite !Z.leb_le. lia.
Qed.

(** In a list in descending order every row precedes every later row. *)
Lemma descending_app (l1 l2 : list A) (a b : A) :
  Spec.descending key (l1 ++ l2) -> In a l1 -> In b l2 ->
  precedes (key a) (key b) = true.
Proof.
  unfold Spec.descending. intros Hs Ha Hb.
  apply Sorted_StronglySorted in Hs.
  2:{ intros x y z. apply precedes_trans. }
  induction l1 as [|x l1 IH]; [contradiction|].
  simpl in Hs. inversion Hs as [|? ? Hs' Hall]; subst.
  destruct Ha as [->|Ha]; [|now apply IH].
  rewrite Forall_forall in Hall. apply Hall.
  apply in_or_app. now right.
Qed.

(** [LIMIT n] after [ORDER BY ... DESC]: the rows left out are those that
    come after the ones kept, so none of them is newer than a row kept. *)
Lemma order_desc_limit (n : nat) (l : list A) :
  Permutation (firstn n (order_desc key l) ++ skipn n (order_desc key l)) l
  /\ forall a b,
       In a (firstn n (order_desc key l)) ->
       In b (skipn n (order_desc key l)) ->
       precedes (key a) (key b) = true.
Proof.
  split.
  - rewrite firstn_skipn. apply order_desc_perm.
  - intros a b Ha Hb.
    apply (descending_app (firstn n (order_desc key l))
             (skipn n (order_desc key l))); [|exact Ha | exact Hb].
    rewrite firstn_skipn. apply order_desc_sorted.
Qed.

End Ordering.

(* ===================================================================== *)
(** * More on the run simulator *)
(* ===================================================================== *)

Section RunSimulatorMore.
Import Schema RunPage.
Local Open Scope Q_scope.

Lemma modelCost_range (m : string) : 0 <= modelCost m /\ modelCost m <= 3 # 100.
Proof.
  unfold modelCost, MODELS. cbn [find value].
  repeat match goal with
         | |- context [(?a =? m)%string] => destruct (a =? m)%string
         end;
    split; vm_compute; discriminate.
Qed.

Lemma cost_of_range (x : Q) (m : string) :
  JS.representable x -> 0 <= x -> x < 1 ->
  0 <= cost_of (tokens_of x) m /\ cost_of (tokens_of x) m <= 1497 # 100000.
Proof.
  intros Hr H0 H1.
  destruct (tokens_of_range x Hr H0 H1) as [Hlo Hhi].
  destruct (modelCost_range m) as [Hc0 Hc1].
  unfold cost_of.
  assert (Ht0 : 0 <= inject_Z (tokens_of x) / 1000).
  { rewrite Zle_Qle in Hlo. change (inject_Z 100) with 100 in Hlo.
    apply Qle_shift_div_l; lra. }
  assert (Ht1 : inject_Z (tokens_of x) / 1000 <= 499 # 1000).
  { assert (tokens_of x <= 499)%Z as H by lia.
    rewrite Zle_Qle in H. change (inject_Z 499) with 499 in H.
    apply Qle_shift_div_r; lra. }
  split.
  - now apply Qmult_le_0_compat.
  - apply Qle_trans with ((499 # 1000) * modelCost m).
    + now apply Qmult_le_compat_r.
    + apply Qle_trans with ((499 # 1000) * (3 # 100)).
      * rewrite !(Qmult_comm (499 # 1000)).
        apply Qmult_le_compat_r; [exact Hc1 | vm_compute; discriminate].
      * vm_compute. discriminate.
Qed.

(** Whatever rational the token value is in [0, 1), double or not, the
    token count and the cost stay within what the columns take. *)
Lemma tokens_of_at_most_500 (x : Q) :
  (0 <= x)%Q -> (x < 1)%Q -> (100 <= tokens_of x <= 500)%Z.
Proof.
  intros H0 H1. unfold tokens_of, JS.add, JS.mul, JS.Math_floor.
  assert (Hm0 : (0 <= JS.binary64 (x * 400))%Q)
    by (apply binary64_nonneg; lra).
  assert (Hm1 : (JS.binary64 (x * 400) <= 400)%Q).
  { apply Qle_trans with (JS.binary64 400).
    - apply binary64_monotone; lra.
    - vm_compute. discriminate. }
  split.
  - change (Qfloor 100
            <= Qfloor (JS.binary64 (100 + JS.binary64 (x * 400))))%Z.
    apply Qfloor_resp_le.
    apply Qle_trans with (JS.binary64 100); [vm_compute; discriminate|].
    apply binary64_monotone; lra.
  - change (Qfloor (JS.binary64 (100 + JS.binary64 (x * 400)))
            <= Qfloor 500)%Z.
    apply Qfloor_resp_le.
    apply Qle_trans with (JS.binary64 500); [|vm_compute; discriminate].
    apply binary64_monotone; lra.
Qed.

Lemma cost_of_at_most (x : Q) (m : string) :
  (0 <= x)%Q -> (x < 1)%Q ->
  (0 <= cost_of (tokens_of x) m)%Q /\ (cost_of (tokens_of x) m <= 1)%Q.
Proof.
  intros H0 H1.
  destruct (tokens_of_at_most_500 x H0 H1) as [Hlo Hhi].
  destruct (modelCost_range m) as [Hc0 Hc1].
  unfold cost_of.
  rewrite Zle_Qle in Hlo, Hhi.
  change (inject_Z 100) with 100%Q in Hlo.
  change (inject_Z 500) with 500%Q in Hhi.
  assert (Ht0 : (0 <= inject_Z (tokens_of x) / 1000)%Q)
    by (apply Qle_shift_div_l; lra).
  assert (Ht1 : (inject_Z (tokens_of x) / 1000 <= 1)%Q)
    by (apply Qle_shift_div_r; lra).
  split.
  - now apply Qmult_le_0_compat.
  - apply Qle_trans with (1 * modelCost m)%Q.
    + now apply Qmult_le_compat_r.
    + lra.
Qed.

(** A small non-negative amount fits DECIMAL(10, 6) and is stored within
    half a millionth of its value. *)
Lemma decimal_10_6_small (c : Q) :
  0 <= c -> c <= 1 ->
  exists stored,
    decimal_10_6 c = Some stored
    /\ 0 <= stored
    /\ stored - c <= 1 # 2000000
    /\ c - stored <= 1 # 2000000.
Proof.
  intros H0 H1. unfold decimal_10_6, round_half_away.
  assert (Hpos : Qle_bool 0 (c * 1000000) = true).
  { apply Qle_bool_iff. lra. }
  rewrite Hpos.
  set (s := Qfloor (c * 1000000 + (1 # 2))).
  pose proof (Qfloor_le (c * 1000000 + (1 # 2))) as Hlo.
  pose proof (Qlt_floor (c * 1000000 + (1 # 2))) as Hhi.
  fold s in Hlo, Hhi. rewrite inject_Z_plus in Hhi.
  change (inject_Z 1) with 1 in Hhi.
  assert (Hs0 : (0 <= s)%Z).
  { apply Z.lt_succ_r. rewrite Zlt_Qlt.
    unfold Z.succ. rewrite inject_Z_plus.
    change (inject_Z 0) with 0. change (inject_Z 1) with 1. lra. }
  assert (Hs1 : (s <= 1000000)%Z).
  { assert (s < 1000001)%Z as Hlt
      by (rewrite Zlt_Qlt; change (inject_Z 1000001) with 1000001; lra).
    lia. }
  assert (Habs : (Z.abs s <? 10000000000)%Z = true).
  { apply Z.ltb_lt. lia. }
  rewrite Habs. eexists. split; [reflexivity|].
  assert (Heq : s # 1000000 == inject_Z s / 1000000).
  { rewrite Qmake_Qdiv. reflexivity. }
  assert (Hs0' : 0 <= inject_Z s).
  { change 0 with (inject_Z 0). now rewrite <- Zle_Qle. }
  rewrite Heq. split; [|split].
  - apply Qle_shift_div_l; lra.
  - apply Qle_minus_iff.
    setoid_replace ((1 # 2000000) + - (inject_Z s / 1000000 - c))
      with ((c * 1000000 + (1 # 2) - inject_Z s) / 1000000) by field.
    apply Qle_shift_div_l; lra.
  - apply Qle_minus_iff.
    setoid_replace ((1 # 2000000) + - (c - inject_Z s / 1000000))
      with ((inject_Z s + (1 # 2) - c * 1000000) / 1000000) by field.
    apply Qle_shift_div_l; lra.
Qed.

(** X8. Whatever the pseudo-random source gives in [0, 1) and whatever the
    selected model, the fabricated token count fits the INTEGER column, the
    cost is not negative and fits the column DECIMAL(10, 6), which stores it
    within half a millionth of a dollar; the value drawn being a double, as
    [Math.random()] returns, the cost is at most 0.01497 dollars. *)
Theorem simulated_cost_fits_column (x : Q) (m : string) :
  0 <= x -> x < 1 ->
  integer_in_range (tokens_of x) = true
  /\ 0 <= cost_of (tokens_of x) m
  /\ (JS.representable x -> cost_of (tokens_of x) m <= 1497 # 100000)
  /\ exists stored,
       decimal_10_6 (cost_of (tokens_of x) m) = Some stored
       /\ 0 <= stored
       /\ stored - cost_of (tokens_of x) m <= 1 # 2000000
       /\ cost_of (tokens_of x) m - stored <= 1 # 2000000.
Proof.
  intros H0 H1.
  destruct (tokens_of_at_most_500 x H0 H1) as [Hlo Hhi].
  destruct (cost_of_at_most x m H0 H1) as [Hc0 Hc1].
  split; [|split; [exact Hc0 | split]].
  - unfold integer_in_range. apply andb_true_intro.
    split; apply Z.leb_le; lia.
  - intros Hr. now apply cost_of_range.
  - now apply decimal_10_6_small.
Qed.

Lemma simulated_cost_fits_column_witness :
  0 <= 3 # 4 /\ 3 # 4 < 1
  /\ JS.representable (3 # 4)
  /\ cost_of (tokens_of (3 # 4)) "gemini-pro" <= 1497 # 100000
  /\ decimal_10_6 (cost_of (tokens_of (3 # 4)) "gemini-pro") <> None.
Proof.
  split; [vm_compute; discriminate|]. split; [reflexivity|].
  split; [vm_compute; reflexivity|].
  destruct (simulated_cost_fits_column (3 # 4) "gemini-pro"
              ltac:(vm_compute; discriminate) eq_refl)
    as (_ & _ & Hc & stored & H & _).
  split; [apply Hc; vm_compute; reflexivity|].
  rewrite H. discriminate.
Defined.

End RunSimulatorMore.

Section RunHandler.
Import Schema RunPage.

(** When the insert goes through. *)
Lemma insert_into_runs_inr_iff (auth_uid : option uuid) (new_id : uuid)
    (t : timestamptz) (v : runs_insert) (db : database) :
  (exists db', insert_into_runs auth_uid new_id t v db = inr db') <->
  integer_in_range (ins_tokens_used v) = true
  /\ integer_in_range (ins_latency_ms v) = true
  /\ decimal_10_6 (ins_cost_usd v) <> None
  /\ permitted runs_t INSERT auth_uid (ins_user_id v) = true
  /\ existsb (fun r => (Runs.id r =? new_id)%string) (Schema.runs db) = false
  /\ existsb (fun p => (Prompts.id p =? ins_prompt_id v)%string)
       (Schema.prompts db) = true.
Proof.
  unfold insert_into_runs.
  destruct (integer_in_range (ins_tokens_used v)),
           (integer_in_range (ins_latency_ms v)),
           (decimal_10_6 (ins_cost_usd v)) as [c|],
           (permitted runs_t INSERT auth_uid (ins_user_id v)),
           (existsb (fun r => (Runs.id r =? new_id)%string) (Schema.runs db)),
           (existsb (fun p => (Prompts.id p =? ins_prompt_id v)%string)
              (Schema.prompts db));
    simpl; split;
    try (intros (db' & H); discriminate);
    try (intros (H1 & H2 & H3 & H4 & H5 & H6); congruence).
  - intros _. repeat split; congruence.
  - intros _. eexists. reflexivity.
Qed.

(** The handler writes in the name of the session's user, which row security
    lets through. *)
Lemma own_insert_permitted (u : Auth.User) :
  permitted runs_t INSERT (Some (Auth.id u)) (Auth.id u) = true.
Proof.
  rewrite permitted_table. simpl. apply String.eqb_refl.
Qed.

(** X9. [handleRun] never rejects.  Once it has started it ends with
    [running] cleared.  It never touches the tables [projects], [prompts] and
    [profiles], and to [runs] it adds at most one row at the end, leaving the
    rows that were there. *)
Theorem handleRun_settles (env : environment) (user : option Auth.User)
    (w : world) :
  let w' := Async.exec (handleRun env user) w in
  Async.rejected (handleRun env user) w = false
  /\ (user <> None -> selectedPrompt w <> "" -> running w' = false)
  /\ Schema.projects (store w') = Schema.projects (store w)
  /\ Schema.prompts (store w') = Schema.prompts (store w)
  /\ Schema.profiles (store w') = Schema.profiles (store w)
  /\ (exists added,
        Schema.runs (store w') = Schema.runs (store w) ++ added
        /\ (List.length added <= 1)%nat).
Proof.
  cbv zeta.
  assert (Hrej : Async.rejected (handleRun env user) w = false).
  { unfold Async.rejected, handleRun, Async.bind, Async.read,
      Async.try_catch_finally, Async.modify, Async.throw, Async.return_,
      from_runs_insert.
    simpl. destruct user as [u|]; [|reflexivity].
    destruct (selectedPrompt w =? "")%string; [reflexivity|]. simpl.
    destruct (find _ (prompts w)); [|reflexivity]. simpl.
    destruct (network_ok env); [|reflexivity]. simpl.
    destruct (insert_into_runs _ _ _ _ _); reflexivity. }
  split; [exact Hrej|].
  destruct user as [u|].
  - destruct (string_dec (selectedPrompt w) "") as [Hnone|Hsel].
    + rewrite handleRun_no_selection by (now right). simpl.
      repeat split; try congruence.
      exists []. rewrite app_nil_r. split; [reflexivity | simpl; lia].
    + destruct (find (fun p => (Prompts.id p =? selectedPrompt w)%string)
                  (prompts w)) as [prompt|] eqn:Hfind.
      * rewrite (handleRun_found env u w prompt Hsel Hfind). cbv zeta.
        destruct (network_ok env).
        -- destruct (insert_into_runs (Some (Auth.id u)) (gen_random_uuid env)
                       (now env) (run_of env u prompt (selectedModel w))
                       (store w)) as [e|db] eqn:Hins.
           ++ simpl. repeat split.
              exists []. rewrite app_nil_r. split; [reflexivity | simpl; lia].
           ++ destruct (insert_into_runs_inr _ _ _ _ _ _ Hins)
                as (cost & _ & ->).
              simpl. repeat split.
              eexists. split; [reflexivity | simpl; lia].
        -- simpl. repeat split.
           exists []. rewrite app_nil_r. split; [reflexivity | simpl; lia].
      * rewrite (handleRun_not_found env u w Hsel Hfind). simpl.
        repeat split.
        exists []. rewrite app_nil_r. split; [reflexivity | simpl; lia].
  - rewrite handleRun_no_selection by (now left). simpl.
    repeat split; try congruence.
    exists []. rewrite app_nil_r. split; [reflexivity | simpl; lia].
Qed.

(** X10. With the token value drawn in [0, 1), a run succeeds exactly when a
    user is signed in, a prompt is selected and is among the loaded ones, the
    request reaches the store, the measured latency fits the INTEGER column,
    the identifier drawn for the row is new and the prompt still exists in
    the store.  Row security, the token count and the cost never make it
    fail. *)
Theorem run_succeeds_iff (env : environment) (user : option Auth.User)
    (w : world) :
  (0 <= random_2 env)%Q -> (random_2 env < 1)%Q ->
  toasts (Async.exec (handleRun env user) w)
  = toasts w ++ [toast_success "Prompt executed successfully"]
  <->
  exists u prompt,
    user = Some u
    /\ selectedPrompt w <> ""
    /\ find (fun p => (Prompts.id p =? selectedPrompt w)%string) (prompts w)
       = Some prompt
    /\ network_ok env = true
    /\ integer_in_range (now_after env - now_before env) = true
    /\ (forall r, In r (Schema.runs (store w)) ->
                  Runs.id r <> gen_random_uuid env)
    /\ (exists p, In p (Schema.prompts (store w))
                  /\ Prompts.id p = Prompts.id prompt).
Proof.
  intros H0 H1.
  assert (Hfail : forall w1 : world,
             toasts w1 = toasts w ->
             toasts (failed w1)
             <> toasts w ++ [toast_success "Prompt executed successfully"]).
  { intros w1 Hw1 H. simpl in H. rewrite Hw1 in H.
    apply app_inv_head in H. discriminate. }
  assert (Hins : forall (u : Auth.User) (prompt : Prompts.row),
             (exists db, insert_into_runs (Some (Auth.id u))
                           (gen_random_uuid env) (now env)
                           (run_of env u prompt (selectedModel w)) (store w)
                         = inr db)
             <-> integer_in_range (now_after env - now_before env) = true
                 /\ (forall r, In r (Schema.runs (store w)) ->
                               Runs.id r <> gen_random_uuid env)
                 /\ (exists p, In p (Schema.prompts (store w))
                               /\ Prompts.id p = Prompts.id prompt)).
  { intros u prompt. rewrite insert_into_runs_inr_iff. simpl.
    rewrite own_insert_permitted.
    destruct (tokens_of_at_most_500 _ H0 H1) as [Hlo Hhi].
    destruct (cost_of_at_most _ (selectedModel w) H0 H1) as [Hc0 Hc1].
    destruct (decimal_10_6_small
                (cost_of (tokens_of (random_2 env)) (selectedModel w)) Hc0
                Hc1)
      as (stored & Hstored & _).
    assert (Htok : integer_in_range (tokens_of (random_2 env)) = true).
    { unfold integer_in_range. apply andb_true_intro.
      split; apply Z.leb_le; lia. }
    rewrite Htok, Hstored.
    assert (Hfresh :
              existsb (fun r => (Runs.id r =? gen_random_uuid env)%string)
                (Schema.runs (store w)) = false
              <-> forall r, In r (Schema.runs (store w)) ->
                            Runs.id r <> gen_random_uuid env).
    { rewrite <- not_true_iff_false, existsb_exists. split.
      - intros Hn r Hr Heq. apply Hn. exists r. split; [exact Hr|].
        now apply String.eqb_eq.
      - intros Hall (r & Hr & Heq). apply String.eqb_eq in Heq.
        now apply (Hall r). }
    assert (Hexists :
              existsb (fun p => (Prompts.id p =? Prompts.id prompt)%string)
                (Schema.prompts (store w)) = true
              <-> exists p, In p (Schema.prompts (store w))
                            /\ Prompts.id p = Prompts.id prompt).
    { rewrite existsb_exists. split; intros (p & Hp & Heq); exists p;
        (split; [exact Hp|]); now apply String.eqb_eq. }
    rewrite Hfresh, Hexists. split.
    - intros (_ & Hl & _ & _ & Hf & He). auto.
    - intros (Hl & Hf & He). repeat split; auto. discriminate. }
  destruct user as [u|].
  2:{ rewrite handleRun_no_selection by (now left). simpl. split.
      - intros H. apply app_inv_head in H. discriminate.
      - intros (u & prompt & Hu & _). discriminate. }
  destruct (string_dec (selectedPrompt w) "") as [Hnone|Hsel].
  { rewrite handleRun_no_selection by (now right). simpl. split.
    - intros H. apply app_inv_head in H. discriminate.
    - intros (u' & prompt & _ & Hsel & _). contradiction. }
  destruct (find (fun p => (Prompts.id p =? selectedPrompt w)%string)
              (prompts w)) as [prompt|] eqn:Hfind.
  2:{ rewrite (handleRun_not_found env u w Hsel Hfind). split.
      - intros H. exfalso. revert H. now apply Hfail.
      - intros (u' & prompt & _ & _ & Hf & _). discriminate. }
  rewrite (handleRun_found env u w prompt Hsel Hfind). cbv zeta.
  destruct (network_ok env).
  2:{ split.
      - intros H. exfalso. revert H. now apply Hfail.
      - intros (u' & p' & _ & _ & _ & Hn & _). discriminate. }
  destruct (insert_into_runs (Some (Auth.id u)) (gen_random_uuid env)
              (now env) (run_of env u prompt (selectedModel w)) (store w))
    as [e|db] eqn:Hres.
  - split.
    + intros H. exfalso. revert H. now apply Hfail.
    + intros (u' & p' & Hu & _ & Hp & _ & Hrest).
      injection Hu as <-. injection Hp as <-.
      apply (Hins u prompt) in Hrest. destruct Hrest as (db & Hdb).
      congruence.
  - split; [|reflexivity].
    intros _. exists u, prompt.
    split; [reflexivity|]. split; [exact Hsel|]. split; [reflexivity|].
    split; [reflexivity|].
    apply (Hins u prompt). now exists db.
Qed.

Lemma run_succeeds_iff_witness :
  (0 <= random_2 (Samples.call (3 # 4) 3000))%Q
  /\ (random_2 (Samples.call (3 # 4) 3000) < 1)%Q
  /\ toasts (Async.exec (handleRun (Samples.call (3 # 4) 3000)
                           (Some Samples.alice)) (Samples.page "gpt-4"))
     = [toast_success "Prompt executed successfully"].
Proof.
  split; [vm_compute; discriminate|]. split; [reflexivity|].
  apply (proj2 (run_succeeds_iff (Samples.call (3 # 4) 3000)
                  (Some Samples.alice) (Samples.page "gpt-4")
                  ltac:(vm_compute; discriminate) eq_refl)).
  exists Samples.alice, (Samples.prompt "p1" "a11ce").
  split; [reflexivity|]. split; [discriminate|]. split; [reflexivity|].
  split; [reflexivity|]. split; [reflexivity|]. split.
  - simpl. intros r [<-|[<-|[<-|[<-|[]]]]]; discriminate.
  - exists (Samples.prompt "p1" "a11ce"). split; [simpl; auto | reflexivity].
Defined.

End RunHandler.

Section RunTwiceAndLoad.
Import Schema RunPage.

Lemma handleRun_success (env : environment) (user : option Auth.User)
    (w : world) :
  toasts (Async.exec (handleRun env user) w)
  = toasts w ++ [toast_success "Prompt executed successfully"] ->
  exists u prompt cost,
    user = Some u
    /\ find (fun p => (Prompts.id p =? selectedPrompt w)%string) (prompts w)
       = Some prompt
    /\ existsb (fun r => (Runs.id r =? gen_random_uuid env)%string)
         (Schema.runs (store w)) = false
    /\ (exists p, In p (Schema.prompts (store w))
                  /\ Prompts.id p = Prompts.id prompt)
    /\ Schema.runs (store (Async.exec (handleRun env user) w))
       = Schema.runs (store w)
         ++ [stored_run (gen_random_uuid env) (now env)
               (run_of env u prompt (selectedModel w)) cost]
    /\ Schema.prompts (store (Async.exec (handleRun env user) w))
       = Schema.prompts (store w)
    /\ prompts (Async.exec (handleRun env user) w) = prompts w
    /\ selectedPrompt (Async.exec (handleRun env user) w) = selectedPrompt w
    /\ selectedModel (Async.exec (handleRun env user) w) = selectedModel w.
Proof.
  intros Hyes.
  destruct (handleRun_cases env user w)
    as [(u & prompt & db & Hu & Hfind & Hins & Hw')
       | (_ & message & Htoasts)].
  - destruct (insert_into_runs_inr _ _ _ _ _ _ Hins) as (cost & _ & Hdb).
    assert (Hiff := proj1 (insert_into_runs_inr_iff _ _ _ _ _)
                      (ex_intro _ db Hins)).
    destruct Hiff as (_ & _ & _ & _ & Hfresh & Hexists).
    exists u, prompt, cost. rewrite Hw'. simpl. rewrite Hdb. simpl.
    repeat split; try assumption.
    apply existsb_exists in Hexists. destruct Hexists as (p & Hp & Heq).
    exists p. split; [exact Hp | now apply String.eqb_eq].
  - rewrite Htoasts in Hyes. apply app_inv_head in Hyes. discriminate.
Qed.

(** X11. Two runs in a row that both succeed leave two rows, one after the
    other, for the same prompt and the same user, with different
    identifiers: nothing merges or replaces them. *)
Theorem two_runs_two_rows (env1 env2 : environment)
    (user : option Auth.User) (w : world) :
  let w1 := Async.exec (handleRun env1 user) w in
  let w2 := Async.exec (handleRun env2 user) w1 in
  toasts w1 = toasts w ++ [toast_success "Prompt executed successfully"] ->
  toasts w2 = toasts w1 ++ [toast_success "Prompt executed successfully"] ->
  exists r1 r2,
    Schema.runs (store w2) = Schema.runs (store w) ++ [r1; r2]
    /\ Runs.id r1 = gen_random_uuid env1
    /\ Runs.id r2 = gen_random_uuid env2
    /\ Runs.id r1 <> Runs.id r2
    /\ Runs.prompt_id r1 = Runs.prompt_id r2
    /\ Runs.user_id r1 = Runs.user_id r2
    /\ Runs.status r1 = Some "completed"
    /\ Runs.status r2 = Some "completed".
Proof.
  intros w1 w2 H1 H2.
  destruct (handleRun_success env1 user w H1)
    as (u & p1 & c1 & Hu & Hf1 & _ & _ & Hr1 & _ & Hp & Hs & Hm).
  destruct (handleRun_success env2 user w1 H2)
    as (u' & p2 & c2 & Hu' & Hf2 & Hfresh & _ & Hr2 & _).
  fold w1 in Hr1, Hp, Hs, Hm. fold w2 in Hr2.
  rewrite Hu in Hu'. injection Hu' as <-.
  rewrite Hp, Hs, Hf1 in Hf2. injection Hf2 as <-.
  do 2 eexists. split.
  - rewrite Hr2, Hr1, <- app_assoc. reflexivity.
  - simpl. repeat split.
    intros Heq. rewrite Hr1, existsb_app in Hfresh. simpl in Hfresh.
    rewrite Heq, String.eqb_refl in Hfresh.
    rewrite orb_true_r in Hfresh. discriminate.
Qed.

Lemma two_runs_two_rows_witness :
  let w1 :=
    Async.exec (handleRun (Samples.call (3 # 4) 3000) (Some Samples.alice))
      (Samples.page "gpt-4") in
  let w2 := Async.exec (handleRun Samples.second_call (Some Samples.alice)) w1 in
  toasts w1 = [toast_success "Prompt executed successfully"]
  /\ toasts w2 = toasts w1 ++ [toast_success "Prompt executed successfully"]
  /\ map Runs.id (Schema.runs (store w2)) = ["r1"; "r2"; "r3"; "r4"; "r5"; "r6"].
Proof.
  cbv zeta. split; [reflexivity|]. split; [reflexivity|].
  destruct (two_runs_two_rows (Samples.call (3 # 4) 3000) Samples.second_call
              (Some Samples.alice) (Samples.page "gpt-4") eq_refl eq_refl)
    as (r1 & r2 & Hruns & Hi1 & Hi2 & _).
  rewrite Hruns, map_app. simpl. rewrite Hi1, Hi2. reflexivity.
Defined.

End RunTwiceAndLoad.

(* ===================================================================== *)
(** * Loading the prompts *)
(* ===================================================================== *)

Section LoadingPrompts.
Import Schema.

(** The rows of the prompts query for the session's own identifier: the
    user's prompts, newest first. *)
Lemma own_prompts_query (u : Auth.User) (db : database) :
  exists rows,
    Client.from_prompts_select_eq_user_id_order (Some (Auth.id u))
      (Auth.id u) db
    = {| Client.prompts_data := Some rows; Client.prompts_error := None |}
    /\ (forall p, In p rows <->
                  In p (prompts db) /\ Prompts.user_id p = Auth.id u)
    /\ Spec.descending Prompts.created_at rows.
Proof.
  eexists. split; [reflexivity|]. split.
  - intros p. rewrite order_desc_in. unfold select_prompts.
    rewrite !filter_In, permitted_table. simpl.
    rewrite !String.eqb_eq. intuition congruence.
  - apply order_desc_sorted.
Qed.

Lemma run_page_loadPrompts_ok (u : Auth.User) (w : RunPage.world) :
  exists rows,
    Async.exec (RunPage.loadPrompts true (Some u)) w = RunPage.setPrompts rows w
    /\ Async.rejected (RunPage.loadPrompts true (Some u)) w = false
    /\ (forall p, In p rows <->
                  In p (prompts (RunPage.store w))
                  /\ Prompts.user_id p = Auth.id u)
    /\ Spec.descending Prompts.created_at rows.
Proof.
  destruct (own_prompts_query u (RunPage.store w)) as (rows & Hq & Hin & Hs).
  exists rows.
  unfold RunPage.loadPrompts, Async.exec, Async.rejected,
    Async.try_catch_finally, Async.bind, Async.read, RunPage.query_prompts.
  rewrite Hq. simpl. auto.
Qed.


(** X13. A run that succeeds right after the prompts were loaded records a
    prompt that the acting user owns, in the user's own name. *)
Theorem run_records_own_prompt (env : RunPage.environment) (u : Auth.User)
    (w : RunPage.world) :
  let w1 := Async.exec (RunPage.loadPrompts true (Some u)) w in
  let w2 := Async.exec (RunPage.handleRun env (Some u)) w1 in
  RunPage.toasts w2
  = RunPage.toasts w1
    ++ [RunPage.toast_success "Prompt executed successfully"] ->
  exists row p,
    runs (RunPage.store w2) = runs (RunPage.store w) ++ [row]
    /\ Runs.prompt_id row = Some (Prompts.id p)
    /\ In p (prompts (RunPage.store w))
    /\ Prompts.user_id p = Auth.id u
    /\ Runs.user_id row = Auth.id u.
Proof.
  intros w1 w2 Hyes.
  destruct (handleRun_success env (Some u) w1 Hyes)
    as (u' & p & cost & Hu & Hfind & _ & _ & Hruns & _).
  injection Hu as <-.
  fold w2 in Hruns.
  destruct (run_page_loadPrompts_ok u w) as (rows & Hw1 & _ & Hin & _).
  fold w1 in Hw1.
  assert (Hown : In p (prompts (RunPage.store w))
                 /\ Prompts.user_id p = Auth.id u).
  { apply find_some in Hfind. destruct Hfind as [Hp _].
    rewrite Hw1 in Hp. simpl in Hp. now apply Hin. }
  eexists. exists p. rewrite Hruns, Hw1.
  split; [reflexivity|]. simpl. tauto.
Qed.

Lemma run_records_own_prompt_witness :
  let w1 :=
    Async.exec (RunPage.loadPrompts true (Some Samples.alice))
      (Samples.page "gpt-4") in
  let w2 :=
    Async.exec (RunPage.handleRun (Samples.call (3 # 4) 3000)
                  (Some Samples.alice)) w1 in
  RunPage.toasts w2
  = RunPage.toasts w1
    ++ [RunPage.toast_success "Prompt executed successfully"]
  /\ exists row,
       runs (RunPage.store w2) = runs Samples.db ++ [row]
       /\ Runs.user_id row = "a11ce".
Proof.
  cbv zeta. split; [reflexivity|].
  destruct (run_records_own_prompt (Samples.call (3 # 4) 3000) Samples.alice
              (Samples.page "gpt-4") eq_refl)
    as (row & p & Hruns & _ & _ & _ & Hu).
  exists row. split; [exact Hruns | exact Hu].
Defined.

End LoadingPrompts.

(* ===================================================================== *)
(** * The Prompts page *)
(* ===================================================================== *)

Section PromptsHandlers.
Import Schema PromptsPage.

Lemma loadPrompts_ok (u : Auth.User) (w : world) :
  exists rows,
    Async.exec (loadPrompts true (Some u)) w
    = setLoading false (setPrompts rows w)
    /\ (forall p, In p rows <->
                  In p (Schema.prompts (store w))
                  /\ Prompts.user_id p = Auth.id u)
    /\ Spec.descending Prompts.created_at rows.
Proof.
  destruct (own_prompts_query u (store w)) as (rows & Hq & Hin & Hs).
  exists rows.
  unfold loadPrompts, Async.exec, Async.try_catch_finally, Async.bind,
    Async.read, query_prompts.
  rewrite Hq. simpl. auto.
Qed.

Lemma loadPrompts_failed (u : Auth.User) (w : world) :
  Async.exec (loadPrompts false (Some u)) w
  = setLoading false
      (emit (RunPage.toast_error "Failed to load prompts")
         (console_error "Error loading prompts:" w)).
Proof.
  reflexivity.
Qed.



Lemma own_prompt_insert_permitted (u : Auth.User) :
  permitted prompts_t INSERT (Some (Auth.id u)) (Auth.id u) = true.
Proof.
  rewrite permitted_table. simpl. apply String.eqb_refl.
Qed.

Lemma fresh_prompt_id (new_id : uuid) (ps : list Prompts.row) :
  existsb (fun p => (Prompts.id p =? new_id)%string) ps = false
  <-> forall p, In p ps -> Prompts.id p <> new_id.
Proof.
  rewrite <- not_true_iff_false, existsb_exists. split.
  - intros Hn p Hp Heq. apply Hn. exists p. split; [exact Hp|].
    now apply String.eqb_eq.
  - intros Hall (p & Hp & Heq). apply String.eqb_eq in Heq.
    now apply (Hall p).
Qed.

(** X15. Creating a prompt.  Without a user the handler does nothing.  When
    the request reaches the store and the identifier drawn is new, the table
    gains exactly one prompt: its title, content and model are those of the
    form, its temperature is the form's text parsed by [parseFloat] (null
    when that is not a number), it is owned by the user, it belongs to no
    project and has no tags, [max_tokens] is 1000 and [version] is 1, the
    identifier is the one drawn and both timestamps are the time of the
    insert.  The dialog is closed, the form is reset, and the reloaded list
    shows the new prompt.  Otherwise the store, the dialog and the form are
    left as they were and the failure is logged and notified.  The handler
    never rejects. *)
Theorem create_prompt_outcomes (parseFloat : string -> option Q)
    (env : environment) (user : option Auth.User) (w : world) :
  let w' := Async.exec (handleCreatePrompt parseFloat env user) w in
  let created := fun u : Auth.User =>
    {| Prompts.id := gen_random_uuid env;
       Prompts.title := title w;
       Prompts.content := content w;
       Prompts.project_id := None;
       Prompts.model := model w;
       Prompts.temperature := parseFloat (temperature w);
       Prompts.max_tokens := Some 1000%Z;
       Prompts.version := Some 1%Z;
       Prompts.tags := None;
       Prompts.user_id := Auth.id u;
       Prompts.created_at := Some (now env);
       Prompts.updated_at := Some (now env) |} in
  Async.rejected (handleCreatePrompt parseFloat env user) w = false
  /\ (user = None -> w' = w)
  /\ (forall u,
        user = Some u ->
        write_ok env = true ->
        (forall p, In p (Schema.prompts (store w)) ->
                   Prompts.id p <> gen_random_uuid env) ->
        Schema.prompts (store w') = Schema.prompts (store w) ++ [created u]
        /\ Schema.runs (store w') = Schema.runs (store w)
        /\ Schema.projects (store w') = Schema.projects (store w)
        /\ Schema.profiles (store w') = Schema.profiles (store w)
        /\ (exists rest,
              toasts w'
              = toasts w
                ++ RunPage.toast_success "Prompt created successfully" :: rest)
        /\ open w' = false
        /\ title w' = "" /\ content w' = "" /\ model w' = "gpt-4"
        /\ temperature w' = "0.7"
        /\ (reload_ok env = true -> In (created u) (prompts w')))
  /\ (forall u,
        user = Some u ->
        write_ok env = false
        \/ (exists p, In p (Schema.prompts (store w))
                      /\ Prompts.id p = gen_random_uuid env) ->
        store w' = store w
        /\ toasts w'
           = toasts w ++ [RunPage.toast_error "Failed to create prompt"]
        /\ console w' = console w ++ ["Error creating prompt:"]
        /\ open w' = open w
        /\ title w' = title w /\ content w' = content w
        /\ model w' = model w /\ temperature w' = temperature w
        /\ prompts w' = prompts w).
Proof.
  cbv zeta.
  change (fun u : Auth.User =>
            {| Prompts.id := gen_random_uuid env;
               Prompts.title := title w;
               Prompts.content := content w;
               Prompts.project_id := None;
               Prompts.model := model w;
               Prompts.temperature := parseFloat (temperature w);
               Prompts.max_tokens := Some 1000%Z;
               Prompts.version := Some 1%Z;
               Prompts.tags := None;
               Prompts.user_id := Auth.id u;
               Prompts.created_at := Some (now env);
               Prompts.updated_at := Some (now env) |})
    with (fun u : Auth.User =>
            stored_prompt (gen_random_uuid env) (now env)
              (prompt_of parseFloat u w)).
  cbv beta.
  destruct user as [u|];
    [|repeat split; try reflexivity; intros; discriminate].
  pose proof (own_prompt_insert_permitted u) as Hperm.
  destruct (write_ok env) eqn:Hw.
  - destruct (existsb (fun p => (Prompts.id p =? gen_random_uuid env)%string)
                (Schema.prompts (store w))) eqn:Hfresh.
    + (* the identifier is taken *)
      assert (Hrun :
                handleCreatePrompt parseFloat env (Some u) w
                = (Async.Normal tt,
                   emit (RunPage.toast_error "Failed to create prompt")
                     (console_error "Error creating prompt:" w))).
      { unfold handleCreatePrompt, Async.try_catch_finally, Async.bind,
          Async.read, Async.modify, Async.throw, from_prompts_insert,
          insert_into_prompts.
        unfold prompt_of at 1. cbn [pins_user_id].
        rewrite Hw, Hperm, Hfresh. reflexivity. }
      unfold Async.rejected, Async.exec. rewrite Hrun. simpl.
      split; [reflexivity|]. split; [discriminate|]. split.
      * intros u' Hu _ Hall. exfalso.
        apply fresh_prompt_id in Hall. congruence.
      * intros u' _ _. repeat split.
    + (* the insert goes through *)
      set (db' := {| Schema.projects := Schema.projects (store w);
                     Schema.prompts :=
                       Schema.prompts (store w)
                       ++ [stored_prompt (gen_random_uuid env) (now env) (prompt_of parseFloat u w)];
                     Schema.runs := Schema.runs (store w);
                     Schema.profiles := Schema.profiles (store w) |}).
      set (w1 := resetForm
                   (setOpen false
                      (emit (RunPage.toast_success
                               "Prompt created successfully")
                         (set_store db' w)))).
      assert (Hrun :
                handleCreatePrompt parseFloat env (Some u) w
                = (Async.Normal tt,
                   Async.exec (loadPrompts (reload_ok env) (Some u)) w1)).
      { unfold handleCreatePrompt, Async.try_catch_finally, Async.bind,
          Async.read, Async.modify, Async.throw, from_prompts_insert,
          insert_into_prompts, call.
        unfold prompt_of at 1. cbn [pins_user_id].
        rewrite Hw, Hperm, Hfresh. reflexivity. }
      assert (Hexec : Async.exec (handleCreatePrompt parseFloat env (Some u)) w
                      = Async.exec (loadPrompts (reload_ok env) (Some u)) w1)
        by (unfold Async.exec at 1; now rewrite Hrun).
      unfold Async.rejected. rewrite Hexec, Hrun. cbn [fst].
      split; [reflexivity|]. split; [discriminate|]. split.
      * intros u' Hu _ _. injection Hu as <-.
        destruct (reload_ok env).
        -- destruct (loadPrompts_ok u w1) as (rows & -> & Hin & _).
           cbn. split; [reflexivity|]. split; [reflexivity|].
           split; [reflexivity|]. split; [reflexivity|].
           split; [exists []; reflexivity|].
           do 5 (split; [reflexivity|]).
           intros _. apply Hin. cbn. split; [|reflexivity].
           apply in_or_app. right. now left.
        -- rewrite loadPrompts_failed.
           cbn. split; [reflexivity|]. split; [reflexivity|].
           split; [reflexivity|]. split; [reflexivity|].
           split; [eexists; rewrite <- app_assoc; reflexivity|].
           do 5 (split; [reflexivity|]).
           discriminate.
      * intros u' _ [Hno|(p & Hp & Heq)]; [discriminate|].
        exfalso. now apply (proj1 (fresh_prompt_id _ _) Hfresh p).
  - assert (Hrun :
              handleCreatePrompt parseFloat env (Some u) w
              = (Async.Normal tt,
                 emit (RunPage.toast_error "Failed to create prompt")
                   (console_error "Error creating prompt:" w))).
    { unfold handleCreatePrompt, Async.try_catch_finally, Async.bind,
        Async.read, Async.modify, Async.throw, from_prompts_insert.
      rewrite Hw. reflexivity. }
    unfold Async.rejected, Async.exec. rewrite Hrun. simpl.
    split; [reflexivity|]. split; [discriminate|]. split.
    + intros u' _ Hyes. discriminate.
    + intros u' _ _. repeat split.
Qed.

(** Alice fills in the dialog and submits it: the row that is stored. *)
Lemma create_prompt_outcomes_witness :
  let w' :=
    Async.exec (handleCreatePrompt Samples.parse Samples.write
                  (Some Samples.alice)) (Samples.form Samples.db) in
  Schema.prompts (store w')
  = Schema.prompts Samples.db
    ++ [ {| Prompts.id := "p9";
            Prompts.title := "Tagline";
            Prompts.content := "Write a tagline for {{product}}.";
            Prompts.project_id := None;
            Prompts.model := "claude-3-opus";
            Prompts.temperature := Some (9 # 10);
            Prompts.max_tokens := Some 1000%Z;
            Prompts.version := Some 1%Z;
            Prompts.tags := None;
            Prompts.user_id := "a11ce";
            Prompts.created_at := Some 1700000020%Z;
            Prompts.updated_at := Some 1700000020%Z |} ]
  /\ map Prompts.id (prompts w') = ["p1"; "p9"]
  /\ open w' = false.
Proof.
  cbv zeta.
  destruct (create_prompt_outcomes Samples.parse Samples.write
              (Some Samples.alice) (Samples.form Samples.db))
    as (_ & _ & Hok & _).
  assert (Hfresh : forall p,
             In p (Schema.prompts (store (Samples.form Samples.db))) ->
             Prompts.id p <> gen_random_uuid Samples.write)
    by (simpl; intros p [<-|[<-|[]]]; discriminate).
  destruct (Hok Samples.alice eq_refl eq_refl Hfresh)
    as (Hp & _ & _ & _ & _ & Ho & _).
  split; [rewrite Hp; reflexivity|]. split; [reflexivity | exact Ho].
Defined.

End PromptsHandlers.

Section DeletingPrompts.
Import Schema PromptsPage.

Lemma deletable_iff (auth_uid : option uuid) (pid : uuid) (p : Prompts.row) :
  deletable auth_uid pid p = true
  <-> Prompts.id p = pid /\ auth_uid = Some (Prompts.user_id p).
Proof.
  unfold deletable. rewrite !permitted_table, !andb_true_iff, String.eqb_eq.
  destruct auth_uid as [a|]; simpl.
  - rewrite String.eqb_eq. split.
    + intros [[H1 H2] _]. split; congruence.
    + intros [H1 H2]. injection H2 as ->. auto.
  - split; [intros [[_ H] _]; discriminate | intros [_ H]; discriminate].
Qed.

Lemma references_nil (r : Runs.row) : references [] r = false.
Proof.
  unfold references. now destruct (Runs.prompt_id r).
Qed.

Lemma filter_none {A} (f : A -> bool) (l : list A) :
  (forall x, In x l -> f x = false) ->
  filter f l = [] /\ filter (fun x => negb (f x)) l = l.
Proof.
  induction l as [|x l IH]; intros H; simpl; [split; reflexivity|].
  rewrite (H x (or_introl eq_refl)). simpl.
  destruct IH as [IH1 IH2]; [intros y Hy; apply H; now right|].
  split; [exact IH1 | now rewrite IH2].
Qed.

(** A DELETE that reaches no row leaves the store as it is. *)
Lemma delete_from_prompts_nothing (auth_uid : option uuid) (pid : uuid)
    (db : database) :
  (forall p, In p (Schema.prompts db) -> deletable auth_uid pid p = false) ->
  delete_from_prompts auth_uid pid db = inr db.
Proof.
  intros Hnone. unfold delete_from_prompts.
  destruct (filter_none (deletable auth_uid pid) (Schema.prompts db) Hnone)
    as [Hv Hp].
  rewrite Hv, Hp. cbn [map runs_prompt_id_on_delete on_delete_of_prompts].
  assert (Hr : filter (fun r => negb (references [] r)) (Schema.runs db)
               = Schema.runs db).
  { apply filter_all. intros r. now rewrite references_nil. }
  rewrite Hr. now destruct db.
Qed.

Lemma delete_from_prompts_result (auth_uid : option uuid) (pid : uuid)
    (db : database) :
  exists db',
    delete_from_prompts auth_uid pid db = inr db'
    /\ (forall p, In p (Schema.prompts db') <->
                  In p (Schema.prompts db)
                  /\ ~ (Prompts.id p = pid
                        /\ auth_uid = Some (Prompts.user_id p)))
    /\ (forall r, In r (Schema.runs db') -> In r (Schema.runs db))
    /\ Schema.projects db' = Schema.projects db
    /\ Schema.profiles db' = Schema.profiles db.
Proof.
  unfold delete_from_prompts.
  cbn [runs_prompt_id_on_delete on_delete_of_prompts].
  eexists. split; [reflexivity|]. cbn. split; [|split; [|split; reflexivity]].
  - intros p. rewrite filter_In, negb_true_iff, <- not_true_iff_false,
      deletable_iff. reflexivity.
  - intros r Hr. apply filter_In in Hr. tauto.
Qed.

(** X16. Deleting a prompt.  The handler never rejects.  When the request
    reaches the store it always notifies success: the prompt with that
    identifier is gone if the session's user owns it, every other prompt
    stays, no run is added, and if the user owns no prompt with that
    identifier the store is left exactly as it was although success is
    notified.  When the request does not reach the store, the store and the
    list are left as they were and the failure is logged and notified. *)
Theorem delete_prompt_outcomes (env : environment) (user : option Auth.User)
    (id : uuid) (w : world) :
  let w' := Async.exec (handleDeletePrompt env user id) w in
  Async.rejected (handleDeletePrompt env user id) w = false
  /\ (write_ok env = true ->
      (exists rest,
          toasts w' = toasts w ++ RunPage.toast_success "Prompt deleted" :: rest)
      /\ (forall p, In p (Schema.prompts (store w')) <->
                    In p (Schema.prompts (store w))
                    /\ ~ (Prompts.id p = id
                          /\ option_map Auth.id user
                             = Some (Prompts.user_id p)))
      /\ (forall r, In r (Schema.runs (store w')) ->
                    In r (Schema.runs (store w)))
      /\ ((forall p, In p (Schema.prompts (store w)) -> Prompts.id p = id ->
                     option_map Auth.id user <> Some (Prompts.user_id p)) ->
          store w' = store w))
  /\ (write_ok env = false ->
      store w' = store w
      /\ prompts w' = prompts w
      /\ toasts w'
         = toasts w ++ [RunPage.toast_error "Failed to delete prompt"]
      /\ console w' = console w ++ ["Error deleting prompt:"]).
Proof.
  cbv zeta. destruct (write_ok env) eqn:Hw.
  - destruct (delete_from_prompts_result (option_map Auth.id user) id (store w))
      as (db' & Hdel & Hps & Hrs & _).
    set (w1 := emit (RunPage.toast_success "Prompt deleted") (set_store db' w)).
    assert (Hrun :
              handleDeletePrompt env user id w
              = (Async.Normal tt,
                 Async.exec (loadPrompts (reload_ok env) user) w1)).
    { unfold handleDeletePrompt, Async.try_catch_finally, Async.bind,
        Async.modify, Async.throw, from_prompts_delete, call.
      rewrite Hw, Hdel. reflexivity. }
    assert (Hexec : Async.exec (handleDeletePrompt env user id) w
                    = Async.exec (loadPrompts (reload_ok env) user) w1)
      by (unfold Async.exec at 1; now rewrite Hrun).
    assert (Hload :
              store (Async.exec (loadPrompts (reload_ok env) user) w1) = db'
              /\ exists rest,
                   toasts (Async.exec (loadPrompts (reload_ok env) user) w1)
                   = toasts w ++ RunPage.toast_success "Prompt deleted" :: rest).
    { destruct user as [u|]; [|split; [reflexivity | exists []; reflexivity]].
      destruct (reload_ok env).
      - destruct (loadPrompts_ok u w1) as (rows & -> & _).
        split; [reflexivity | exists []; reflexivity].
      - rewrite loadPrompts_failed. split; [reflexivity|].
        eexists. cbn. rewrite <- app_assoc. reflexivity. }
    destruct Hload as [Hstore Htoasts].
    unfold Async.rejected. rewrite Hexec, Hrun, Hstore. cbn [fst].
    split; [reflexivity|]. split; [|discriminate].
    intros _. split; [exact Htoasts|]. split; [exact Hps|].
    split; [exact Hrs|].
    intros Hnone.
    rewrite delete_from_prompts_nothing in Hdel; [congruence|].
    intros p Hp. apply not_true_iff_false. rewrite deletable_iff.
    intros [Hid Hown]. now apply (Hnone p).
  - assert (Hrun :
              handleDeletePrompt env user id w
              = (Async.Normal tt,
                 emit (RunPage.toast_error "Failed to delete prompt")
                   (console_error "Error deleting prompt:" w))).
    { unfold handleDeletePrompt, Async.try_catch_finally, Async.bind,
        Async.modify, Async.throw, from_prompts_delete.
      rewrite Hw. reflexivity. }
    unfold Async.rejected, Async.exec. rewrite Hrun. cbn.
    split; [reflexivity|]. split; [discriminate|].
    intros _. repeat split.
Qed.

(** Bob asks to delete alice's prompt: success is notified, nothing is
    deleted.  Alice asks: the prompt and its runs are gone. *)
Lemma delete_prompt_outcomes_witness :
  let by_bob :=
    Async.exec (handleDeletePrompt Samples.write (Some Samples.bob) "p1")
      (initial Samples.db) in
  let by_alice :=
    Async.exec (handleDeletePrompt Samples.write (Some Samples.alice) "p1")
      (initial Samples.db) in
  toasts by_bob = [RunPage.toast_success "Prompt deleted"]
  /\ store by_bob = Samples.db
  /\ map Prompts.id (Schema.prompts (store by_alice)) = ["p2"]
  /\ map Runs.id (Schema.runs (store by_alice)) = ["r4"].
Proof.
  cbv zeta. split; [reflexivity|]. split; [|split; reflexivity].
  destruct (delete_prompt_outcomes Samples.write (Some Samples.bob) "p1"
              (initial Samples.db)) as (_ & Hok & _).
  destruct (Hok eq_refl) as (_ & _ & _ & Hnone).
  apply Hnone. simpl. intros p [<-|[<-|[]]]; discriminate.
Defined.

End DeletingPrompts.

(* ===================================================================== *)
(** * The Dashboard page *)
(* ===================================================================== *)

Section Dashboard.
Import Schema DashboardPage.

Lemma own_runs_visible (u : uuid) (db : database) :
  filter (fun r => (Runs.user_id r =? u)%string) (select_runs (Some u) db)
  = filter (fun r => (Runs.user_id r =? u)%string) (runs db).
Proof.
  unfold select_runs.
  induction (runs db) as [|r rs IH]; simpl; [reflexivity|].
  rewrite permitted_table. simpl. rewrite (String.eqb_sym u).
  destruct (Runs.user_id r =? u)%string eqn:E; simpl; rewrite ?E, IH;
    reflexivity.
Qed.

Lemma own_prompts_visible (u : uuid) (db : database) :
  filter (fun p => (Prompts.user_id p =? u)%string)
    (select_prompts (Some u) db)
  = filter (fun p => (Prompts.user_id p =? u)%string) (prompts db).
Proof.
  unfold select_prompts.
  induction (prompts db) as [|p ps IH]; simpl; [reflexivity|].
  rewrite permitted_table. simpl. rewrite (String.eqb_sym u).
  destruct (Prompts.user_id p =? u)%string eqn:E; simpl; rewrite ?E, IH;
    reflexivity.
Qed.

Lemma in_firstn {A} (n : nat) (l : list A) (x : A) :
  In x (firstn n l) -> In x l.
Proof.
  intros H. rewrite <- (firstn_skipn n l). apply in_or_app. now left.
Qed.

Lemma descending_firstn {A} (key : A -> option timestamptz) (n : nat)
    (l : list A) :
  Spec.descending key l -> Spec.descending key (firstn n l).
Proof.
  unfold Spec.descending. revert l.
  induction n as [|n IH]; intros l Hs; simpl; [constructor|].
  destruct l as [|x l]; [constructor|].
  inversion Hs as [|? ? Hs' Hhd]; subst.
  constructor; [now apply IH|].
  destruct n; simpl; [constructor|].
  destruct l as [|y l]; [constructor|].
  constructor. now inversion Hhd.
Qed.

(** What [loadStats] leaves when both queries answer. *)
Lemma loadStats_query (u : Auth.User) (db : database) (st : state) :
  Async.exec (loadStats (Some u) (Some (query u db))) st
  = setLoading false
      (setStats
         {| totalPrompts :=
              List.length
                (filter (fun p => (Prompts.user_id p =? Auth.id u)%string)
                   (prompts db));
            totalRuns :=
              List.length
                (firstn 5
                   (order_desc Runs.created_at
                      (filter (fun r => (Runs.user_id r =? Auth.id u)%string)
                         (runs db))));
            recentRuns :=
              firstn 5
                (order_desc Runs.created_at
                   (filter (fun r => (Runs.user_id r =? Auth.id u)%string)
                      (runs db))) |} st).
Proof.
  unfold loadStats, query, Async.exec, Async.try_catch_finally, Async.modify,
    Client.from_prompts_count_eq_user_id, Client.from_runs_select_recent.
  cbn. now rewrite own_runs_visible, own_prompts_visible.
Qed.

(** X17. The Dashboard counts all the prompts the user owns but at most five
    runs: its <<Total Runs>> is the smaller of 5 and the number of the
    user's runs, because it is the length of the five most recent rows.
    Those rows are the user's own, newest first, and they are the most
    recent ones: together with the rows left out they are all the user's
    runs, and no row left out is newer than a row listed (a row without a
    timestamp counting as newest, as ORDER BY ... DESC puts it first). *)
Theorem dashboard_counts (u : Auth.User) (db : database) (st : state) :
  let st' := Async.exec (loadStats (Some u) (Some (query u db))) st in
  let own_runs :=
    filter (fun r => (Runs.user_id r =? Auth.id u)%string) (runs db) in
  let own_prompts :=
    filter (fun p => (Prompts.user_id p =? Auth.id u)%string) (prompts db) in
  loading st' = false
  /\ totalPrompts (stats st') = List.length own_prompts
  /\ totalRuns (stats st') = Nat.min 5 (List.length own_runs)
  /\ totalRuns (stats st') = List.length (recentRuns (stats st'))
  /\ (forall r, In r (recentRuns (stats st')) ->
                In r (runs db) /\ Runs.user_id r = Auth.id u)
  /\ Spec.descending Runs.created_at (recentRuns (stats st'))
  /\ (exists older,
        Permutation (recentRuns (stats st') ++ older) own_runs
        /\ forall a b,
             In a (recentRuns (stats st')) -> In b older ->
             precedes (Runs.created_at a) (Runs.created_at b) = true).
Proof.
  cbv zeta. rewrite loadStats_query.
  cbn [setLoading setStats stats loading totalPrompts totalRuns recentRuns].
  split; [reflexivity|]. split; [reflexivity|]. split; [|split; [reflexivity|]].
  - rewrite length_firstn.
    now rewrite (Permutation_length (order_desc_perm Runs.created_at _)).
  - split; [|split].
    + intros r Hr. apply in_firstn, order_desc_in, filter_In in Hr.
      destruct Hr as [Hr Hu]. apply String.eqb_eq in Hu. auto.
    + apply descending_firstn, order_desc_sorted.
    + eexists. apply order_desc_limit.
Qed.

(** Six runs of one user, the oldest first in the table: the five newest are
    listed, newest first, and the oldest is left out. *)
Lemma dashboard_counts_witness :
  let at_ := fun id t =>
    {| Runs.id := id; Runs.prompt_id := Some "p1"; Runs.model := "gpt-4";
       Runs.response := None; Runs.tokens_used := None;
       Runs.latency_ms := None; Runs.cost_usd := None;
       Runs.status := Some "completed"; Runs.error_message := None;
       Runs.user_id := "a11ce"; Runs.created_at := Some t |} in
  let db :=
    {| projects := []; prompts := [Samples.prompt "p1" "a11ce"];
       runs := [at_ "r1" 1%Z; at_ "r2" 2%Z; at_ "r3" 3%Z; at_ "r4" 4%Z;
                at_ "r5" 5%Z; at_ "r6" 6%Z];
       profiles := [] |} in
  let st' :=
    Async.exec (loadStats (Some Samples.alice) (Some (query Samples.alice db)))
      initial in
  totalRuns (stats st') = 5%nat
  /\ map Runs.id (recentRuns (stats st')) = ["r6"; "r5"; "r4"; "r3"; "r2"]
  /\ Spec.descending Runs.created_at (recentRuns (stats st')).
Proof.
  cbv zeta. split; [reflexivity|]. split; [reflexivity|].
  match goal with
  | |- Spec.descending _ (recentRuns (stats (Async.exec
         (loadStats (Some ?u) (Some (query ?u ?db))) ?st))) =>
      destruct (dashboard_counts u db st) as (_ & _ & _ & _ & _ & H & _)
  end.
  exact H.
Defined.

(** X18. For a user with between one and five runs the Dashboard and the
    Analytics page agree: same number of runs, same average latency, same
    success rate. *)
Theorem dashboard_agrees_with_analytics (u : Auth.User) (db : database) :
  let own_runs :=
    filter (fun r => (Runs.user_id r =? Auth.id u)%string) (runs db) in
  let d := Async.exec (loadStats (Some u) (Some (query u db))) initial in
  let a :=
    AnalyticsPage.stats
      (Async.exec
         (AnalyticsPage.loadAnalytics (Some u)
            (Client.from_runs_select_eq_user_id u (Auth.id u) db))
         AnalyticsPage.initial) in
  (1 <= List.length own_runs <= 5)%nat ->
  totalRuns_card d = number (AnalyticsPage.totalRuns a)
  /\ avgLatency_card d = ms (AnalyticsPage.avgLatency a)
  /\ successRate_card d = percent (AnalyticsPage.successRate a).
Proof.
  intros own_runs d a [Hlo Hhi]. subst d a.
  rewrite loadStats_query. fold own_runs.
  unfold Client.from_runs_select_eq_user_id.
  rewrite own_runs_visible. fold own_runs.
  change {| Client.data := Some own_runs; Client.error := None |}
    with (AnalyticsPage.rows own_runs).
  assert (Hne : own_runs <> [])
    by (intros E; rewrite E in Hlo; simpl in Hlo; lia).
  rewrite (loadAnalytics_rows u own_runs AnalyticsPage.initial Hne).
  pose proof (order_desc_perm Runs.created_at own_runs) as Hperm.
  assert (Hall : firstn 5 (order_desc Runs.created_at own_runs)
                 = order_desc Runs.created_at own_runs).
  { apply firstn_all2. rewrite (Permutation_length Hperm). exact Hhi. }
  rewrite Hall.
  unfold totalRuns_card, avgLatency_card, successRate_card.
  cbn [setLoading setStats stats loading totalPrompts totalRuns recentRuns
       AnalyticsPage.setLoading AnalyticsPage.setStats AnalyticsPage.stats
       AnalyticsPage.totalRuns AnalyticsPage.avgLatency
       AnalyticsPage.successRate].
  rewrite (Permutation_length Hperm).
  assert (Hpos : (0 <? List.length own_runs)%nat = true)
    by (apply Nat.ltb_lt; lia).
  rewrite Hpos.
  rewrite (avgLatency_of_perm _ _ Hperm), (successRate_of_perm _ _ Hperm).
  repeat split.
Qed.

Lemma dashboard_agrees_with_analytics_witness :
  (1 <= List.length
          (filter (fun r => (Runs.user_id r =? "a11ce")%string)
             (runs Samples.db)) <= 5)%nat
  /\ avgLatency_card
       (Async.exec
          (loadStats (Some Samples.alice)
             (Some (query Samples.alice Samples.db))) initial)
     = ms 200.
Proof.
  split; [simpl; lia|].
  destruct (dashboard_agrees_with_analytics Samples.alice Samples.db)
    as (_ & H & _); [simpl; lia|].
  rewrite H. reflexivity.
Defined.

(** X19. [loadStats] never rejects and, with a user, always ends with
    [loading] cleared.  A query that failed counts as nothing: no prompts, no
    runs, and the latency and success cards show a dash; a rejected
    [Promise.all] is logged and leaves the statistics as they were. *)
Theorem loadStats_settles (user : option Auth.User) (resolved : option answers)
    (st : state) :
  let st' := Async.exec (loadStats user resolved) st in
  Async.rejected (loadStats user resolved) st = false
  /\ (user = None -> st' = st)
  /\ (user <> None -> loading st' = false)
  /\ (user <> None -> resolved = None ->
      stats st' = stats st
      /\ console st' = console st ++ ["Error loading stats:"])
  /\ (user <> None ->
      resolved = Some {| promptsResult_count := None;
                         runsResult_data := None |} ->
      totalPrompts_card st' = number 0
      /\ totalRuns_card st' = number 0
      /\ avgLatency_card st' = dash
      /\ successRate_card st' = dash).
Proof.
  cbv zeta. destruct user as [u|].
  - destruct resolved as [[c d]|].
    + split; [reflexivity|]. split; [discriminate|].
      split; [reflexivity|]. split; [discriminate|].
      intros _ Heq. injection Heq as -> ->. repeat split.
    + split; [reflexivity|]. split; [discriminate|].
      split; [reflexivity|]. split; [|discriminate].
      intros _ _. split; reflexivity.
  - split; [reflexivity|]. split; [reflexivity|].
    repeat split; intros; congruence.
Qed.

End Dashboard.

(* ===================================================================== *)
(** * More on the schema *)
(* ===================================================================== *)

Section RowSecurity.
Import Schema.

(** X20. On projects, prompts and runs every policy asks for the owner:
    whatever the command, a row passes only for the principal whose
    identifier is its [user_id], and a request without a user passes for no
    row. *)
Theorem owner_only (t : table) (c : command) (auth_uid : option uuid)
    (owner : uuid) :
  t <> profiles_t ->
  permitted t c auth_uid owner = true ->
  auth_uid = Some owner.
Proof.
  intros Ht. rewrite permitted_table.
  destruct t, c; try congruence; try discriminate;
    destruct auth_uid as [a|]; simpl; try discriminate;
    intros H; apply String.eqb_eq in H; congruence.
Qed.

Lemma owner_only_witness :
  prompts_t <> profiles_t
  /\ permitted prompts_t DELETE (Some "a11ce") "a11ce" = true
  /\ Some "a11ce" = Some "a11ce".
Proof.
  split; [discriminate|]. split; [reflexivity|].
  apply (owner_only prompts_t DELETE (Some "a11ce") "a11ce");
    [discriminate | reflexivity].
Defined.

(** X21. Runs are append-only for every principal: no policy lets anyone,
    the owner included, UPDATE or DELETE a row of [runs] (or DELETE a
    profile).  A run leaves the table only through the cascade: if a DELETE
    on [prompts] removes a run, that run referenced the prompt that was
    asked for, and the principal owns that prompt. *)
Theorem runs_leave_only_by_cascade (auth_uid : option uuid) (pid : uuid)
    (db db' : database) (r : Runs.row) :
  delete_from_prompts auth_uid pid db = inr db' ->
  In r (runs db) ->
  ~ In r (runs db') ->
  Runs.prompt_id r = Some pid
  /\ (exists p, In p (prompts db) /\ Prompts.id p = pid
                /\ auth_uid = Some (Prompts.user_id p))
  /\ (forall a owner,
        permitted runs_t UPDATE a owner = false
        /\ permitted runs_t DELETE a owner = false
        /\ permitted profiles_t DELETE a owner = false).
Proof.
  intros Hdel Hr Hgone.
  unfold delete_from_prompts in Hdel.
  cbn [runs_prompt_id_on_delete on_delete_of_prompts] in Hdel.
  injection Hdel as <-. cbn [runs] in Hgone.
  assert (Href : references
                   (map Prompts.id
                      (filter (deletable auth_uid pid) (prompts db))) r
                 = true).
  { destruct (references _ r) eqn:E; [reflexivity|].
    exfalso. apply Hgone. apply filter_In. split; [exact Hr|].
    now rewrite E. }
  apply references_spec in Href. destruct Href as (x & Hx & Hin).
  apply in_map_iff in Hin. destruct Hin as (p & <- & Hp).
  apply filter_In in Hp. destruct Hp as [Hp Hd].
  apply deletable_iff in Hd. destruct Hd as [Hid Hown].
  split; [congruence|]. split; [exists p; auto|].
  intros a owner. rewrite !permitted_table. auto.
Qed.

Lemma runs_leave_only_by_cascade_witness :
  exists db',
    delete_from_prompts (Some "a11ce") "p1" Samples.db = inr db'
    /\ In (Samples.run "r1" "gpt-4" (Some "completed") (Some 100%Z)
             (Some (1 # 100))) (runs Samples.db)
    /\ ~ In (Samples.run "r1" "gpt-4" (Some "completed") (Some 100%Z)
               (Some (1 # 100))) (runs db')
    /\ Runs.prompt_id
         (Samples.run "r1" "gpt-4" (Some "completed") (Some 100%Z)
            (Some (1 # 100))) = Some "p1".
Proof.
  eexists. split; [reflexivity|].
  assert (Hin : In (Samples.run "r1" "gpt-4" (Some "completed") (Some 100%Z)
                      (Some (1 # 100))) (runs Samples.db))
    by (simpl; auto).
  split; [exact Hin|].
  assert (Hout : ~ In (Samples.run "r1" "gpt-4" (Some "completed")
                         (Some 100%Z) (Some (1 # 100)))
                     (filter
                        (fun r =>
                           negb (references
                                   (map Prompts.id
                                      (filter (deletable (Some "a11ce") "p1")
                                         (prompts Samples.db))) r))
                        (runs Samples.db))).
  { cbn. intros [H|[]]. discriminate. }
  split; [exact Hout|].
  apply (runs_leave_only_by_cascade (Some "a11ce") "p1" Samples.db _ _
           eq_refl Hin Hout).
Defined.

(** X22. Nobody can write in another user's name: an INSERT into [runs] or
    [prompts] whose [user_id] is not the identifier of the session's user is
    refused, and so is any INSERT without a user. *)
Theorem insert_for_another_user_refused (auth_uid : option uuid)
    (new_id : uuid) (t : timestamptz) (db : database) :
  (forall v : runs_insert,
      auth_uid <> Some (ins_user_id v) ->
      exists e, insert_into_runs auth_uid new_id t v db = inl e)
  /\ (forall v : prompts_insert,
        auth_uid <> Some (pins_user_id v) ->
        exists e, insert_into_prompts auth_uid new_id t v db = inl e).
Proof.
  assert (Hno : forall tb owner,
             tb <> profiles_t -> auth_uid <> Some owner ->
             permitted tb INSERT auth_uid owner = false).
  { intros tb owner Htb Hneq. apply not_true_iff_false. intros H.
    apply Hneq. rewrite permitted_table in H.
    destruct tb; try congruence;
      destruct auth_uid as [a|]; simpl in H; try discriminate;
      apply String.eqb_eq in H; congruence. }
  split; intros v Hneq.
  - unfold insert_into_runs.
    rewrite (Hno runs_t (ins_user_id v)) by (discriminate || exact Hneq).
    destruct (negb _); [eauto|].
    destruct (decimal_10_6 _); simpl; eauto.
  - unfold insert_into_prompts.
    rewrite (Hno prompts_t (pins_user_id v)) by (discriminate || exact Hneq).
    simpl. eauto.
Qed.

End RowSecurity.

Section Integrity.
Import Schema.

Lemma references_project_spec (ids : list uuid) (p : Prompts.row) :
  references_project ids p = true <->
  exists x, Prompts.project_id p = Some x /\ In x ids.
Proof.
  unfold references_project. destruct (Prompts.project_id p) as [x|].
  - rewrite existsb_exists. split.
    + intros (y & Hin & Heq). apply String.eqb_eq in Heq. subst y.
      exists x. auto.
    + intros (y & Hy & Hin). injection Hy as <-.
      exists x. split; [exact Hin | apply String.eqb_refl].
  - split; [discriminate | intros (x & Hx & _); discriminate].
Qed.

Lemma delete_from_projects_result (auth_uid : option uuid) (pid : uuid)
    (db : database) :
  let victims := filter (deletable_project auth_uid pid) (projects db) in
  let ids := map Projects.id victims in
  let gone := filter (references_project ids) (prompts db) in
  delete_from_projects auth_uid pid db
  = inr {| projects :=
             filter (fun p => negb (deletable_project auth_uid pid p))
               (projects db);
           prompts := filter (fun p => negb (references_project ids p))
                        (prompts db);
           runs := filter (fun r => negb (references (map Prompts.id gone) r))
                     (runs db);
           profiles := profiles db |}.
Proof.
  reflexivity.
Qed.

(** X23. When a principal deletes a project it owns, the statement goes
    through; the project is gone, every prompt of the project is gone with
    it, and so is every run of those prompts.  Prompts outside the project
    stay. *)
Theorem delete_project_cascades (db : database) (j : Projects.row) :
  In j (projects db) ->
  exists db',
    delete_from_projects (Some (Projects.user_id j)) (Projects.id j) db
    = inr db'
    /\ ~ In j (projects db')
    /\ (forall p, In p (prompts db') ->
                  Prompts.project_id p <> Some (Projects.id j))
    /\ (forall p r,
          In p (prompts db) ->
          Prompts.project_id p = Some (Projects.id j) ->
          In r (runs db') ->
          Runs.prompt_id r <> Some (Prompts.id p))
    /\ (forall p, In p (prompts db) ->
                  Prompts.project_id p <> Some (Projects.id j) ->
                  In p (prompts db'))
    /\ profiles db' = profiles db.
Proof.
  intros Hin. rewrite delete_from_projects_result. cbv zeta.
  eexists. split; [reflexivity|]. cbn [projects prompts runs profiles].
  set (auth := Some (Projects.user_id j)).
  set (pid := Projects.id j).
  set (ids := map Projects.id
                (filter (deletable_project auth pid) (projects db))).
  assert (Hdel : deletable_project auth pid j = true).
  { unfold deletable_project, auth, pid. rewrite !permitted_table. simpl.
    now rewrite !String.eqb_refl. }
  assert (Hpid : In pid ids).
  { unfold ids. apply in_map. apply filter_In. auto. }
  assert (Hids : forall x, In x ids -> x = pid).
  { intros x Hx. unfold ids in Hx. apply in_map_iff in Hx.
    destruct Hx as (q & <- & Hq). apply filter_In in Hq.
    destruct Hq as [_ Hq]. unfold deletable_project in Hq.
    apply andb_prop in Hq. destruct Hq as [Hq _].
    apply andb_prop in Hq. destruct Hq as [Hq _].
    now apply String.eqb_eq in Hq. }
  split; [|split; [|split; [|split; [|reflexivity]]]].
  - intros Hj. apply filter_In in Hj. destruct Hj as [_ Hj].
    rewrite Hdel in Hj. discriminate.
  - intros p Hp Href. apply filter_In in Hp. destruct Hp as [_ Hp].
    apply negb_true_iff in Hp.
    assert (references_project ids p = true)
      by (apply references_project_spec; exists pid; auto).
    congruence.
  - intros p r Hp Href Hr Hrun. apply filter_In in Hr.
    destruct Hr as [_ Hr]. apply negb_true_iff in Hr.
    assert (references
              (map Prompts.id (filter (references_project ids) (prompts db)))
              r = true).
    { apply references_spec. exists (Prompts.id p). split; [exact Hrun|].
      apply in_map. apply filter_In. split; [exact Hp|].
      apply references_project_spec. exists pid. auto. }
    congruence.
  - intros p Hp Href. apply filter_In. split; [exact Hp|].
    apply negb_true_iff. apply not_true_iff_false. intros H.
    apply references_project_spec in H. destruct H as (x & Hx & Hxin).
    apply Hids in Hxin. subst x. contradiction.
Qed.

Lemma delete_project_cascades_witness :
  exists db',
    delete_from_projects (Some "a11ce") "j1" Samples.project_db = inr db'
    /\ map Prompts.id (prompts db') = ["p3"]
    /\ map Runs.id (runs db') = ["r7"].
Proof.
  destruct (delete_project_cascades Samples.project_db
              {| Projects.id := "j1"; Projects.name := "Blog";
                 Projects.description := None; Projects.user_id := "a11ce";
                 Projects.created_at := None; Projects.updated_at := None |}
              ltac:(simpl; auto))
    as (db' & Hdel & _).
  exists db'. split; [exact Hdel|].
  vm_compute in Hdel. injection Hdel as <-. split; reflexivity.
Defined.

(** X24. Referential integrity is an invariant of the statements that write:
    if every run that names a prompt names an existing one, and every prompt
    that names a project names an existing one, the same holds after an
    INSERT into [runs] or [prompts], after a DELETE from [prompts] or
    [projects], and after the trigger that creates a profile. *)
Theorem referential_integrity_kept (db db' : database)
    (auth_uid : option uuid) (id : uuid) (t : timestamptz) :
  Spec.runs_reference_prompts db ->
  Spec.prompts_reference_projects db ->
  (exists v, insert_into_runs auth_uid id t v db = inr db')
  \/ (exists v, insert_into_prompts auth_uid id t v db = inr db')
  \/ delete_from_prompts auth_uid id db = inr db'
  \/ delete_from_projects auth_uid id db = inr db'
  \/ (exists NEW, handle_new_user t NEW db = inr db') ->
  Spec.runs_reference_prompts db' /\ Spec.prompts_reference_projects db'.
Proof.
  intros Hrp Hpj [(v & H)|[(v & H)|[H|[H|(NEW & H)]]]].
  - (* INSERT INTO runs *)
    pose proof (proj1 (insert_into_runs_inr_iff _ _ _ _ _)
                  (ex_intro _ db' H)) as (_ & _ & _ & _ & _ & Hex).
    destruct (insert_into_runs_inr _ _ _ _ _ _ H) as (cost & _ & ->).
    split; [|exact Hpj].
    intros r p Hr Hp. cbn in Hr |- *. apply in_app_or in Hr.
    destruct Hr as [Hr|[<-|[]]]; [now apply (Hrp r p)|].
    cbn in Hp. injection Hp as <-.
    apply existsb_exists in Hex. destruct Hex as (q & Hq & Heq).
    exists q. split; [exact Hq | now apply String.eqb_eq].
  - (* INSERT INTO prompts *)
    unfold insert_into_prompts in H.
    destruct (negb _); [discriminate|].
    destruct (existsb _ _); [discriminate|].
    injection H as <-. split.
    + intros r p Hr Hp. cbn in Hr |- *.
      destruct (Hrp r p Hr Hp) as (q & Hq & Heq).
      exists q. split; [apply in_or_app; now left | exact Heq].
    + intros p x Hp Hx. cbn in Hp |- *. apply in_app_or in Hp.
      destruct Hp as [Hp|[<-|[]]]; [now apply (Hpj p x)|].
      cbn in Hx. discriminate.
  - (* DELETE FROM prompts *)
    unfold delete_from_prompts in H.
    cbn [runs_prompt_id_on_delete on_delete_of_prompts] in H.
    injection H as <-. split.
    + intros r p Hr Hp. cbn in Hr |- *.
      apply filter_In in Hr. destruct Hr as [Hr Hkeep].
      destruct (Hrp r p Hr Hp) as (q & Hq & Heq).
      exists q. split; [|exact Heq].
      apply filter_In. split; [exact Hq|].
      apply negb_true_iff, not_true_iff_false. intros Hdel.
      apply negb_true_iff, not_true_iff_false in Hkeep. apply Hkeep.
      apply references_spec. exists p. split; [exact Hp|].
      rewrite <- Heq. apply in_map. apply filter_In. auto.
    + intros p x Hp Hx. cbn in Hp |- *.
      apply filter_In in Hp. destruct Hp as [Hp _].
      exact (Hpj p x Hp Hx).
  - (* DELETE FROM projects *)
    rewrite delete_from_projects_result in H. cbv zeta in H.
    injection H as <-. split.
    + intros r p Hr Hp. cbn in Hr |- *.
      apply filter_In in Hr. destruct Hr as [Hr Hkeep].
      destruct (Hrp r p Hr Hp) as (q & Hq & Heq).
      exists q. split; [|exact Heq].
      apply filter_In. split; [exact Hq|].
      apply negb_true_iff, not_true_iff_false. intros Hgone.
      apply negb_true_iff, not_true_iff_false in Hkeep. apply Hkeep.
      apply references_spec. exists p. split; [exact Hp|].
      rewrite <- Heq. apply in_map. apply filter_In. auto.
    + intros p x Hp Hx. cbn in Hp |- *.
      apply filter_In in Hp. destruct Hp as [Hp Hkeep].
      destruct (Hpj p x Hp Hx) as (q & Hq & Heq).
      exists q. split; [|exact Heq].
      apply filter_In. split; [exact Hq|].
      apply negb_true_iff, not_true_iff_false. intros Hdel.
      apply negb_true_iff, not_true_iff_false in Hkeep. apply Hkeep.
      apply references_project_spec. exists x. split; [exact Hx|].
      rewrite <- Heq. apply in_map. apply filter_In. auto.
  - (* handle_new_user *)
    unfold handle_new_user in H.
    destruct (existsb _ _); [discriminate|].
    injection H as <-. split; assumption.
Qed.

Lemma referential_integrity_kept_witness :
  Spec.runs_reference_prompts Samples.db
  /\ Spec.prompts_reference_projects Samples.db
  /\ exists db',
       delete_from_prompts (Some "a11ce") "p1" Samples.db = inr db'
       /\ Spec.runs_reference_prompts db'.
Proof.
  assert (H1 : Spec.runs_reference_prompts Samples.db).
  { intros r p Hr Hp. simpl in Hr.
    destruct Hr as [<-|[<-|[<-|[<-|[]]]]]; simpl in Hp;
      injection Hp as <-;
      [ exists (Samples.prompt "p1" "a11ce")
      | exists (Samples.prompt "p1" "a11ce")
      | exists (Samples.prompt "p1" "a11ce")
      | exists (Samples.prompt "p2" "b0b") ];
      split; simpl; auto. }
  assert (H2 : Spec.prompts_reference_projects Samples.db).
  { intros p x Hp Hx. simpl in Hp.
    destruct Hp as [<-|[<-|[]]]; discriminate. }
  split; [exact H1|]. split; [exact H2|].
  eexists. split; [reflexivity|].
  eapply (referential_integrity_kept Samples.db _ (Some "a11ce") "p1" 0%Z
            H1 H2).
  right. right. left. reflexivity.
Defined.

(** X25. The trigger on sign-up.  For a user without a profile it adds
    exactly one profile row, with the user's identifier, e-mail address and
    full name, no avatar and the plan [free], whoever is signed in; every
    principal can read that row afterwards.  For a user who already has a
    profile it fails, so identifiers of profiles stay unique. *)
Theorem handle_new_user_profile (t : timestamptz) (NEW : auth_user)
    (db : database) :
  ((forall p, In p (profiles db) -> Profiles.id p <> au_id NEW) ->
   exists db',
     handle_new_user t NEW db = inr db'
     /\ profiles db'
        = profiles db
          ++ [ {| Profiles.id := au_id NEW;
                  Profiles.email := au_email NEW;
                  Profiles.full_name := au_full_name NEW;
                  Profiles.avatar_url := None;
                  Profiles.plan := Some "free";
                  Profiles.created_at := Some t |} ]
     /\ (forall auth_uid,
           exists row, In row (select_profiles auth_uid db')
                       /\ Profiles.id row = au_id NEW
                       /\ Profiles.plan row = Some "free")
     /\ (NoDup (map Profiles.id (profiles db)) ->
         NoDup (map Profiles.id (profiles db')))
     /\ prompts db' = prompts db /\ runs db' = runs db
     /\ projects db' = projects db)
  /\ ((exists p, In p (profiles db) /\ Profiles.id p = au_id NEW) ->
      exists e, handle_new_user t NEW db = inl e).
Proof.
  unfold handle_new_user. split.
  - intros Hnew.
    assert (Hfresh : existsb (fun p => (Profiles.id p =? au_id NEW)%string)
                       (profiles db) = false).
    { apply not_true_iff_false. rewrite existsb_exists.
      intros (p & Hp & Heq). apply String.eqb_eq in Heq.
      now apply (Hnew p). }
    rewrite Hfresh. eexists. split; [reflexivity|]. cbn.
    split; [reflexivity|]. split; [|split; [|repeat split]].
    + intros auth_uid.
      exists {| Profiles.id := au_id NEW;
                Profiles.email := au_email NEW;
                Profiles.full_name := au_full_name NEW;
                Profiles.avatar_url := None;
                Profiles.plan := Some "free";
                Profiles.created_at := Some t |}.
      split; [|split; reflexivity].
      unfold select_profiles. apply filter_In.
      split; [cbn; apply in_or_app; right; now left | reflexivity].
    + intros ND. rewrite map_app. cbn.
      apply NoDup_app; [exact ND | repeat constructor; simpl; tauto|].
      intros x Hx [<-|[]]. apply in_map_iff in Hx.
      destruct Hx as (p & Heq & Hp). now apply (Hnew p).
  - intros (p & Hp & Heq).
    assert (Htaken : existsb (fun p => (Profiles.id p =? au_id NEW)%string)
                       (profiles db) = true).
    { apply existsb_exists. exists p. split; [exact Hp|].
      now apply String.eqb_eq. }
    rewrite Htaken. eauto.
Qed.

End Integrity.

(* ===================================================================== *)
(** * The layout *)
(* ===================================================================== *)

Section Navigation.
Import Layout.

(** X26. At most one navigation item is shown as active: exactly the item
    whose address is the current path when the path is one of the four
    addresses, and none otherwise (a sub-path or a trailing slash activates
    nothing). *)
Theorem one_active_item (pathname : string) :
  (forall i, In i navigation -> href i = pathname -> active pathname = [i])
  /\ ((forall i, In i navigation -> href i <> pathname) ->
      active pathname = [])
  /\ (List.length (active pathname) <= 1)%nat.
Proof.
  unfold active, navigation, isActive. cbn [filter href In].
  destruct (pathname =? "/dashboard")%string eqn:E1;
    destruct (pathname =? "/prompts")%string eqn:E2;
    destruct (pathname =? "/run")%string eqn:E3;
    destruct (pathname =? "/analytics")%string eqn:E4;
    rewrite ?String.eqb_eq, ?String.eqb_neq in *;
    try congruence;
    (split; [|split; [|simpl; lia]]);
    try (intros i [<-|[<-|[<-|[<-|[]]]]] H; simpl in H; congruence);
    try (intros H; exfalso;
         first [ apply (H {| name := "Dashboard"; href := "/dashboard" |});
                 [tauto | simpl; congruence]
               | apply (H {| name := "Prompts"; href := "/prompts" |});
                 [tauto | simpl; congruence]
               | apply (H {| name := "Run"; href := "/run" |});
                 [tauto | simpl; congruence]
               | apply (H {| name := "Analytics"; href := "/analytics" |});
                 [tauto | simpl; congruence] ]);
    try reflexivity.
Qed.

End Navigation.
